(** * Contract dashboard: the Excel import pipeline

    A shallow embedding of the import-and-normalisation code of the
    contract dashboard: [dateUtils] ([safeParseDate], [safeParseISO],
    [isValidDate]), [excelUtils] ([parseExcelDate], [processExcelData],
    [readExcelFile]) and the two versions of the [App] component (the one
    that normalises rows inline and the one that calls [readExcelFile]).

    The ECMAScript built-ins the code uses (numbers, truthiness, [Date] time
    values, [trim], [split], [parseInt], regular-expression tests) are
    written out in [Module JS].  What comes from third-party libraries
    (date-fns, SheetJS) or is implementation-defined in ECMAScript is a
    field of the [Host] class; [Module RefHost] gives one executable
    instance. *)

From Stdlib Require Import ZArith QArith Qabs String Ascii List Lia Bool.
From stdpp Require Import base option gmap strings.
Import ListNotations.

Local Open Scope string_scope.
Local Open Scope Z_scope.

(** ** ECMAScript values *)

Module JS.

(** *** Numbers

    A Number is NaN, an infinity or a finite value.  Finite values are
    rationals and -0 is identified with 0.  The arithmetic operators below
    are exact; the code applies them to whole numbers, and the statements
    about them stay within the range where binary64 is exact.  A whole
    number read from a string is rounded to binary64 ([Number_of_Z]). *)
Inductive number : Type :=
  | NaN
  | Inf (negative : bool)
  | Fin (q : Q).

Definition of_Z (z : Z) : number := Fin (inject_Z z).

(** The Number value for a whole number: the nearest binary64 value, an
    even significand on a tie, and an infinity from 2^1024 - 2^970 on.
    Up to 2^53 every whole number is a Number. *)
Definition Number_of_Z (z : Z) : number :=
  let a := Z.abs z in
  if (a <=? 2 ^ 53)%Z then of_Z z
  else
    let e := (Z.log2 a - 52)%Z in
    let q := (a / 2 ^ e)%Z in
    let r := (a mod 2 ^ e)%Z in
    let half := (2 ^ (e - 1))%Z in
    let q' := if (half <? r)%Z || ((r =? half)%Z && Z.odd q)
              then (q + 1)%Z else q in
    if (2 ^ 1024 <=? q' * 2 ^ e)%Z then Inf (z <? 0)%Z
    else of_Z (Z.sgn z * (q' * 2 ^ e)).

Definition Qzero (q : Q) : bool := (Qnum q =? 0)%Z.
Definition Qneg (q : Q) : bool := (Qnum q <? 0)%Z.

(** ToBoolean on a Number: 0 and NaN are falsy. *)
Definition num_truthy (n : number) : bool :=
  match n with
  | NaN => false
  | Inf _ => true
  | Fin q => negb (Qzero q)
  end.

(** [a || b] on Numbers. *)
Definition num_or (a b : number) : number := if num_truthy a then a else b.

Definition num_add (a b : number) : number :=
  match a, b with
  | NaN, _ | _, NaN => NaN
  | Inf s, Inf s' => if Bool.eqb s s' then Inf s else NaN
  | Inf s, Fin _ | Fin _, Inf s => Inf s
  | Fin x, Fin y => Fin (x + y)%Q
  end.

Definition num_neg (a : number) : number :=
  match a with
  | NaN => NaN
  | Inf s => Inf (negb s)
  | Fin x => Fin (- x)%Q
  end.

Definition num_sub (a b : number) : number := num_add a (num_neg b).

Definition num_mul (a b : number) : number :=
  match a, b with
  | NaN, _ | _, NaN => NaN
  | Inf s, Inf s' => Inf (xorb s s')
  | Inf s, Fin y | Fin y, Inf s =>
      if Qzero y then NaN else Inf (xorb s (Qneg y))
  | Fin x, Fin y => Fin (x * y)%Q
  end.

(** [a <= b]; false as soon as one side is NaN. *)
Definition num_le (a b : number) : bool :=
  match a, b with
  | NaN, _ | _, NaN => false
  | Inf true, _ => true
  | _, Inf false => true
  | Inf false, _ => false
  | _, Inf true => false
  | Fin x, Fin y => Qle_bool x y
  end.

Definition num_lt (a b : number) : bool :=
  match a, b with
  | NaN, _ | _, NaN => false
  | _, _ => negb (num_le b a)
  end.

(** [Math.max(a, b)]: NaN if either argument is NaN. *)
Definition Math_max (a b : number) : number :=
  match a, b with
  | NaN, _ | _, NaN => NaN
  | _, _ => if num_le a b then b else a
  end.

(** [isNaN] on a value that is already a Number. *)
Definition isNaN (n : number) : bool :=
  match n with NaN => true | _ => false end.

(** Truncation toward zero of a finite value (ToIntegerOrInfinity). *)
Definition Qtrunc (q : Q) : Z := Z.quot (Qnum q) (Z.pos (Qden q)).

(** *** Date objects

    A Date is its time value: NaN ([InvalidDate]) or an integral number of
    milliseconds since 1970-01-01T00:00:00Z. *)
Inductive Date : Type :=
  | InvalidDate
  | DateAt (t : Z).

Definition msPerDay : Z := 86400000.
Definition maxTime : Z := 8640000000000000.

(** [d.getTime()]. *)
Definition getTime (d : Date) : number :=
  match d with
  | InvalidDate => NaN
  | DateAt t => of_Z t
  end.

(** TimeClip on an integral time. *)
Definition TimeClipZ (t : Z) : Date :=
  if (Z.abs t <=? maxTime)%Z then DateAt t else InvalidDate.

(** TimeClip, which is what [new Date(n)] does with a Number [n]. *)
Definition TimeClip (n : number) : Date :=
  match n with
  | Fin q => if Qle_bool (Qabs q) (inject_Z maxTime) then DateAt (Qtrunc q)
             else InvalidDate
  | _ => InvalidDate
  end.

(** Calendar arithmetic of ECMAScript (proleptic Gregorian). *)
Definition DayFromYear (y : Z) : Z :=
  365 * (y - 1970) + (y - 1969) / 4 - (y - 1901) / 100 + (y - 1601) / 400.

Definition isLeapYear (y : Z) : bool :=
  ((y mod 4 =? 0) && negb (y mod 100 =? 0)) || (y mod 400 =? 0).

(** Days before month [m] (0-based) within a year. *)
Definition daysBeforeMonth (leap : bool) (m : Z) : Z :=
  let l := if leap then 1 else 0 in
  match m with
  | 0 => 0 | 1 => 31 | 2 => 59 + l | 3 => 90 + l | 4 => 120 + l
  | 5 => 151 + l | 6 => 181 + l | 7 => 212 + l | 8 => 243 + l
  | 9 => 273 + l | 10 => 304 + l | _ => 334 + l
  end.

(** MakeDay(year, month, date) with integral arguments; [month] is 0-based
    and may lie outside 0..11, [date] may lie outside the month. *)
Definition MakeDay (year month date : Z) : Z :=
  let ym := year + month / 12 in
  let mn := month mod 12 in
  DayFromYear ym + daysBeforeMonth (isLeapYear ym) mn + date - 1.

(** MakeDate(day, time). *)
Definition MakeDate (day time : Z) : Z := day * msPerDay + time.

(** The civil date (year, month 1..12, day 1..31) of a day number. *)
Definition civil_from_days (z0 : Z) : Z * Z * Z :=
  let z := z0 + 719468 in
  let era := z / 146097 in
  let doe := z - era * 146097 in
  let yoe := (doe - doe / 1460 + doe / 36524 - doe / 146096) / 365 in
  let y := yoe + era * 400 in
  let doy := doe - (365 * yoe + yoe / 4 - yoe / 100) in
  let mp := (5 * doy + 2) / 153 in
  let d := doy - (153 * mp + 2) / 5 + 1 in
  let m := if mp <? 10 then mp + 3 else mp - 9 in
  (if m <=? 2 then y + 1 else y, m, d).

(** Day(t) and TimeWithinDay(t). *)
Definition Day (t : Z) : Z := t / msPerDay.
Definition TimeWithinDay (t : Z) : Z := t mod msPerDay.

(** *** Strings *)

Definition digit_char (n : Z) : ascii := ascii_of_N (48 + Z.to_N (n mod 10)).

(** [n] written with exactly [k] decimal digits (padStart with zeros). *)
Fixpoint pad (k : nat) (n : Z) : string :=
  match k with
  | O => EmptyString
  | S k' => pad k' (n / 10) ++ String (digit_char n) EmptyString
  end.

(** Exceptions the modelled code can meet. *)
Inductive exn : Type :=
  | RangeError
  | TypeError
  | Error (msg : string).

Inductive result (A : Type) : Type :=
  | Ok (a : A)
  | Throw (e : exn).
Arguments Ok {A} a.
Arguments Throw {A} e.

(** The UTC rendering YYYY-MM-DDTHH:mm:ss.sssZ of a time value (six-digit
    signed years outside 0..9999). *)
Definition isoString (t : Z) : string :=
  let '(y, m, dd) := civil_from_days (Day t) in
  let tw := TimeWithinDay t in
  let ys := if (0 <=? y) && (y <=? 9999) then pad 4 y
            else (if y <? 0 then "-" else "+") ++ pad 6 (Z.abs y) in
  ys ++ "-" ++ pad 2 m ++ "-" ++ pad 2 dd ++ "T"
     ++ pad 2 (tw / 3600000) ++ ":" ++ pad 2 (tw / 60000 mod 60)
     ++ ":" ++ pad 2 (tw / 1000 mod 60) ++ "." ++ pad 3 (tw mod 1000)
     ++ "Z".

(** [d.toISOString()]: a RangeError on an invalid Date. *)
Definition toISOString (d : Date) : result string :=
  match d with
  | InvalidDate => Throw RangeError
  | DateAt t => Ok (isoString t)
  end.

(** *** Cell values

    What a cell of a decoded sheet can hold; [Missing] is [undefined], the
    value of a key the row does not have. *)
Inductive value : Type :=
  | Missing
  | Text (s : string)
  | Number (n : number)
  | Boolean (b : bool)
  | DateValue (d : Date).

Definition is_empty (s : string) : bool :=
  match s with EmptyString => true | String _ _ => false end.

(** ToBoolean. *)
Definition truthy (v : value) : bool :=
  match v with
  | Missing => false
  | Text s => negb (is_empty s)
  | Number n => num_truthy n
  | Boolean b => b
  | DateValue _ => true
  end.

(** [a || b] on values. *)
Definition or_else (a b : value) : value := if truthy a then a else b.

(** White space and line terminators among the code units below 256. *)
Definition isWhiteSpace (c : ascii) : bool :=
  let n := N_of_ascii c in
  ((n =? 9) || (n =? 10) || (n =? 11) || (n =? 12) || (n =? 13)
   || (n =? 32) || (n =? 160))%N.

Fixpoint trimStart (s : string) : string :=
  match s with
  | EmptyString => EmptyString
  | String c s' => if isWhiteSpace c then trimStart s' else s
  end.

Fixpoint trimEnd (s : string) : string :=
  match s with
  | EmptyString => EmptyString
  | String c s' =>
      let r := trimEnd s' in
      if isWhiteSpace c && is_empty r then EmptyString else String c r
  end.

(** [s.trim()]. *)
Definition trim (s : string) : string := trimEnd (trimStart s).

(** The string holds white space only (the empty string does). *)
Fixpoint whitespace_only (s : string) : bool :=
  match s with
  | EmptyString => true
  | String c s' => isWhiteSpace c && whitespace_only s'
  end.

(** [s.includes(sub)]. *)
Fixpoint includes (s sub : string) : bool :=
  String.prefix sub s
  || match s with
     | EmptyString => false
     | String _ s' => includes s' sub
     end.

(** [s.split(sep)] for a one-character separator. *)
Fixpoint split (sep : ascii) (s : string) : list string :=
  match s with
  | EmptyString => [EmptyString]
  | String c s' =>
      let r := split sep s' in
      if Ascii.eqb c sep then EmptyString :: r
      else match r with
           | h :: t => String c h :: t
           | [] => [String c EmptyString]
           end
  end.

(** The regular expressions of the code are anchored sequences of [\d] and
    literal characters. *)
Inductive atom : Type :=
  | Digit
  | Lit (c : ascii).

Definition isDigit (c : ascii) : bool :=
  let n := N_of_ascii c in ((48 <=? n) && (n <=? 57))%N.

(** [/^p$/.test(s)]. *)
Fixpoint test (p : list atom) (s : string) : bool :=
  match p, s with
  | [], EmptyString => true
  | Digit :: p', String c s' => isDigit c && test p' s'
  | Lit a :: p', String c s' => Ascii.eqb a c && test p' s'
  | _, _ => false
  end.

(** The value of a digit in radix [r], if it is one. *)
Definition digit_value (r : Z) (c : ascii) : option Z :=
  let n := Z.of_N (N_of_ascii c) in
  let v := if (48 <=? n) && (n <=? 57) then Some (n - 48)
           else if (97 <=? n) && (n <=? 122) then Some (n - 87)
           else if (65 <=? n) && (n <=? 90) then Some (n - 55)
           else None in
  match v with
  | Some d => if d <? r then Some d else None
  | None => None
  end.

(** The longest prefix of radix-[r] digits, read as a number; [None] when
    there is no digit. *)
Fixpoint read_digits (r : Z) (acc : option Z) (s : string) : option Z :=
  match s with
  | EmptyString => acc
  | String c s' =>
      match digit_value r c with
      | Some d => read_digits r (Some (default 0 acc * r + d)) s'
      | None => acc
      end
  end.

(** [parseInt(s)] without a radix argument.  The digits are read as a
    whole number, which is then rounded to a Number (beyond 20 significant
    decimal digits the standard allows an implementation to read the
    later ones as 0; the statements below do not go that far). *)
Definition parseInt (s : string) : number :=
  let s1 := trimStart s in
  let '(sign, s2) :=
    match s1 with
    | String "-" t => (-1, t)
    | String "+" t => (1, t)
    | _ => (1, s1)
    end in
  let '(r, s3) :=
    match s2 with
    | String "0" (String "x" t) | String "0" (String "X" t) => (16, t)
    | _ => (10, s2)
    end in
  match read_digits r None s3 with
  | Some n => Number_of_Z (sign * n)
  | None => NaN
  end.

(** [new Date(year, month, date)].  The fields are a local time [t], and
    the time value is UTC(t) = t - LocalTZA(t, false): [tza t isUTC] is
    the offset of the zone from UTC, in milliseconds, at the instant [t],
    which is a time value when [isUTC] and a local time otherwise. *)
Definition Date_of_fields (tza : Z -> bool -> Z) (year month date : number)
  : Date :=
  match year, month, date with
  | Fin y, Fin m, Fin d =>
      let yi := Qtrunc y in
      let yr := if (0 <=? yi) && (yi <=? 99) then 1900 + yi else yi in
      let t := MakeDate (MakeDay yr (Qtrunc m) (Qtrunc d)) 0 in
      TimeClipZ (t - tza t false)
  | _, _, _ => InvalidDate
  end.

(** The fields of a time value seen at the offset [tza]: year, month
    (0-based), day of the month, and the milliseconds since local
    midnight. *)
Definition local_fields (tza : Z) (t : Z) : Z * Z * Z * Z :=
  let lt := t + tza in
  let '(y, m, d) := civil_from_days (Day lt) in
  (y, m - 1, d, TimeWithinDay lt).

End JS.

Import JS.

(** ** The ambient clock and exceptions

    [new Date()] reads the system clock.  A [Clock] is the sequence of the
    readings still to come and the number already consumed; a computation
    threads it and either returns or throws. *)

Record Clock : Type := mkClock { readings : nat -> Z; pos : nat }.

Definition M (A : Type) : Type := Clock -> result A * Clock.

Definition ret {A} (a : A) : M A := fun c => (Ok a, c).

Definition bind {A B} (m : M A) (k : A -> M B) : M B :=
  fun c => match m c with
           | (Ok a, c') => k a c'
           | (Throw e, c') => (Throw e, c')
           end.

Definition throw {A} (e : exn) : M A := fun c => (Throw e, c).

Definition lift {A} (r : result A) : M A := fun c => (r, c).

(** [try { m } catch (e) { h e }]. *)
Definition try_catch {A} (m : M A) (h : exn -> M A) : M A :=
  fun c => match m c with
           | (Ok a, c') => (Ok a, c')
           | (Throw e, c') => h e c'
           end.

(** [new Date()]. *)
Definition new_Date : M Date :=
  fun c => (Ok (DateAt (readings c (pos c))),
            {| readings := readings c; pos := S (pos c) |}).

Notation "x <- m ;; k" := (bind m (fun x => k))
  (at level 100, m at next level, right associativity).

(** [data.map((item, index) => f(item, index))], from index [i] on. *)
Fixpoint map_indexed {A B} (f : A -> nat -> M B) (i : nat) (l : list A)
  : M (list B) :=
  match l with
  | [] => ret []
  | x :: l' =>
      y <- f x i;;
      ys <- map_indexed f (S i) l';;
      ret (y :: ys)
  end.

(** The clock after [n] more readings. *)
Definition after (n : nat) (c : Clock) : Clock :=
  {| readings := readings c; pos := (n + pos c)%nat |}.

(** Two clocks that will show the same readings. *)
Definition same_readings (c c' : Clock) : Prop :=
  forall n : nat, readings c (n + pos c)%nat = readings c' (n + pos c')%nat.

(** A clock that shows [now] at every reading. *)
Definition frozen (now : Z) : Clock := {| readings := fun _ => now; pos := 0 |}.

(** ** Rows, records and the libraries *)

(** A row of [XLSX.utils.sheet_to_json]: column header to cell value. *)
Abbreviation RawRow := (gmap string value).

(** [item[key]]. *)
Definition get (item : RawRow) (key : string) : value :=
  default Missing (item !! key).

(** A decoded workbook, over the library's worksheet type. *)
Record WorkBook (WS : Type) : Type :=
  { SheetNames : list string; Sheets : gmap string WS }.
Arguments SheetNames {WS} _.
Arguments Sheets {WS} _.

(** A [File] as [FileReader.readAsBinaryString] sees it: the binary string
    handed to [onload], or [None] when [onerror] fires. *)
Record File : Type := { readAsBinaryString : option string }.

(** What the code takes from its environment: the zone offsets, the
    implementation-defined conversions of ECMAScript, date-fns and SheetJS. *)
Class Host : Type := {
  (** LocalTZA(t, isUTC): the offset of local time from UTC in
      milliseconds at the instant [t], a time value when [isUTC] and a
      local time otherwise; it changes with summer time and with the
      history of the zone *)
  LocalTZA : Z -> bool -> Z;
  (** [new Date(s)] on a string *)
  Date_parse : string -> Date;
  (** [Number(s)] on a string *)
  StringToNumber : string -> number;
  (** [String(n)] on a Number and [String(d)] on a Date *)
  NumberToString : number -> string;
  DateToString : Date -> string;
  (** date-fns *)
  parseISO : string -> result Date;
  parse : string -> string -> Date -> result Date;
  addMonths : Date -> number -> Date;
  differenceInDays : Date -> Date -> number;
  differenceInMonths : Date -> Date -> number;
  (** SheetJS: [XLSX.read(bstr, {type: "binary"})] and
      [XLSX.utils.sheet_to_json(ws)] *)
  WorkSheet : Type;
  XLSX_read : string -> result (WorkBook WorkSheet);
  sheet_to_json : option WorkSheet -> result (list RawRow)
}.

(** date-fns [isValid] on a Date object. *)
Definition isValid (d : Date) : bool := negb (isNaN (getTime d)).

(** The record both versions of the app build (ContractData in the
    component, ProcessedContractData in excelUtils).  [name] and [status]
    are values: the component casts the cell without converting it. *)
Record ContractData : Type := {
  id : number;
  name : value;
  status : value;
  startDate : option string;
  endDate : option string;
  restDays : number;
  laufzeit : number;
  abgelaufeneMonate : number
}.

(** [d?.toISOString() || null]. *)
Definition toISOString_or_null (d : option Date) : M (option string) :=
  match d with
  | None => ret None
  | Some d =>
      s <- lift (toISOString d);;
      ret (if is_empty s then None else Some s)
  end.

Section Conversions.
Context `{Host}.

(** [Number(v)]. *)
Definition ToNumber (v : value) : number :=
  match v with
  | Missing => NaN
  | Text s => StringToNumber s
  | Number n => n
  | Boolean b => of_Z (if b then 1 else 0)
  | DateValue d => getTime d
  end.

(** [String(v)]. *)
Definition ToString (v : value) : string :=
  match v with
  | Missing => "undefined"
  | Text s => s
  | Number n => NumberToString n
  | Boolean b => if b then "true" else "false"
  | DateValue d => DateToString d
  end.

End Conversions.

(** ** utils/dateUtils *)

Module dateUtils.
Section dateUtils.
Context `{Host}.

Definition formats : list string :=
  [ "yyyy-MM-dd";
    "dd.MM.yyyy";
    "MM/dd/yyyy";
    "dd/MM/yyyy";
    "yyyy/MM/dd";
    "yyyy-MM-dd HH:mm:ss";
    "dd.MM.yyyy HH:mm:ss" ].

(** One turn of the loop over [formats]: the parsed date when it is valid;
    an exception of [parse] is swallowed. *)
Definition tryFormat (trimmed format : string) : M (option Date) :=
  try_catch
    (now <- new_Date;;
     parsed <- lift (parse trimmed format now);;
     ret (if isValid parsed then Some parsed else None))
    (fun _ => ret None).

(** The loop [for (const format of formats)], leaving at the first valid
    date. *)
Fixpoint tryFormats (trimmed : string) (fs : list string) : M (option Date) :=
  match fs with
  | [] => ret None
  | format :: fs' =>
      r <- tryFormat trimmed format;;
      match r with
      | Some parsed => ret (Some parsed)
      | None => tryFormats trimmed fs'
      end
  end.

Definition safeParseDate (dateInput : value) : M (option Date) :=
  if negb (truthy dateInput) then ret None
  else
    try_catch
      (match dateInput with
       | DateValue d => ret (if isValid d then Some d else None)
       | Number n =>
           let date := TimeClip n in
           ret (if isValid date then Some date else None)
       | Text s =>
           let trimmed := trim s in
           if is_empty trimmed then ret None
           else
             iso <- (if includes trimmed "T" || includes trimmed "Z"
                     then isoDate <- lift (parseISO trimmed);;
                          ret (if isValid isoDate then Some isoDate else None)
                     else ret None);;
             match iso with
             | Some isoDate => ret (Some isoDate)
             | None =>
                 r <- tryFormats trimmed formats;;
                 match r with
                 | Some parsed => ret (Some parsed)
                 | None =>
                     let nativeDate := Date_parse trimmed in
                     ret (if isValid nativeDate then Some nativeDate
                          else None)
                 end
             end
       | _ => ret None
       end)
      (fun _ => ret None).

Definition safeParseISO (isoString : option string) : M (option Date) :=
  match isoString with
  | None => ret None
  | Some s =>
      if is_empty s then ret None
      else
        try_catch
          (date <- lift (parseISO s);;
           ret (if isValid date then Some date else None))
          (fun _ => ret None)
  end.

Definition isValidDate (date : value) : bool :=
  match date with
  | DateValue d => isValid d
  | _ => false
  end.

End dateUtils.
End dateUtils.

(** ** utils/excelUtils *)

Module excelUtils.
Section excelUtils.
Context `{Host}.

(** The three regular expressions of [parseExcelDate]:
    [/^\d{4}-\d{2}-\d{2}$/], [/^\d{2}\.\d{2}\.\d{4}$/] and
    [/^\d{2}\/\d{2}\/\d{4}$/]. *)
Definition formats : list (list atom) :=
  [ [Digit; Digit; Digit; Digit; Lit "-"; Digit; Digit; Lit "-"; Digit; Digit];
    [Digit; Digit; Lit "."; Digit; Digit; Lit "."; Digit; Digit; Digit; Digit];
    [Digit; Digit; Lit "/"; Digit; Digit; Lit "/"; Digit; Digit; Digit; Digit] ].

(** [isNaN(date.getTime()) ? null : date]. *)
Definition null_if_NaN (date : Date) : option Date :=
  if isNaN (getTime date) then None else Some date.

(** [const [a, b, c] = parts], then [new Date(parseInt(year),
    parseInt(month) - 1, parseInt(day))].  A missing element is
    [undefined], which [parseInt] reads as NaN, like the empty string. *)
Definition date_of_parts (year month day : string) : Date :=
  Date_of_fields LocalTZA (parseInt year)
    (num_sub (parseInt month) (of_Z 1)) (parseInt day).

(** No operation inside the [try] block of the source can throw, so the
    function is written without the monad. *)
Definition parseExcelDate (dateValue : value) : option Date :=
  if negb (truthy dateValue) then None
  else
    match dateValue with
    | DateValue d => null_if_NaN d
    | Number n =>
        let excelEpoch := Date_of_fields LocalTZA (of_Z 1900) (of_Z 0) (of_Z 1) in
        let date :=
          TimeClip
            (num_add (getTime excelEpoch)
               (num_mul
                  (num_mul
                     (num_mul (num_mul (num_sub n (of_Z 1)) (of_Z 24))
                        (of_Z 60))
                     (of_Z 60))
                  (of_Z 1000))) in
        null_if_NaN date
    | Text s =>
        let trimmed := trim s in
        if is_empty trimmed then None
        else if test (nth 0 formats []) trimmed then
          null_if_NaN (Date_parse (trimmed ++ "T00:00:00"))
        else if test (nth 1 formats []) trimmed then
          let parts := split "." trimmed in
          let day := nth 0 parts EmptyString in
          let month := nth 1 parts EmptyString in
          let year := nth 2 parts EmptyString in
          null_if_NaN (date_of_parts year month day)
        else if test (nth 2 formats []) trimmed then
          let parts := split "/" trimmed in
          let month := nth 0 parts EmptyString in
          let day := nth 1 parts EmptyString in
          let year := nth 2 parts EmptyString in
          null_if_NaN (date_of_parts year month day)
        else
          null_if_NaN (Date_parse trimmed)
    | _ => None
    end.

(** The duration cell: [parseInt] on a string, [Number] otherwise, and 0
    for a falsy result. *)
Definition durationMonths_of (cell : value) : number :=
  match cell with
  | Text s => num_or (parseInt s) (of_Z 0)
  | _ => num_or (ToNumber cell) (of_Z 0)
  end.

(** The callback of [data.map] in [processExcelData]. *)
Definition processItem (item : RawRow) (index : nat) : M ContractData :=
  let startDate := parseExcelDate (get item "Startdatum") in
  let durationMonths := durationMonths_of (get item "Laufzeit in M") in
  let endDate :=
    match startDate with
    | Some d => Some (addMonths d durationMonths)
    | None => None
    end in
  restDays <- match endDate with
              | Some e => now <- new_Date;; ret (differenceInDays e now)
              | None => ret (of_Z 0)
              end;;
  abgelaufeneMonate <- match startDate with
                       | Some d => now <- new_Date;;
                                   ret (differenceInMonths now d)
                       | None => ret (of_Z 0)
                       end;;
  startISO <- toISOString_or_null startDate;;
  endISO <- toISOString_or_null endDate;;
  ret {| id := of_Z (Z.of_nat index + 1);
         name := Text (ToString (or_else (get item "Name") (Text "Unbenannt")));
         status := Text (ToString (or_else (get item "Status") (Text "online")));
         startDate := startISO;
         endDate := endISO;
         restDays := restDays;
         laufzeit := durationMonths;
         abgelaufeneMonate := Math_max (of_Z 0) abgelaufeneMonate |}.

Definition processExcelData (data : list RawRow) : M (list ContractData) :=
  map_indexed processItem 0 data.

(** The promise of [readExcelFile]: it resolves with the records ([Ok]) or
    rejects ([Throw]). *)
Definition readExcelFile (file : File) : M (list ContractData) :=
  match readAsBinaryString file with
  | Some bstr =>
      try_catch
        (workbook <- lift (XLSX_read bstr);;
         let worksheet :=
           match SheetNames workbook with
           | sheetName :: _ => Sheets workbook !! sheetName
           | [] => None
           end in
         jsonData <- lift (sheet_to_json worksheet);;
         processedData <- processExcelData jsonData;;
         ret processedData)
        (fun error => throw error)
  | None => throw (Error "Failed to read file")
  end.

End excelUtils.
End excelUtils.

(** ** The component *)

(** What [getStatusBadge] renders. *)
Inductive Badge : Type :=
  | Abgelaufen
  | Faellig
  | Online
  | Secondary (status : string).

(** *** The version that normalises the rows itself *)

Module AppInline.
Section AppInline.
Context `{Host}.

(** The callback of [data.map] in [handleImportExcel]. *)
Definition formatItem (item : RawRow) (index : nat) : M ContractData :=
  startDate <- dateUtils.safeParseDate (get item "Startdatum");;
  let durationMonths := num_or (ToNumber (get item "Laufzeit in M")) (of_Z 0) in
  let endDate :=
    match startDate with
    | Some d => if dateUtils.isValidDate (DateValue d)
                then Some (addMonths d durationMonths) else None
    | None => None
    end in
  restDays <- match endDate with
              | Some e => if dateUtils.isValidDate (DateValue e)
                          then now <- new_Date;; ret (differenceInDays e now)
                          else ret (of_Z 0)
              | None => ret (of_Z 0)
              end;;
  abgelaufeneMonate <- match startDate with
                       | Some d => if dateUtils.isValidDate (DateValue d)
                                   then now <- new_Date;;
                                        ret (differenceInMonths now d)
                                   else ret (of_Z 0)
                       | None => ret (of_Z 0)
                       end;;
  startISO <- toISOString_or_null startDate;;
  endISO <- toISOString_or_null endDate;;
  ret {| id := of_Z (Z.of_nat index + 1);
         name := or_else (get item "Name") (Text "Unbenannt");
         status := or_else (get item "Status") (Text "online");
         startDate := startISO;
         endDate := endISO;
         restDays := restDays;
         laufzeit := durationMonths;
         abgelaufeneMonate := abgelaufeneMonate |}.

(** [formatted], the rows [handleImportExcel] hands to [setRows]. *)
Definition formatted (data : list RawRow) : M (list ContractData) :=
  map_indexed formatItem 0 data.

Definition getStatusBadge (status : string) (restDays : number) : Badge :=
  if num_le restDays (of_Z 0) then Abgelaufen
  else if num_le restDays (of_Z 30) then Faellig
  else if String.eqb status "online" then Online
  else Secondary status.

End AppInline.
End AppInline.

(** *** The version that calls [readExcelFile] *)

Module App.
Section App.
Context `{Host}.

(** The state of the component that the import touches. *)
Record State : Type := {
  rows : list ContractData;
  isLoading : bool;
  error : option string
}.

Inductive update : Type :=
  | setRows (processedData : list ContractData)
  | setIsLoading (b : bool)
  | setError (e : option string).

Definition apply (s : State) (u : update) : State :=
  match u with
  | setRows r => {| rows := r; isLoading := isLoading s; error := error s |}
  | setIsLoading b => {| rows := rows s; isLoading := b; error := error s |}
  | setError e => {| rows := rows s; isLoading := isLoading s; error := e |}
  end.

(** The message of [setError] (the bytes of its UTF-8 text). *)
Definition errorMessage : string :=
  "Fehler beim Laden der Excel-Datei. Bitte überprüfen Sie das Format.".

(** The state updates [handleImportExcel] issues, in order, for the file of
    the change event ([None] when no file was chosen). *)
Definition handleImportExcel (file : option File) : M (list update) :=
  match file with
  | None => ret []
  | Some file =>
      outcome <- try_catch
                   (processedData <- excelUtils.readExcelFile file;;
                    ret [setRows processedData])
                   (fun err => ret [setError (Some errorMessage)]);;
      ret ([setIsLoading true; setError None] ++ outcome
           ++ [setIsLoading false])%list
  end.

(** The states the component goes through: after each update. *)
Fixpoint states (s : State) (us : list update) : list State :=
  match us with
  | [] => []
  | u :: us' => apply s u :: states (apply s u) us'
  end.

Definition final (s : State) (us : list update) : State :=
  fold_left apply us s.

Definition getStatusBadge (status : string) (restDays : number) : Badge :=
  if num_le restDays (of_Z 0) then Abgelaufen
  else if num_le restDays (of_Z 30) then Faellig
  else if String.eqb status "online" then Online
  else Secondary status.

End App.
End App.

(** ** A reference host

    One executable instance of [Host], used to run the code on concrete
    rows: UTC as the local zone, the date-time string format of ECMAScript
    for [new Date(s)], the fixed-width reading of date-fns patterns, and
    the calendar arithmetic of date-fns 3 as its documentation and source
    give it.  The decoder knows a finite table of files. *)

Module RefHost.

Definition tza : Z := 0.

(** *** Reading fixed-width patterns *)

Inductive field : Type :=
  | FNum (tag : ascii) (width : nat)
  | FLit (c : ascii).

Definition isTag (c : ascii) : bool :=
  existsb (Ascii.eqb c) ["y"; "M"; "d"; "H"; "m"; "s"; "S"]%char.

Fixpoint tokenize (fmt : string) : list field :=
  match fmt with
  | EmptyString => []
  | String c rest =>
      let t := tokenize rest in
      if isTag c then
        match t with
        | FNum c' w :: t' =>
            if Ascii.eqb c c' then FNum c (S w) :: t' else FNum c 1 :: t
        | _ => FNum c 1 :: t
        end
      else FLit c :: t
  end.

Fixpoint read_num (w : nat) (acc : Z) (s : string) : option (Z * string) :=
  match w with
  | O => Some (acc, s)
  | S w' =>
      match s with
      | String c s' =>
          if isDigit c
          then read_num w' (acc * 10 + (Z.of_N (N_of_ascii c) - 48)) s'
          else None
      | EmptyString => None
      end
  end.

Fixpoint scan (fs : list field) (s : string) : option (list (ascii * Z)) :=
  match fs with
  | [] => if is_empty s then Some [] else None
  | FNum tag w :: fs' =>
      match read_num w 0 s with
      | Some (n, s') =>
          match scan fs' s' with
          | Some env => Some ((tag, n) :: env)
          | None => None
          end
      | None => None
      end
  | FLit c :: fs' =>
      match s with
      | String c' s' => if Ascii.eqb c c' then scan fs' s' else None
      | EmptyString => None
      end
  end.

Fixpoint lookup_tag (tag : ascii) (env : list (ascii * Z)) : option Z :=
  match env with
  | [] => None
  | (t, n) :: env' => if Ascii.eqb t tag then Some n else lookup_tag tag env'
  end.

Definition daysInMonth (y m : Z) : Z := MakeDay y m 1 - MakeDay y (m - 1) 1.

(** The date of the fields read, at offset [off] from UTC; invalid when a
    field is out of its range. *)
Definition assemble (off : Z) (env : list (ascii * Z)) : Date :=
  match lookup_tag "y" env, lookup_tag "M" env, lookup_tag "d" env with
  | Some y, Some mo, Some d =>
      let h := default 0 (lookup_tag "H" env) in
      let mi := default 0 (lookup_tag "m" env) in
      let sec := default 0 (lookup_tag "s" env) in
      let ms := default 0 (lookup_tag "S" env) in
      if (1 <=? mo) && (mo <=? 12) && (1 <=? d) && (d <=? daysInMonth y mo)
         && (h <=? 23) && (mi <=? 59) && (sec <=? 59)
      then TimeClipZ (MakeDate (MakeDay y (mo - 1) d)
                        (((h * 60 + mi) * 60 + sec) * 1000 + ms) - off)
      else InvalidDate
  | _, _, _ => InvalidDate
  end.

Definition read_as (off : Z) (fmt s : string) : Date :=
  match scan (tokenize fmt) s with
  | Some env => assemble off env
  | None => InvalidDate
  end.

(** The first pattern of [fmts] the string has the shape of. *)
Fixpoint read_first (fmts : list (string * Z)) (s : string) : Date :=
  match fmts with
  | [] => InvalidDate
  | (fmt, off) :: fmts' =>
      match scan (tokenize fmt) s with
      | Some env => assemble off env
      | None => read_first fmts' s
      end
  end.

(** [new Date(s)]: the date-time string format; a date alone is UTC, a
    date-time without offset is local. *)
Definition Date_parse (s : string) : Date :=
  read_first [("yyyy-MM-dd", 0); ("yyyy-MM-ddTHH:mm:ss", tza);
              ("yyyy-MM-ddTHH:mm:ss.SSS", tza); ("yyyy-MM-ddTHH:mm:ssZ", 0);
              ("yyyy-MM-ddTHH:mm:ss.SSSZ", 0)] s.

(** date-fns [parseISO]: as above, but a date alone is local. *)
Definition parseISO (s : string) : result Date :=
  Ok (read_first [("yyyy-MM-dd", tza); ("yyyy-MM-ddTHH:mm:ss", tza);
                  ("yyyy-MM-ddTHH:mm:ss.SSS", tza); ("yyyy-MM-ddTHH:mm:ssZ", 0);
                  ("yyyy-MM-ddTHH:mm:ss.SSSZ", 0)] s).

(** date-fns [parse]: the pattern read at fixed width, in local time. *)
Definition parse (s fmt : string) (referenceDate : Date) : result Date :=
  Ok (read_as tza fmt s).

(** *** Calendar arithmetic of date-fns *)

Definition setFields (y m d tw : Z) : Date :=
  TimeClipZ (MakeDate (MakeDay y m d) tw - tza).

Definition addMonths (date : Date) (amount : number) : Date :=
  match date, amount with
  | DateAt t, Fin q =>
      if Qzero q then date
      else
        let '(y, m, dayOfMonth, tw) := local_fields tza t in
        match setFields y (Qtrunc (inject_Z m + q + 1)) 0 tw with
        | DateAt e =>
            let '(ey, em, daysInMonth, _) := local_fields tza e in
            if daysInMonth <=? dayOfMonth then DateAt e
            else setFields ey em dayOfMonth tw
        | InvalidDate => InvalidDate
        end
  | _, _ => InvalidDate
  end.

(** Whole days from [dateRight] to [dateLeft], toward zero. *)
Definition differenceInDays (dateLeft dateRight : Date) : number :=
  match dateLeft, dateRight with
  | DateAt l, DateAt r => of_Z (Z.quot (l - r) msPerDay)
  | _, _ => NaN
  end.

Definition compareAsc (l r : Z) : Z := Z.sgn (l - r).

Definition isLastDayOfMonth (t : Z) : bool :=
  let '(y, m, d, _) := local_fields tza t in d =? daysInMonth y (m + 1).

(** Full months from [dateRight] to [dateLeft], toward zero. *)
Definition differenceInMonths (dateLeft dateRight : Date) : number :=
  match dateLeft, dateRight with
  | DateAt l, DateAt r =>
      let sign := compareAsc l r in
      let '(ly, lm, ld, ltw) := local_fields tza l in
      let '(ry, rm, _, _) := local_fields tza r in
      let difference := Z.abs ((ly - ry) * 12 + (lm - rm)) in
      if difference <? 1 then of_Z 0
      else
        let ld' := if (lm =? 1) && (27 <? ld) then 30 else ld in
        match setFields ly lm ld' ltw with
        | DateAt l1 =>
            let '(y1, m1, d1, tw1) := local_fields tza l1 in
            match setFields y1 (m1 - sign * difference) d1 tw1 with
            | DateAt l2 =>
                let notFull := compareAsc l2 r =? - sign in
                let notFull' :=
                  if isLastDayOfMonth l && (difference =? 1)
                     && (compareAsc l r =? 1)
                  then false else notFull in
                of_Z (sign * (difference - (if notFull' then 1 else 0)))
            | InvalidDate => NaN
            end
        | InvalidDate => NaN
        end
  | _, _ => NaN
  end.

(** *** Conversions *)

Fixpoint read_decimal (acc : Q) (scale : Q) (frac : bool) (seen : bool)
  (s : string) : option Q :=
  match s with
  | EmptyString => if seen then Some acc else None
  | String c s' =>
      if isDigit c then
        let d := inject_Z (Z.of_N (N_of_ascii c) - 48) in
        if frac
        then read_decimal (Qred (acc + d * scale)) (Qred (scale / 10)) true true s'
        else read_decimal (Qred (acc * 10 + d)) scale false true s'
      else if Ascii.eqb c "." && negb frac
      then read_decimal acc scale true seen s'
      else None
  end.

(** [Number(s)] for decimal literals and [Infinity]. *)
Definition StringToNumber (s : string) : number :=
  let t := trim s in
  if is_empty t then of_Z 0
  else
    let '(negative, u) :=
      match t with
      | String "-" u => (true, u)
      | String "+" u => (false, u)
      | _ => (false, t)
      end in
    if String.eqb u "Infinity" then Inf negative
    else match read_decimal 0 (1 # 10) false false u with
         | Some q => Fin (if negative then Qred (- q) else q)
         | None => NaN
         end.

Fixpoint decimal_digits (fuel : nat) (n : Z) (acc : string) : string :=
  match fuel with
  | O => acc
  | S fuel' =>
      let acc' := String (digit_char n) acc in
      if n <? 10 then acc' else decimal_digits fuel' (n / 10) acc'
  end.

(** [String(n)], exact on integers. *)
Definition NumberToString (n : number) : string :=
  match n with
  | NaN => "NaN"
  | Inf negative => if negative then "-Infinity" else "Infinity"
  | Fin q =>
      let z := Qtrunc q in
      (if z <? 0 then "-" else EmptyString)
      ++ decimal_digits (S (Z.to_nat (Z.log2 (Z.abs z)))) (Z.abs z)
           EmptyString
  end.

Definition DateToString (d : Date) : string :=
  match toISOString d with
  | Ok s => s
  | Throw _ => "Invalid Date"
  end.

(** *** The decoder: a table from binary strings to workbooks *)

Definition XLSX_read (files : gmap string (WorkBook (list RawRow)))
  (bstr : string) : result (WorkBook (list RawRow)) :=
  match files !! bstr with
  | Some wb => Ok wb
  | None => Throw (Error "File is not a spreadsheet")
  end.

Definition sheet_to_json (ws : option (list RawRow)) : result (list RawRow) :=
  Ok (default [] ws).

Definition host (files : gmap string (WorkBook (list RawRow))) : Host :=
  Build_Host (fun _ _ => tza) Date_parse StringToNumber NumberToString
    DateToString parseISO parse addMonths differenceInDays differenceInMonths
    (list RawRow) (XLSX_read files) sheet_to_json.

End RefHost.

(** ** Sample rows *)

Module Samples.

(** The row of the sample file for Zoom Pro. *)
Definition zoom : RawRow :=
  {[ "Name" := Text "Zoom Pro"; "Status" := Text "online";
     "Startdatum" := Text "2024-03-01"; "Laufzeit in M" := Number (of_Z 12) ]}.

(** A row whose duration cell holds -5. *)
Definition minus5 : RawRow :=
  {[ "Name" := Text "Slack Enterprise"; "Status" := Text "online";
     "Startdatum" := Text "2023-12-01"; "Laufzeit in M" := Number (of_Z (-5)) ]}.

(** A row whose contract starts in 2100. *)
Definition future : RawRow :=
  {[ "Name" := Text "AWS Services"; "Status" := Text "online";
     "Startdatum" := Text "2100-01-01"; "Laufzeit in M" := Number (of_Z 12) ]}.

(** A row without a start date. *)
Definition undated : RawRow :=
  {[ "Name" := Text "Adobe Creative Cloud"; "Laufzeit in M" := Text "6" ]}.

(** A row whose duration cell is not numeric. *)
Definition unlimited : RawRow :=
  {[ "Name" := Text "Salesforce CRM"; "Status" := Text "online";
     "Startdatum" := Text "2023-11-15"; "Laufzeit in M" := Text "unbefristet" ]}.

(** A workbook with one sheet, and a host whose decoder knows one file. *)
Definition book : WorkBook (list RawRow) :=
  {| SheetNames := ["Tabelle1"];
     Sheets := {[ "Tabelle1" := [zoom; undated] ]} |}.

Definition host : Host := RefHost.host {[ "PK sample.xlsx" := book ]}.

Definition sample_file : File := {| readAsBinaryString := Some "PK sample.xlsx" |}.
Definition broken_file : File := {| readAsBinaryString := Some "not a workbook" |}.

(** Midnight UTC of 2024-06-01 and of 2024-06-02. *)
Definition june1 : Z := MakeDate (MakeDay 2024 5 1) 0.
Definition june2 : Z := MakeDate (MakeDay 2024 5 2) 0.

(** A clock that has been read five times and shows 2024-06-01 from then
    on. *)
Definition later_clock : Clock :=
  {| readings := fun n => if (n <? 5)%nat then 0 else june1; pos := 5 |}.

(** The records of the sample rows on 2024-06-01. *)
Definition zoom_record : ContractData :=
  {| id := of_Z 4;
     name := Text "Zoom Pro";
     status := Text "online";
     startDate := Some "2024-03-01T00:00:00.000Z";
     endDate := Some "2025-03-01T00:00:00.000Z";
     restDays := of_Z 273;
     laufzeit := of_Z 12;
     abgelaufeneMonate := of_Z 3 |}.

Definition minus5_record : ContractData :=
  {| id := of_Z 1;
     name := Text "Slack Enterprise";
     status := Text "online";
     startDate := Some "2023-12-01T00:00:00.000Z";
     endDate := Some "2023-07-01T00:00:00.000Z";
     restDays := of_Z (-336);
     laufzeit := of_Z (-5);
     abgelaufeneMonate := of_Z 6 |}.

Definition unlimited_record : ContractData :=
  {| id := of_Z 1;
     name := Text "Salesforce CRM";
     status := Text "online";
     startDate := Some "2023-11-15T00:00:00.000Z";
     endDate := Some "2023-11-15T00:00:00.000Z";
     restDays := of_Z (-199);
     laufzeit := of_Z 0;
     abgelaufeneMonate := of_Z 6 |}.

Definition undated_record : ContractData :=
  {| id := of_Z 2;
     name := Text "Adobe Creative Cloud";
     status := Text "online";
     startDate := None;
     endDate := None;
     restDays := of_Z 0;
     laufzeit := of_Z 6;
     abgelaufeneMonate := of_Z 0 |}.

End Samples.

(** ** What the component derives from its rows

    [filteredRows], [stats] and [getCalendarEvents] are the same in both
    versions of the component. *)

Module View.

(** [c.toLowerCase()] on a code unit below 256: A-Z and the capital
    letters of Latin-1 move up by 32. *)
Definition toLowerCase_char (c : ascii) : ascii :=
  let n := N_of_ascii c in
  if (((65 <=? n) && (n <=? 90)) || ((192 <=? n) && (n <=? 214))
      || ((216 <=? n) && (n <=? 222)))%N
  then ascii_of_N (n + 32) else c.

(** [s.toLowerCase()]. *)
Fixpoint toLowerCase (s : string) : string :=
  match s with
  | EmptyString => EmptyString
  | String c s' => String (toLowerCase_char c) (toLowerCase s')
  end.

(** [row.name.toLowerCase()]: only a string has the method. *)
Definition name_toLowerCase (name : value) : result string :=
  match name with
  | Text s => Ok (toLowerCase s)
  | _ => Throw TypeError
  end.

(** [row.status === "online"]. *)
Definition status_is_online (status : value) : bool :=
  match status with
  | Text s => String.eqb s "online"
  | _ => false
  end.

(** The keys of the filter buttons; the second one is F, a-umlaut (code
    unit 228), l, l, i, g. *)
Definition key_Alle : string := "Alle".
Definition key_Faellig : string := String "F" (String "228" "llig").
Definition key_Abgelaufen : string := "Abgelaufen".
Definition key_Online : string := "Online".

(** [rows.filter(f)] for a callback that can throw. *)
Fixpoint filterM {A} (f : A -> M bool) (l : list A) : M (list A) :=
  match l with
  | [] => ret []
  | x :: l' =>
      b <- f x;;
      rest <- filterM f l';;
      ret (if b then x :: rest else rest)
  end.

Section View.
Context `{Host}.

(** The callback of [rows.filter] in [filteredRows]. *)
Definition filterRow (filteredStatus searchTerm : string) (row : ContractData)
  : M bool :=
  lowered <- lift (name_toLowerCase (name row));;
  let matchesSearch := includes lowered (toLowerCase searchTerm) in
  if negb matchesSearch then ret false
  else if String.eqb filteredStatus key_Alle then ret true
  else
    due <- dateUtils.safeParseISO (endDate row);;
    if String.eqb filteredStatus key_Faellig
    then ret (bool_decide (is_Some due) && num_lt (of_Z 0) (restDays row)
              && num_le (restDays row) (of_Z 30))
    else if String.eqb filteredStatus key_Abgelaufen
    then ret (bool_decide (is_Some due) && num_le (restDays row) (of_Z 0))
    else if String.eqb filteredStatus key_Online
    then ret (status_is_online (status row)
              && num_lt (of_Z 30) (restDays row))
    else ret true.

Definition filteredRows (filteredStatus searchTerm : string)
  (rows : list ContractData) : M (list ContractData) :=
  filterM (filterRow filteredStatus searchTerm) rows.

(** An entry of the calendar. *)
Record CalendarEvent : Type := {
  date : Date;
  title : value;
  isExpired : bool;
  isDue : bool
}.

(** [row.endDate] as a condition: null and the empty string are falsy. *)
Definition has_endDate (row : ContractData) : bool :=
  match endDate row with
  | Some s => negb (is_empty s)
  | None => false
  end.

(** The callback of [map] in [getCalendarEvents]; [None] is the [null] the
    last [filter(Boolean)] removes. *)
Definition calendarEvent (row : ContractData) : M (option CalendarEvent) :=
  date <- dateUtils.safeParseISO (endDate row);;
  ret (match date with
       | Some d =>
           Some {| date := d;
                   title := name row;
                   isExpired := num_le (restDays row) (of_Z 0);
                   isDue := num_lt (of_Z 0) (restDays row)
                            && num_le (restDays row) (of_Z 30) |}
       | None => None
       end).

Fixpoint calendarEvents (rows : list ContractData) : M (list CalendarEvent) :=
  match rows with
  | [] => ret []
  | row :: rows' =>
      e <- calendarEvent row;;
      rest <- calendarEvents rows';;
      ret (match e with Some ev => ev :: rest | None => rest end)
  end.

Definition getCalendarEvents (rows : list ContractData)
  : M (list CalendarEvent) :=
  calendarEvents (List.filter has_endDate rows).

End View.

(** [stats]. *)
Record Stats : Type := {
  total : nat;
  online : nat;
  due : nat;
  expired : nat
}.

Definition is_online (r : ContractData) : bool :=
  status_is_online (status r) && num_lt (of_Z 30) (restDays r).
Definition is_due (r : ContractData) : bool :=
  num_lt (of_Z 0) (restDays r) && num_le (restDays r) (of_Z 30).
Definition is_expired (r : ContractData) : bool :=
  num_le (restDays r) (of_Z 0).

Definition count (p : ContractData -> bool) (rows : list ContractData) : nat :=
  length (List.filter p rows).

Definition stats (rows : list ContractData) : Stats :=
  {| total := length rows;
     online := count is_online rows;
     due := count is_due rows;
     expired := count is_expired rows |}.

End View.

(** ** The import of the inline version, with the raw view

    [Object_keys] is [Object.keys] on a row: the headers in the order the
    decoder put them. *)

Module RawView.
Section RawView.
Context `{Host}.
Variable Object_keys : RawRow -> list string.

Record State : Type := {
  rows : list ContractData;
  rawExcelData : list RawRow;
  excelHeaders : list string
}.

Inductive update : Type :=
  | setRawExcelData (data : list RawRow)
  | setExcelHeaders (headers : list string)
  | setRows (formatted : list ContractData).

Definition apply (s : State) (u : update) : State :=
  match u with
  | setRawExcelData d =>
      {| rows := rows s; rawExcelData := d; excelHeaders := excelHeaders s |}
  | setExcelHeaders h =>
      {| rows := rows s; rawExcelData := rawExcelData s; excelHeaders := h |}
  | setRows r =>
      {| rows := r; rawExcelData := rawExcelData s;
         excelHeaders := excelHeaders s |}
  end.

Definition final (s : State) (us : list update) : State :=
  fold_left apply us s.

(** [handleImportExcel] of the inline version: the state updates issued,
    in order, and how the [onload] handler ends.  The reader has no
    [onerror] handler, and nothing catches an exception. *)
Definition handleImportExcel (file : option File) (c : Clock)
  : list update * result unit * Clock :=
  match file with
  | None => ([], Ok tt, c)
  | Some file =>
      match readAsBinaryString file with
      | None => ([], Ok tt, c)
      | Some bstr =>
          match XLSX_read bstr with
          | Throw e => ([], Throw e, c)
          | Ok wb =>
              let ws :=
                match SheetNames wb with
                | wsname :: _ => Sheets wb !! wsname
                | [] => None
                end in
              match sheet_to_json ws with
              | Throw e => ([], Throw e, c)
              | Ok data =>
                  let issued :=
                    setRawExcelData data
                    :: match data with
                       | first :: _ => [setExcelHeaders (Object_keys first)]
                       | [] => []
                       end in
                  match AppInline.formatted data c with
                  | (Ok formatted, c') =>
                      ((issued ++ [setRows formatted])%list, Ok tt, c')
                  | (Throw e, c') => (issued, Throw e, c')
                  end
              end
          end
      end
  end.

(** [excelHeaders.slice(3)]. *)
Definition getHeadersFromColumn4 (s : State) : list string :=
  drop 3 (excelHeaders s).

Definition getRawDataFromColumn4 (s : State) : list (list value) :=
  map (fun row => map (fun header => get row header) (drop 3 (excelHeaders s)))
    (rawExcelData s).

End RawView.
End RawView.

(** ** More sample rows *)

Module MoreSamples.

(** A row whose duration is beyond every calendar. *)
Definition endless : RawRow :=
  {[ "Name" := Text "Webex"; "Status" := Text "online";
     "Startdatum" := Text "2023-09-15";
     "Laufzeit in M" := Number (of_Z 10000000000000) ]}.

(** A row whose name cell holds a number. *)
Definition numbered : RawRow :=
  {[ "Name" := Number (of_Z 365); "Status" := Text "online";
     "Startdatum" := Text "2024-01-01"; "Laufzeit in M" := Number (of_Z 12) ]}.

(** A row whose duration cell carries its unit. *)
Definition with_unit : RawRow :=
  {[ "Name" := Text "DocuSign"; "Status" := Text "online";
     "Startdatum" := Text "2024-02-01"; "Laufzeit in M" := Text " 6 Monate" ]}.

Definition bad_book : WorkBook (list RawRow) :=
  {| SheetNames := ["Contracts"; "Notes"];
     Sheets := {[ "Contracts" := [Samples.zoom; endless; Samples.undated];
                  "Notes" := [Samples.minus5] ]} |}.

Definition host : Host :=
  RefHost.host {[ "PK sample.xlsx" := Samples.book;
                  "PK endless.xlsx" := bad_book ]}.

Definition endless_file : File :=
  {| readAsBinaryString := Some "PK endless.xlsx" |}.
Definition unreadable_file : File := {| readAsBinaryString := None |}.

(** A row without a name and without a status. *)
Definition anonymous : RawRow :=
  {[ "Startdatum" := Text "2024-03-01"; "Laufzeit in M" := Number (of_Z 12) ]}.

(** The offsets of a zone one hour ahead of UTC, and two hours ahead during
    the summer time of 2024 (from 2024-03-31T01:00Z to 2024-10-27T01:00Z),
    as Europe/Berlin has them in 1900 and in 2024.  A local time is read
    with the offset before the change where it is skipped or repeated. *)
Definition summer_offsets (t : Z) (isUTC : bool) : Z :=
  let change := if isUTC then 3600000 else 10800000 in
  if (MakeDate (MakeDay 2024 2 31) change <=? t)
     && (t <? MakeDate (MakeDay 2024 9 27) change)
  then 7200000 else 3600000.

(** A host in that zone, for numeric cells: the other functions are those
    of the reference host, which reads local fields in UTC. *)
Definition summer_host : Host :=
  Build_Host summer_offsets RefHost.Date_parse RefHost.StringToNumber
    RefHost.NumberToString RefHost.DateToString RefHost.parseISO
    RefHost.parse RefHost.addMonths RefHost.differenceInDays
    RefHost.differenceInMonths (list RawRow) (RefHost.XLSX_read ∅)
    RefHost.sheet_to_json.

(** [Object.keys] for the sample rows: the columns of the sample file. *)
Definition keys (row : RawRow) : list string :=
  ["Name"; "Status"; "Startdatum"; "Laufzeit in M"; "Kunde"].

End MoreSamples.

(** ** Conditions used in the statements *)

Section Conditions.
Context `{Host}.

(** LocalTime(t): the local time of a time value, at the offset of the zone
    at that instant. *)
Definition LocalTime (t : Z) : Z := t + LocalTZA t true.

(** The offset the zone had at local midnight of 1900-01-01, the instant
    [parseExcelDate] counts from. *)
Definition offset_1900 : Z := LocalTZA (MakeDate (MakeDay 1900 0 1) 0) false.

(** No offset of the zone exceeds a day. *)
Definition offsets_within_a_day : Prop :=
  forall (t : Z) (isUTC : bool), Z.abs (LocalTZA t isUTC) <= msPerDay.

(** The end date of a row is within the range of Date, or the row has no
    start date: what [processExcelData] needs of a row to build its
    record. *)
Definition end_date_ok (item : RawRow) : bool :=
  match excelUtils.parseExcelDate (get item "Startdatum") with
  | Some d =>
      isValid (addMonths d (excelUtils.durationMonths_of
                              (get item "Laufzeit in M")))
  | None => true
  end.

(** The sheet [readExcelFile] and [handleImportExcel] take from a workbook:
    [Sheets[SheetNames[0]]]. *)
Definition first_sheet (wb : WorkBook WorkSheet) : option WorkSheet :=
  match SheetNames wb with
  | sheetName :: _ => Sheets wb !! sheetName
  | [] => None
  end.

(** What [safeParseISO] returns, without the monad. *)
Definition reparse (isoString : option string) : option Date :=
  match isoString with
  | Some s =>
      if is_empty s then None
      else match parseISO s with
           | Ok d => if isValid d then Some d else None
           | Throw _ => None
           end
  | None => None
  end.

(** What the callback of [filteredRows] returns for a row whose name is a
    string. *)
Definition keeps (filteredStatus searchTerm : string) (row : ContractData)
  : bool :=
  match name row with
  | Text nm =>
      includes (View.toLowerCase nm) (View.toLowerCase searchTerm)
      && (if String.eqb filteredStatus View.key_Alle then true
          else if String.eqb filteredStatus View.key_Faellig
          then bool_decide (is_Some (reparse (endDate row)))
               && num_lt (of_Z 0) (restDays row)
               && num_le (restDays row) (of_Z 30)
          else if String.eqb filteredStatus View.key_Abgelaufen
          then bool_decide (is_Some (reparse (endDate row)))
               && View.is_expired row
          else if String.eqb filteredStatus View.key_Online
          then View.is_online row
          else true)
  | _ => false
  end.

(** The calendar entry of a row, when its end date parses again. *)
Definition event_of (row : ContractData) : option View.CalendarEvent :=
  match reparse (endDate row) with
  | Some d =>
      Some {| View.date := d;
              View.title := name row;
              View.isExpired := View.is_expired row;
              View.isDue := View.is_due row |}
  | None => None
  end.

End Conditions.

Definition is_Text (v : value) : bool :=
  match v with Text _ => true | _ => false end.

(** The badge of a row whose status is a string:
    [getStatusBadge(row.status, row.restDays)]. *)
Definition badge_of (row : ContractData) : option Badge :=
  match status row with
  | Text s => Some (App.getStatusBadge s (restDays row))
  | _ => None
  end.

(** The row carries a badge of the same kind as [b]. *)
Definition shows (b : Badge) (row : ContractData) : bool :=
  match badge_of row, b with
  | Some Abgelaufen, Abgelaufen => true
  | Some Faellig, Faellig => true
  | Some Online, Online => true
  | Some (Secondary _), Secondary _ => true
  | _, _ => false
  end.

Fixpoint all_digits (s : string) : bool :=
  match s with
  | EmptyString => true
  | String c s' => isDigit c && all_digits s'
  end.

(** The value of a decimal digit. *)
Definition digit_of (c : ascii) : Z := Z.of_N (N_of_ascii c) - 48.

(** The string does not go on with the mark of a hexadecimal literal. *)
Definition no_hex_mark (t : string) : Prop :=
  match t with
  | String c2 _ => c2 <> "x"%char /\ c2 <> "X"%char
  | EmptyString => True
  end.

(** The string is empty or starts with something that is neither a digit
    nor the mark of a hexadecimal literal: a number read before it ends
    there. *)
Definition stops (rest : string) : Prop :=
  match rest with
  | String c _ => isDigit c = false /\ c <> "x"%char /\ c <> "X"%char
  | EmptyString => True
  end.

(** * Properties *)

Section Properties.
Context `{Host}.

(** [parse] gives no valid date: it throws or returns an invalid one. *)
Definition parse_fails (trimmed format : string) (now : Z) : Prop :=
  match parse trimmed format (DateAt now) with
  | Ok d => isValid d = false
  | Throw _ => True
  end.

(** The pattern rule in the words of the specification: the seven layouts
    in their order, and the first one that parses to a valid date wins. *)
Definition spec_layouts : list string :=
  [ "yyyy-MM-dd"; "dd.MM.yyyy"; "MM/dd/yyyy"; "dd/MM/yyyy"; "yyyy/MM/dd";
    "yyyy-MM-dd HH:mm:ss"; "dd.MM.yyyy HH:mm:ss" ].

Fixpoint spec_first_layout (s : string) (layouts : list string) (now : Date)
  : option Date :=
  match layouts with
  | [] => None
  | layout :: layouts' =>
      match parse s layout now with
      | Ok d => if isValid d then Some d
                else spec_first_layout s layouts' now
      | Throw _ => spec_first_layout s layouts' now
      end
  end.

(** A parse result is a failure or a valid date. *)
Definition valid_or_null (r : option Date) : Prop :=
  match r with
  | None => True
  | Some d => isValid d = true
  end.

Lemma null_if_NaN_valid (d : Date) : valid_or_null (excelUtils.null_if_NaN d).
Proof.
  unfold excelUtils.null_if_NaN, valid_or_null, isValid.
  destruct (isNaN (getTime d)) eqn:E; [exact I | now rewrite E].
Qed.

Lemma parseExcelDate_valid (v : value) :
  valid_or_null (excelUtils.parseExcelDate v).
Proof.
  unfold excelUtils.parseExcelDate.
  destruct (negb (truthy v)); [exact I |].
  destruct v; try exact I; try apply null_if_NaN_valid.
  destruct (is_empty (trim s)); [exact I |].
  repeat match goal with
         | |- context [if ?b then _ else _] => destruct b
         end; apply null_if_NaN_valid.
Qed.

Lemma tryFormat_returns (trimmed format : string) (c : Clock) :
  exists r c', dateUtils.tryFormat trimmed format c = (Ok r, c')
               /\ valid_or_null r.
Proof.
  unfold dateUtils.tryFormat, try_catch, bind, new_Date, lift, ret.
  destruct (parse trimmed format _) as [d | e]; simpl.
  - destruct (isValid d) eqn:V; eexists _, _; (split; [reflexivity |]);
      simpl; auto.
  - eexists _, _; split; [reflexivity | exact I].
Qed.

Lemma tryFormats_returns (trimmed : string) (fs : list string) (c : Clock) :
  exists r c', dateUtils.tryFormats trimmed fs c = (Ok r, c')
               /\ valid_or_null r.
Proof.
  revert c; induction fs as [| f fs IH]; intros c; simpl.
  - eexists _, _; split; [reflexivity | exact I].
  - unfold bind.
    destruct (tryFormat_returns trimmed f c) as (r & c' & -> & Hr).
    destruct r as [d |].
    + eexists _, _; split; [reflexivity | exact Hr].
    + apply IH.
Qed.

Lemma safeParseDate_returns (v : value) (c : Clock) :
  exists r c', dateUtils.safeParseDate v c = (Ok r, c') /\ valid_or_null r.
Proof.
  unfold dateUtils.safeParseDate.
  destruct (negb (truthy v)).
  { eexists _, _; split; [reflexivity | exact I]. }
  unfold try_catch.
  destruct v as [| s | n | b | d].
  - eexists _, _; split; [reflexivity | exact I].
  - destruct (is_empty (trim s)).
    { eexists _, _; split; [reflexivity | exact I]. }
    unfold bind at 1.
    assert (Hiso : exists x c1,
      (if includes (trim s) "T" || includes (trim s) "Z"
       then isoDate <- lift (parseISO (trim s));;
            ret (if isValid isoDate then Some isoDate else None)
       else ret None) c = (x, c1)
      /\ match x with Ok r => valid_or_null r | Throw _ => True end).
    { destruct (includes (trim s) "T" || includes (trim s) "Z").
      - unfold bind, lift, ret. destruct (parseISO (trim s)) as [d | e].
        + destruct (isValid d) eqn:V; eexists _, _;
            (split; [reflexivity |]); simpl; auto.
        + eexists _, _; split; [reflexivity | exact I].
      - eexists _, _; split; [reflexivity | exact I]. }
    destruct Hiso as (x & c1 & -> & Hx).
    destruct x as [[d |] | e].
    + eexists _, _; split; [reflexivity | exact Hx].
    + unfold bind.
      destruct (tryFormats_returns (trim s) dateUtils.formats c1)
        as (r & c2 & -> & Hr).
      destruct r as [d |].
      * eexists _, _; split; [reflexivity | exact Hr].
      * unfold ret. destruct (isValid (Date_parse (trim s))) eqn:V;
          eexists _, _; (split; [reflexivity |]); simpl; auto.
    + eexists _, _; split; [reflexivity | exact I].
  - unfold ret. destruct (isValid (TimeClip n)) eqn:V;
      eexists _, _; (split; [reflexivity |]); simpl; auto.
  - eexists _, _; split; [reflexivity | exact I].
  - unfold ret. destruct (isValid d) eqn:V;
      eexists _, _; (split; [reflexivity |]); simpl; auto.
Qed.

(** *** Running the row callbacks *)

Lemma is_empty_app (a b : string) (ch : ascii) :
  is_empty (a ++ String ch b) = false.
Proof. destruct a; reflexivity. Qed.

Lemma isoString_not_empty (t : Z) : is_empty (isoString t) = false.
Proof.
  unfold isoString. destruct (civil_from_days (Day t)) as [[y m] dd].
  cbv zeta. apply is_empty_app.
Qed.

Lemma valid_is_DateAt (d : Date) : isValid d = true -> exists t, d = DateAt t.
Proof. destruct d; [discriminate | eauto]. Qed.

Lemma toISOString_or_null_DateAt (t : Z) (c : Clock) :
  toISOString_or_null (Some (DateAt t)) c = (Ok (Some (isoString t)), c).
Proof.
  unfold toISOString_or_null, bind, lift, ret; simpl.
  now rewrite isoString_not_empty.
Qed.

Lemma toISOString_or_null_Invalid (c : Clock) :
  toISOString_or_null (Some InvalidDate) c = (Throw RangeError, c).
Proof. reflexivity. Qed.

(** [processItem] on a row without a start date. *)
Lemma processItem_undated (item : RawRow) (index : nat) (c : Clock) :
  excelUtils.parseExcelDate (get item "Startdatum") = None ->
  excelUtils.processItem item index c =
    (Ok {| id := of_Z (Z.of_nat index + 1);
           name := Text (ToString (or_else (get item "Name") (Text "Unbenannt")));
           status := Text (ToString (or_else (get item "Status") (Text "online")));
           startDate := None;
           endDate := None;
           restDays := of_Z 0;
           laufzeit := excelUtils.durationMonths_of (get item "Laufzeit in M");
           abgelaufeneMonate := Math_max (of_Z 0) (of_Z 0) |}, c).
Proof. intros E. unfold excelUtils.processItem. rewrite E. reflexivity. Qed.

(** [processItem] on a row with a start date: two readings of the clock,
    then a record, or a RangeError when the end date is out of range. *)
Lemma processItem_dated (item : RawRow) (index : nat) (c : Clock) (d : Date) :
  excelUtils.parseExcelDate (get item "Startdatum") = Some d ->
  exists t, d = DateAt t /\
  let dur := excelUtils.durationMonths_of (get item "Laufzeit in M") in
  excelUtils.processItem item index c =
    match addMonths d dur with
    | DateAt e =>
        (Ok {| id := of_Z (Z.of_nat index + 1);
               name := Text (ToString (or_else (get item "Name") (Text "Unbenannt")));
               status := Text (ToString (or_else (get item "Status") (Text "online")));
               startDate := Some (isoString t);
               endDate := Some (isoString e);
               restDays := differenceInDays (DateAt e) (DateAt (readings c (pos c)));
               laufzeit := dur;
               abgelaufeneMonate :=
                 Math_max (of_Z 0)
                   (differenceInMonths (DateAt (readings c (S (pos c)))) d) |},
         after 2 c)
    | InvalidDate => (Throw RangeError, after 2 c)
    end.
Proof.
  intros E.
  pose proof (parseExcelDate_valid (get item "Startdatum")) as V.
  rewrite E in V; simpl in V.
  destruct (valid_is_DateAt d V) as [t ->]. exists t; split; [reflexivity |].
  cbv zeta. unfold excelUtils.processItem. rewrite E.
  unfold bind at 1. unfold bind at 1. unfold new_Date at 1, ret at 1.
  unfold bind at 1. unfold bind at 1. unfold new_Date at 1, ret at 1.
  unfold bind at 1. rewrite toISOString_or_null_DateAt.
  unfold bind at 1.
  destruct (addMonths (DateAt t) _) as [| e].
  - reflexivity.
  - rewrite toISOString_or_null_DateAt. reflexivity.
Qed.

(** [formatItem] on a row whose start date does not parse. *)
Lemma formatItem_undated (item : RawRow) (index : nat) (c c1 : Clock) :
  dateUtils.safeParseDate (get item "Startdatum") c = (Ok None, c1) ->
  AppInline.formatItem item index c =
    (Ok {| id := of_Z (Z.of_nat index + 1);
           name := or_else (get item "Name") (Text "Unbenannt");
           status := or_else (get item "Status") (Text "online");
           startDate := None;
           endDate := None;
           restDays := of_Z 0;
           laufzeit := num_or (ToNumber (get item "Laufzeit in M")) (of_Z 0);
           abgelaufeneMonate := of_Z 0 |}, c1).
Proof.
  intros E. unfold AppInline.formatItem. unfold bind at 1. rewrite E.
  reflexivity.
Qed.

(** [formatItem] on a row whose start date parses to the time [t]. *)
Lemma formatItem_dated (item : RawRow) (index : nat) (c c1 : Clock) (t : Z) :
  dateUtils.safeParseDate (get item "Startdatum") c = (Ok (Some (DateAt t)), c1) ->
  let dur := num_or (ToNumber (get item "Laufzeit in M")) (of_Z 0) in
  AppInline.formatItem item index c =
    match addMonths (DateAt t) dur with
    | DateAt e =>
        (Ok {| id := of_Z (Z.of_nat index + 1);
               name := or_else (get item "Name") (Text "Unbenannt");
               status := or_else (get item "Status") (Text "online");
               startDate := Some (isoString t);
               endDate := Some (isoString e);
               restDays := differenceInDays (DateAt e) (DateAt (readings c1 (pos c1)));
               laufzeit := dur;
               abgelaufeneMonate :=
                 differenceInMonths (DateAt (readings c1 (S (pos c1)))) (DateAt t) |},
         after 2 c1)
    | InvalidDate => (Throw RangeError, after 1 c1)
    end.
Proof.
  intros E. cbv zeta. unfold AppInline.formatItem. unfold bind at 1. rewrite E.
  cbn [dateUtils.isValidDate isValid getTime isNaN of_Z negb].
  destruct (addMonths (DateAt t) _) as [| e].
  - cbn [dateUtils.isValidDate isValid getTime isNaN of_Z negb].
    unfold bind at 1. unfold ret at 1.
    unfold bind at 1. unfold bind at 1. unfold new_Date at 1, ret at 1.
    unfold bind at 1. rewrite toISOString_or_null_DateAt.
    reflexivity.
  - cbn [dateUtils.isValidDate isValid getTime isNaN of_Z negb].
    unfold bind at 1. unfold bind at 1. unfold new_Date at 1, ret at 1.
    unfold bind at 1. unfold bind at 1. unfold new_Date at 1, ret at 1.
    unfold bind at 1. rewrite toISOString_or_null_DateAt.
    unfold bind at 1. rewrite toISOString_or_null_DateAt. reflexivity.
Qed.

(** *** The end date is there exactly when the start date is *)

(** C1.  In every record either version of the import builds, the end date
    is present if and only if the start date is; the start date is present
    exactly when the start-date cell parses, and the end date is then the
    ISO rendering of [addMonths(startDate, durationMonths)].  A row whose
    cell does not parse always gives a record, without either date; a row
    whose cell parses gives a record with both dates as soon as the end date
    is a valid Date. *)
Theorem endDate_present_iff_startDate_present :
  (forall (item : RawRow) (index : nat) (c : Clock) (r : ContractData),
      fst (excelUtils.processItem item index c) = Ok r ->
      (is_Some (endDate r) <-> is_Some (startDate r))
      /\ (is_Some (startDate r)
          <-> is_Some (excelUtils.parseExcelDate (get item "Startdatum")))
      /\ (forall d, excelUtils.parseExcelDate (get item "Startdatum") = Some d ->
            exists e,
              toISOString
                (addMonths d (excelUtils.durationMonths_of
                                (get item "Laufzeit in M"))) = Ok e
              /\ endDate r = Some e))
  /\
  (forall (item : RawRow) (index : nat) (c : Clock) (r : ContractData),
      fst (AppInline.formatItem item index c) = Ok r ->
      (is_Some (endDate r) <-> is_Some (startDate r))
      /\ (is_Some (startDate r)
          <-> exists d, fst (dateUtils.safeParseDate (get item "Startdatum") c)
                        = Ok (Some d))
      /\ (forall d, fst (dateUtils.safeParseDate (get item "Startdatum") c)
                    = Ok (Some d) ->
            exists e,
              toISOString
                (addMonths d (num_or (ToNumber (get item "Laufzeit in M"))
                                (of_Z 0))) = Ok e
              /\ endDate r = Some e))
  /\
  (forall (item : RawRow) (index : nat) (c : Clock),
      match excelUtils.parseExcelDate (get item "Startdatum") with
      | None =>
          exists r, fst (excelUtils.processItem item index c) = Ok r
                    /\ startDate r = None /\ endDate r = None
      | Some d =>
          isValid (addMonths d (excelUtils.durationMonths_of
                                  (get item "Laufzeit in M"))) = true ->
          exists r, fst (excelUtils.processItem item index c) = Ok r
                    /\ is_Some (startDate r) /\ is_Some (endDate r)
      end)
  /\
  (forall (item : RawRow) (index : nat) (c : Clock),
      match fst (dateUtils.safeParseDate (get item "Startdatum") c) with
      | Ok None =>
          exists r, fst (AppInline.formatItem item index c) = Ok r
                    /\ startDate r = None /\ endDate r = None
      | Ok (Some d) =>
          isValid (addMonths d (num_or (ToNumber (get item "Laufzeit in M"))
                                  (of_Z 0))) = true ->
          exists r, fst (AppInline.formatItem item index c) = Ok r
                    /\ is_Some (startDate r) /\ is_Some (endDate r)
      | Throw _ => False
      end).
Proof.
  split; [| split; [| split]].
  - intros item index c r Hr.
    destruct (excelUtils.parseExcelDate (get item "Startdatum")) as [d |] eqn:E.
    + destruct (processItem_dated item index c d E) as (t & -> & Hrun).
      cbv zeta in Hrun. rewrite Hrun in Hr.
      destruct (addMonths (DateAt t) _) as [| e] eqn:Ea; [discriminate |].
      simpl in Hr. injection Hr as <-. simpl.
      repeat split; eauto.
      intros d' [= <-]. rewrite Ea. simpl. eauto.
    + rewrite (processItem_undated item index c E) in Hr.
      simpl in Hr. injection Hr as <-. simpl.
      repeat split; try (intros [x Hx]; discriminate).
      intros d' [=].
  - intros item index c r Hr.
    destruct (safeParseDate_returns (get item "Startdatum") c)
      as (sd & c1 & E & V).
    rewrite E. simpl fst.
    destruct sd as [d |].
    + simpl in V. destruct (valid_is_DateAt d V) as [t ->].
      pose proof (formatItem_dated item index c c1 t E) as Hrun.
      cbv zeta in Hrun. rewrite Hrun in Hr.
      destruct (addMonths (DateAt t) _) as [| e] eqn:Ea; [discriminate |].
      simpl in Hr. injection Hr as <-. simpl.
      repeat split; eauto.
      intros d' [= <-]. rewrite Ea. simpl. eauto.
    + rewrite (formatItem_undated item index c c1 E) in Hr.
      simpl in Hr. injection Hr as <-. simpl.
      repeat split; try (intros [x Hx]; discriminate).
      intros d' [=].
  - intros item index c.
    destruct (excelUtils.parseExcelDate (get item "Startdatum")) as [d |] eqn:E.
    + destruct (processItem_dated item index c d E) as (t & -> & Hrun).
      cbv zeta in Hrun. rewrite Hrun.
      destruct (addMonths (DateAt t) _) as [| e]; [discriminate |].
      intros _. eexists; split; [reflexivity |]. simpl. eauto.
    + rewrite (processItem_undated item index c E).
      eexists; split; [reflexivity |]. simpl. auto.
  - intros item index c.
    destruct (safeParseDate_returns (get item "Startdatum") c)
      as (sd & c1 & E & V).
    rewrite E. simpl fst.
    destruct sd as [d |].
    + simpl in V. destruct (valid_is_DateAt d V) as [t ->].
      pose proof (formatItem_dated item index c c1 t E) as Hrun.
      cbv zeta in Hrun. rewrite Hrun.
      destruct (addMonths (DateAt t) _) as [| e]; [discriminate |].
      intros _. eexists; split; [reflexivity |]. simpl. eauto.
    + rewrite (formatItem_undated item index c c1 E).
      eexists; split; [reflexivity |]. simpl. auto.
Qed.

(** *** The parsers return, and what they return is valid *)

Lemma trimStart_whitespace_only (s : string) :
  whitespace_only s = true -> trimStart s = EmptyString.
Proof.
  induction s as [| ch s IH]; simpl; [reflexivity |].
  intros [Hc Hs]%andb_prop. rewrite Hc. auto.
Qed.

Lemma trim_whitespace_only (s : string) :
  whitespace_only s = true -> trim s = EmptyString.
Proof. intros W. unfold trim. now rewrite trimStart_whitespace_only. Qed.

Lemma safeParseDate_falsy (v : value) (c : Clock) :
  truthy v = false -> dateUtils.safeParseDate v c = (Ok None, c).
Proof. intros F. unfold dateUtils.safeParseDate. now rewrite F. Qed.

Lemma parseExcelDate_falsy (v : value) :
  truthy v = false -> excelUtils.parseExcelDate v = None.
Proof. intros F. unfold excelUtils.parseExcelDate. now rewrite F. Qed.

(** C5.  Both parsers return on every cell value, without raising, a parse
    failure or a valid date; an absent cell and a string that is empty or
    holds white space only give a parse failure. *)
Theorem date_parsers_total_and_valid :
  (forall (v : value) (c : Clock),
      exists r c', dateUtils.safeParseDate v c = (Ok r, c') /\ valid_or_null r)
  /\ (forall v : value, valid_or_null (excelUtils.parseExcelDate v))
  /\ (forall c : Clock, dateUtils.safeParseDate Missing c = (Ok None, c))
  /\ excelUtils.parseExcelDate Missing = None
  /\ (forall (s : string) (c : Clock),
        whitespace_only s = true ->
        dateUtils.safeParseDate (Text s) c = (Ok None, c)
        /\ excelUtils.parseExcelDate (Text s) = None).
Proof.
  split; [exact safeParseDate_returns |].
  split; [exact parseExcelDate_valid |].
  split; [reflexivity |]. split; [reflexivity |].
  intros s c W. pose proof (trim_whitespace_only s W) as T.
  unfold dateUtils.safeParseDate, excelUtils.parseExcelDate.
  destruct (negb (truthy (Text s))); [split; reflexivity |].
  unfold try_catch. rewrite T. split; reflexivity.
Qed.

(** C10.  A falsy cell is read as absent by both parsers: the number 0 and
    the boolean false are falsy and give a parse failure, so the serial 0 is
    never decoded. *)
Theorem falsy_cell_is_parse_failure :
  truthy (Number (of_Z 0)) = false
  /\ truthy (Boolean false) = false
  /\ (forall (v : value) (c : Clock),
        truthy v = false ->
        dateUtils.safeParseDate v c = (Ok None, c)
        /\ excelUtils.parseExcelDate v = None).
Proof.
  split; [reflexivity |]. split; [reflexivity |].
  intros v c F. split;
    [now apply safeParseDate_falsy | now apply parseExcelDate_falsy].
Qed.

(** *** The status badge *)

Lemma num_lt_not_le (a b : number) :
  a <> NaN -> b <> NaN -> num_lt a b = negb (num_le b a).
Proof. destruct a, b; simpl; congruence. Qed.

(** C7.  [getStatusBadge] gives exactly one badge and checks expiry first:
    with [restDays <= 0] the badge is Abgelaufen whatever the status, also
    for "online"; Faellig needs [0 < restDays <= 30], Online needs the
    status "online" and [restDays > 30].  Both versions of the component
    agree. *)
Theorem getStatusBadge_expired_takes_precedence
  (status : string) (restDays : number) :
  restDays <> NaN ->
  (num_le restDays (of_Z 0) = true ->
     App.getStatusBadge status restDays = Abgelaufen
     /\ App.getStatusBadge "online" restDays = Abgelaufen)
  /\ (App.getStatusBadge status restDays = Abgelaufen
      <-> num_le restDays (of_Z 0) = true)
  /\ (App.getStatusBadge status restDays = Faellig
      <-> num_lt (of_Z 0) restDays = true
          /\ num_le restDays (of_Z 30) = true)
  /\ (App.getStatusBadge status restDays = Online
      <-> num_lt (of_Z 0) restDays = true
          /\ num_lt (of_Z 30) restDays = true /\ status = "online")
  /\ (forall other, App.getStatusBadge status restDays = Secondary other
      <-> num_lt (of_Z 30) restDays = true
          /\ status <> "online" /\ other = status)
  /\ AppInline.getStatusBadge status restDays
     = App.getStatusBadge status restDays.
Proof.
  intros N.
  assert (L0 : num_lt (of_Z 0) restDays = negb (num_le restDays (of_Z 0)))
    by (apply num_lt_not_le; [discriminate | exact N]).
  assert (L30 : num_lt (of_Z 30) restDays = negb (num_le restDays (of_Z 30)))
    by (apply num_lt_not_le; [discriminate | exact N]).
  assert (Mono : num_le restDays (of_Z 0) = true ->
                 num_le restDays (of_Z 30) = true).
  { destruct restDays as [| [|] | q]; simpl; try congruence.
    rewrite !Qle_bool_iff. intros Hq.
    eapply Qle_trans; [exact Hq |]. discriminate. }
  rewrite L0, L30. unfold App.getStatusBadge, AppInline.getStatusBadge.
  destruct (num_le restDays (of_Z 0)) eqn:E0.
  { rewrite (Mono eq_refl). simpl.
    repeat split; try tauto; try discriminate;
      try (intros (? & ?); discriminate); try (intros (? & ? & ?); discriminate). }
  destruct (num_le restDays (of_Z 30)) eqn:E30.
  { simpl. repeat split; try tauto; try discriminate;
      try (intros (? & ?); discriminate); try (intros (? & ? & ?); discriminate). }
  destruct (String.eqb status "online") eqn:Es.
  - apply String.eqb_eq in Es. simpl.
    repeat split; try tauto; try discriminate;
      try (intros (? & ?); discriminate); try (intros (? & ? & ?); tauto).
  - apply String.eqb_neq in Es. simpl.
    repeat split; try tauto; try discriminate;
      try (intros (? & ?); discriminate); try (intros (? & ? & ?); tauto).
    + congruence.
    + intros (_ & _ & ->). reflexivity.
Qed.

(** *** The duration *)

(** C3, as the code has it.  In every record the duration is the duration
    cell coerced to a number ([parseInt] on a string in [processExcelData],
    [Number] otherwise), replaced by 0 when the coercion gives NaN or 0, for
    every kind of cell: an absent or non-numeric cell gives 0, and a number
    other than 0 is kept as it is, negative ones included. *)
Theorem durationMonths_is_coerced_cell :
  (forall (item : RawRow) (index : nat) (c : Clock) (r : ContractData),
      fst (excelUtils.processItem item index c) = Ok r ->
      let cell := get item "Laufzeit in M" in
      laufzeit r
      = num_or match cell with
               | Text s => parseInt s
               | _ => ToNumber cell
               end (of_Z 0)
      /\ (cell = Missing -> laufzeit r = of_Z 0)
      /\ (forall s, cell = Text s -> parseInt s = NaN -> laufzeit r = of_Z 0)
      /\ (forall s, cell = Text s -> num_truthy (parseInt s) = true ->
            laufzeit r = parseInt s)
      /\ (forall n, cell = Number n -> num_truthy n = true -> laufzeit r = n)
      /\ (forall n, cell = Number n -> num_truthy n = false ->
            laufzeit r = of_Z 0)
      /\ (forall b, cell = Boolean b ->
            laufzeit r = of_Z (if b then 1 else 0))
      /\ (forall d, cell = DateValue d ->
            laufzeit r = num_or (getTime d) (of_Z 0)))
  /\
  (forall (item : RawRow) (index : nat) (c : Clock) (r : ContractData),
      fst (AppInline.formatItem item index c) = Ok r ->
      let cell := get item "Laufzeit in M" in
      laufzeit r = num_or (ToNumber cell) (of_Z 0)
      /\ (cell = Missing -> laufzeit r = of_Z 0)
      /\ (ToNumber cell = NaN -> laufzeit r = of_Z 0)
      /\ (forall s, cell = Text s ->
            laufzeit r = num_or (StringToNumber s) (of_Z 0))
      /\ (forall n, cell = Number n -> num_truthy n = true -> laufzeit r = n)
      /\ (forall n, cell = Number n -> num_truthy n = false ->
            laufzeit r = of_Z 0)
      /\ (forall b, cell = Boolean b ->
            laufzeit r = of_Z (if b then 1 else 0))
      /\ (forall d, cell = DateValue d ->
            laufzeit r = num_or (getTime d) (of_Z 0))).
Proof.
  split; intros item index c r Hr cell.
  - assert (L : laufzeit r = excelUtils.durationMonths_of cell).
    { destruct (excelUtils.parseExcelDate (get item "Startdatum")) as [d |] eqn:E.
      - destruct (processItem_dated item index c d E) as (t & -> & Hrun).
        cbv zeta in Hrun. rewrite Hrun in Hr.
        destruct (addMonths (DateAt t) _); [discriminate |].
        simpl in Hr. injection Hr as <-. reflexivity.
      - rewrite (processItem_undated item index c E) in Hr.
        simpl in Hr. injection Hr as <-. reflexivity. }
    rewrite L. unfold excelUtils.durationMonths_of, num_or.
    split; [destruct cell; reflexivity |].
    repeat split.
    + intros ->. reflexivity.
    + intros s -> ->. reflexivity.
    + intros s -> ->. reflexivity.
    + intros n -> T. simpl. now rewrite T.
    + intros n -> T. simpl. now rewrite T.
    + intros b ->. destruct b; reflexivity.
    + intros d ->. reflexivity.
  - assert (L : laufzeit r = num_or (ToNumber cell) (of_Z 0)).
    { destruct (safeParseDate_returns (get item "Startdatum") c)
        as (sd & c1 & E & V).
      destruct sd as [d |].
      - simpl in V. destruct (valid_is_DateAt d V) as [t ->].
        pose proof (formatItem_dated item index c c1 t E) as Hrun.
        cbv zeta in Hrun. rewrite Hrun in Hr.
        destruct (addMonths (DateAt t) _); [discriminate |].
        simpl in Hr. injection Hr as <-. reflexivity.
      - rewrite (formatItem_undated item index c c1 E) in Hr.
        simpl in Hr. injection Hr as <-. reflexivity. }
    rewrite L. unfold num_or. split; [reflexivity |]. repeat split.
    + intros ->. reflexivity.
    + intros ->. reflexivity.
    + intros s ->. reflexivity.
    + intros n -> T. simpl. now rewrite T.
    + intros n -> T. simpl. now rewrite T.
    + intros b ->. destruct b; reflexivity.
    + intros d ->. reflexivity.
Qed.

(** *** The elapsed months *)

Lemma Math_max_0_nonneg (x : number) :
  x <> NaN -> num_le (of_Z 0) (Math_max (of_Z 0) x) = true.
Proof.
  destruct x as [| [|] | q]; simpl; try congruence; intros _.
  - reflexivity.
  - destruct (Qle_bool (inject_Z 0) q) eqn:E; simpl; [exact E | reflexivity].
Qed.

(** [processExcelData] clamps: the elapsed months of its records are not
    negative, and are 0 without a start date. *)
Lemma processItem_elapsed_clamped
  (item : RawRow) (index : nat) (c : Clock) (r : ContractData) :
  fst (excelUtils.processItem item index c) = Ok r ->
  (abgelaufeneMonate r <> NaN ->
     num_le (of_Z 0) (abgelaufeneMonate r) = true)
  /\ (excelUtils.parseExcelDate (get item "Startdatum") = None ->
        abgelaufeneMonate r = of_Z 0).
Proof.
  intros Hr.
  destruct (excelUtils.parseExcelDate (get item "Startdatum")) as [d |] eqn:E.
  - destruct (processItem_dated item index c d E) as (t & -> & Hrun).
    cbv zeta in Hrun. rewrite Hrun in Hr.
    destruct (addMonths (DateAt t) _); [discriminate |].
    simpl in Hr. injection Hr as <-. simpl. split; [| discriminate].
    intros N. apply Math_max_0_nonneg. intros X. apply N. now rewrite X.
  - rewrite (processItem_undated item index c E) in Hr.
    simpl in Hr. injection Hr as <-. simpl. split; reflexivity.
Qed.

(** The inline version stores what [differenceInMonths] returns. *)
Lemma formatItem_elapsed_unclamped
  (item : RawRow) (index : nat) (c c1 : Clock) (t : Z) (r : ContractData) :
  dateUtils.safeParseDate (get item "Startdatum") c = (Ok (Some (DateAt t)), c1) ->
  fst (AppInline.formatItem item index c) = Ok r ->
  abgelaufeneMonate r
  = differenceInMonths (DateAt (readings c1 (S (pos c1)))) (DateAt t).
Proof.
  intros E Hr. pose proof (formatItem_dated item index c c1 t E) as Hrun.
  cbv zeta in Hrun. rewrite Hrun in Hr.
  destruct (addMonths (DateAt t) _); [discriminate |].
  simpl in Hr. injection Hr as <-. reflexivity.
Qed.

(** *** A failed import *)

Lemma readExcelFile_decode_failure
  (file : File) (bstr : string) (e : exn) (c : Clock) :
  readAsBinaryString file = Some bstr ->
  XLSX_read bstr = Throw e ->
  excelUtils.readExcelFile file c = (Throw e, c).
Proof.
  intros F D. unfold excelUtils.readExcelFile. rewrite F.
  unfold try_catch, bind, lift. rewrite D. reflexivity.
Qed.

Lemma handleImportExcel_failure (file : File) (e : exn) (c c' : Clock) :
  excelUtils.readExcelFile file c = (Throw e, c') ->
  App.handleImportExcel (Some file) c
  = (Ok [App.setIsLoading true; App.setError None;
         App.setError (Some App.errorMessage); App.setIsLoading false], c').
Proof.
  intros R. unfold App.handleImportExcel, bind, try_catch. rewrite R.
  reflexivity.
Qed.

(** C6.  When the payload cannot be decoded, [readExcelFile] rejects with
    the decoder's error, and whenever [readExcelFile] rejects the component
    sets its error message and never touches its rows: they are the old ones
    in every state it goes through. *)
Theorem failed_import_keeps_rows :
  (forall (file : File) (bstr : string) (e : exn) (c : Clock),
      readAsBinaryString file = Some bstr ->
      XLSX_read bstr = Throw e ->
      fst (excelUtils.readExcelFile file c) = Throw e)
  /\
  (forall (file : File) (e : exn) (c : Clock) (s : App.State),
      fst (excelUtils.readExcelFile file c) = Throw e ->
      exists us,
        fst (App.handleImportExcel (Some file) c) = Ok us
        /\ Forall (fun s' => App.rows s' = App.rows s) (App.states s us)
        /\ App.rows (App.final s us) = App.rows s
        /\ App.error (App.final s us) = Some App.errorMessage
        /\ App.isLoading (App.final s us) = false).
Proof.
  split.
  - intros file bstr e c F D.
    now rewrite (readExcelFile_decode_failure file bstr e c F D).
  - intros file e c s R.
    destruct (excelUtils.readExcelFile file c) as [x c'] eqn:Run.
    simpl in R; subst x.
    rewrite (handleImportExcel_failure file e c c' Run).
    eexists; split; [reflexivity |].
    repeat split. simpl. repeat constructor.
Qed.

(** *** The clock *)

Lemma same_readings_after (k : nat) (c c' : Clock) :
  same_readings c c' -> same_readings (after k c) (after k c').
Proof.
  intros Hs n. unfold after; simpl.
  replace (n + (k + pos c))%nat with ((n + k) + pos c)%nat by lia.
  replace (n + (k + pos c'))%nat with ((n + k) + pos c')%nat by lia.
  apply Hs.
Qed.

Lemma processItem_same_readings
  (item : RawRow) (index : nat) (c c' : Clock) :
  same_readings c c' ->
  fst (excelUtils.processItem item index c)
  = fst (excelUtils.processItem item index c')
  /\ same_readings (snd (excelUtils.processItem item index c))
                   (snd (excelUtils.processItem item index c')).
Proof.
  intros Hs.
  destruct (excelUtils.parseExcelDate (get item "Startdatum")) as [d |] eqn:E.
  - destruct (processItem_dated item index c d E) as (t & -> & Hc).
    destruct (processItem_dated item index c' (DateAt t) E) as (t' & Et & Hc').
    injection Et as <-.
    cbv zeta in Hc, Hc'. rewrite Hc, Hc'.
    pose proof (Hs 0%nat) as S0. pose proof (Hs 1%nat) as S1. simpl in S0, S1.
    rewrite S0, S1.
    destruct (addMonths (DateAt t) _); simpl;
      (split; [reflexivity | now apply same_readings_after]).
  - rewrite (processItem_undated item index c E),
            (processItem_undated item index c' E).
    simpl. split; [reflexivity | exact Hs].
Qed.

(** C9, as the code has it.  Normalisation has no reference instant among
    its inputs: it reads the clock.  It is deterministic in the rows and the
    readings of the clock: two runs over the same rows whose clocks show
    the same readings build the same records. *)
Theorem processExcelData_deterministic_in_rows_and_clock
  (data : list RawRow) (c c' : Clock) :
  same_readings c c' ->
  fst (excelUtils.processExcelData data c)
  = fst (excelUtils.processExcelData data c').
Proof.
  unfold excelUtils.processExcelData. generalize 0%nat as i.
  revert c c'. induction data as [| item data IH]; intros c c' i Hc.
  - reflexivity.
  - simpl. unfold bind at 1 3.
    destruct (processItem_same_readings item i c c' Hc) as [Hf Hs].
    destruct (excelUtils.processItem item i c) as [x c1].
    destruct (excelUtils.processItem item i c') as [x' c1'].
    simpl in Hf, Hs. subst x'.
    destruct x as [r | e]; [| reflexivity].
    unfold bind at 1 2. specialize (IH c1 c1' (S i) Hs).
    destruct (map_indexed excelUtils.processItem (S i) data c1) as [y c2].
    destruct (map_indexed excelUtils.processItem (S i) data c1') as [y' c2'].
    simpl in IH. subst y'. destruct y; reflexivity.
Qed.

(** *** Numeric cells *)

(** [parseExcelDate] puts the serial [v] at [v - 1] days of 24 hours after
    [new Date(1900, 0, 1)], local midnight of 1900-01-01: day 1 is
    1900-01-01, as the comment in the source has it.  Sheets count from
    1899-12-30 for every date after February 1900 (2024-01-01 is 45292),
    which is one day earlier. *)
Lemma parseExcelDate_serial (v : Z) :
  v <> 0 -> Z.abs offset_1900 <= msPerDay -> Z.abs v <= 50000000 ->
  excelUtils.parseExcelDate (Number (of_Z v))
  = Some (DateAt (MakeDate (MakeDay 1899 11 31 + v) 0 - offset_1900)).
Proof.
  intros V Tz B. unfold excelUtils.parseExcelDate.
  assert (T : truthy (Number (of_Z v)) = true).
  { simpl. unfold Qzero; simpl. now apply negb_true_iff, Z.eqb_neq. }
  rewrite T. cbn [negb].
  assert (E : Date_of_fields LocalTZA (of_Z 1900) (of_Z 0) (of_Z 1)
              = DateAt (-2208988800000 - offset_1900)).
  { unfold Date_of_fields, of_Z, TimeClipZ, offset_1900 in *.
    change (Qtrunc (inject_Z 1900)) with 1900.
    change (Qtrunc (inject_Z 0)) with 0.
    change (Qtrunc (inject_Z 1)) with 1.
    change ((0 <=? 1900) && (1900 <=? 99)) with false. cbv iota zeta.
    change (MakeDate (MakeDay 1900 0 1) 0) with (-2208988800000) in *.
    match goal with
    | |- context [Z.abs ?t <=? maxTime] =>
        assert (L : (Z.abs t <=? maxTime) = true)
          by (apply Z.leb_le; unfold maxTime, msPerDay in *; lia)
    end.
    now rewrite L. }
  rewrite E. unfold TimeClip, getTime, num_add, num_mul, num_sub, num_neg,
    num_add, of_Z, excelUtils.null_if_NaN.
  match goal with
  | |- context [Qle_bool ?a ?b] =>
      assert (L : Qle_bool a b = true)
  end.
  { unfold Qle_bool, Qabs, inject_Z, Qplus, Qmult, Qopp; simpl.
    apply Z.leb_le. unfold maxTime, msPerDay in *. lia. }
  rewrite L. simpl. f_equal. f_equal.
  unfold Qtrunc, inject_Z, Qplus, Qmult, Qopp; simpl.
  rewrite Z.quot_1_r. unfold MakeDate, msPerDay.
  change (MakeDay 1899 11 31) with (-25568). lia.
Qed.

(** [safeParseDate] takes a number as milliseconds since 1970-01-01. *)
Lemma safeParseDate_number_is_timestamp (v : Z) (c : Clock) :
  v <> 0 -> Z.abs v <= maxTime ->
  dateUtils.safeParseDate (Number (of_Z v)) c = (Ok (Some (DateAt v)), c).
Proof.
  intros V B. unfold dateUtils.safeParseDate.
  assert (T : truthy (Number (of_Z v)) = true).
  { simpl. unfold Qzero; simpl. now apply negb_true_iff, Z.eqb_neq. }
  rewrite T. cbn [negb]. unfold try_catch, ret, TimeClip, of_Z.
  assert (L : Qle_bool (Qabs (inject_Z v)) (inject_Z maxTime) = true).
  { unfold Qle_bool, Qabs, inject_Z; simpl. apply Z.leb_le. lia. }
  rewrite L. simpl. unfold Qtrunc; simpl. now rewrite Z.quot_1_r.
Qed.

(** The local time of a time value that was taken [shift] milliseconds
    before a midnight and is seen [shift'] milliseconds ahead. *)
Lemma Day_of_local_midnight (day shift shift' : Z) :
  TimeWithinDay (MakeDate day 0 - shift + shift')
  = (shift' - shift) mod msPerDay
  /\ (shift' = shift ->
      Day (MakeDate day 0 - shift + shift') = day
      /\ TimeWithinDay (MakeDate day 0 - shift + shift') = 0).
Proof.
  unfold Day, TimeWithinDay, MakeDate, msPerDay. split.
  - replace (day * 86400000 + 0 - shift + shift')
      with ((shift' - shift) + day * 86400000) by lia.
    apply Z.mod_add. discriminate.
  - intros ->.
    replace (day * 86400000 + 0 - shift + shift) with (day * 86400000) by lia.
    split; [apply Z.div_mul; discriminate | apply Z.mod_mul; discriminate].
Qed.

(** C2, as the code has it.  A whole number other than 0 in a cell is read
    by [parseExcelDate] as a count of days of 24 hours: the instants of two
    serials [v] and [w] lie [v - w] times 86 400 000 milliseconds apart.
    Seen in local time, the result is off midnight by what the offset of
    the zone at the result differs from its offset on 1900-01-01: it is a
    local midnight where the two offsets are the same, and the dates of two
    such results lie [v - w] days apart.  [safeParseDate] reads the number
    as the instant [v] milliseconds after 1970-01-01T00:00:00Z.  The number
    0 is a parse failure for both. *)
Theorem numeric_cell_epochs (v w : Z) (c : Clock) :
  v <> 0 -> w <> 0 -> Z.abs offset_1900 <= msPerDay ->
  Z.abs v <= 50000000 -> Z.abs w <= 50000000 ->
  (exists tv tw,
      excelUtils.parseExcelDate (Number (of_Z v)) = Some (DateAt tv)
      /\ excelUtils.parseExcelDate (Number (of_Z w)) = Some (DateAt tw)
      /\ tv - tw = (v - w) * msPerDay
      /\ TimeWithinDay (LocalTime tv)
         = (LocalTZA tv true - offset_1900) mod msPerDay
      /\ (LocalTZA tv true = offset_1900 ->
          TimeWithinDay (LocalTime tv) = 0)
      /\ (LocalTZA tv true = offset_1900 ->
          LocalTZA tw true = offset_1900 ->
          Day (LocalTime tv) - Day (LocalTime tw) = v - w))
  /\ dateUtils.safeParseDate (Number (of_Z v)) c = (Ok (Some (DateAt v)), c)
  /\ excelUtils.parseExcelDate (Number (of_Z 0)) = None
  /\ dateUtils.safeParseDate (Number (of_Z 0)) c = (Ok None, c).
Proof.
  intros V W Tz Bv Bw. split; [| split; [| split; reflexivity]].
  - eexists _, _.
    split; [now apply parseExcelDate_serial |].
    split; [now apply parseExcelDate_serial |].
    unfold LocalTime.
    set (tv := MakeDate (MakeDay 1899 11 31 + v) 0 - offset_1900).
    set (tw := MakeDate (MakeDay 1899 11 31 + w) 0 - offset_1900).
    destruct (Day_of_local_midnight (MakeDay 1899 11 31 + v) offset_1900
                (LocalTZA tv true)) as [Gv Mv].
    destruct (Day_of_local_midnight (MakeDay 1899 11 31 + w) offset_1900
                (LocalTZA tw true)) as [_ Mw].
    fold tv in Gv, Mv. fold tw in Mw.
    split; [unfold tv, tw, MakeDate; lia |].
    split; [exact Gv |].
    split; [intros Ev; exact (proj2 (Mv Ev)) |].
    intros Ev Ew. rewrite (proj1 (Mv Ev)), (proj1 (Mw Ew)). lia.
  - apply safeParseDate_number_is_timestamp; [exact V |].
    unfold maxTime. lia.
Qed.

(** *** String cells *)

Lemma tryFormat_fails (trimmed format : string) (c : Clock) :
  parse_fails trimmed format (readings c (pos c)) ->
  dateUtils.tryFormat trimmed format c = (Ok None, after 1 c).
Proof.
  intros F. unfold dateUtils.tryFormat, try_catch, bind, new_Date, lift, ret.
  simpl. unfold parse_fails in F.
  destruct (parse trimmed format _) as [d | e]; simpl.
  - now rewrite F.
  - reflexivity.
Qed.

Lemma tryFormat_valid (trimmed format : string) (c : Clock) (d : Date) :
  parse trimmed format (DateAt (readings c (pos c))) = Ok d ->
  isValid d = true ->
  dateUtils.tryFormat trimmed format c = (Ok (Some d), after 1 c).
Proof.
  intros P V. unfold dateUtils.tryFormat, try_catch, bind, new_Date, lift, ret.
  simpl. rewrite P. simpl. now rewrite V.
Qed.

(** The loop returns the first format whose parse is a valid date. *)
Lemma tryFormats_first_valid
  (trimmed : string) (pre : list string) (format : string)
  (post : list string) (c : Clock) (d : Date) :
  (forall (i : nat) (g : string),
      pre !! i = Some g -> parse_fails trimmed g (readings c (i + pos c))) ->
  parse trimmed format (DateAt (readings c (length pre + pos c))) = Ok d ->
  isValid d = true ->
  dateUtils.tryFormats trimmed (pre ++ format :: post) c
  = (Ok (Some d), after (S (length pre)) c).
Proof.
  revert c. induction pre as [| g pre IH]; intros c F P V; simpl.
  - unfold bind. now rewrite (tryFormat_valid trimmed format c d P V).
  - unfold bind. rewrite (tryFormat_fails trimmed g c (F 0%nat g eq_refl)).
    rewrite (IH (after 1 c)).
    + unfold after; simpl. do 2 f_equal. f_equal. lia.
    + intros i g' Hi. simpl.
      replace (i + S (pos c))%nat with (S i + pos c)%nat by lia.
      apply (F (S i) g' Hi).
    + simpl. replace (length pre + S (pos c))%nat
        with (S (length pre) + pos c)%nat by lia. exact P.
    + exact V.
Qed.

(** The loop gives nothing when every format fails. *)
Lemma tryFormats_all_fail (trimmed : string) (fs : list string) (c : Clock) :
  (forall (i : nat) (g : string),
      fs !! i = Some g -> parse_fails trimmed g (readings c (i + pos c))) ->
  dateUtils.tryFormats trimmed fs c = (Ok None, after (length fs) c).
Proof.
  revert c. induction fs as [| g fs IH]; intros c F; simpl.
  - unfold ret, after. destruct c; reflexivity.
  - unfold bind. rewrite (tryFormat_fails trimmed g c (F 0%nat g eq_refl)).
    rewrite (IH (after 1 c)).
    + unfold after; simpl. do 2 f_equal. lia.
    + intros i g' Hi. simpl.
      replace (i + S (pos c))%nat with (S i + pos c)%nat by lia.
      apply (F (S i) g' Hi).
Qed.

Lemma is_empty_trim (s : string) : is_empty (trim s) = false -> is_empty s = false.
Proof. destruct s; [discriminate | reflexivity]. Qed.

(** C8, as the code has it.  On a string that is not ISO-like
    [safeParseDate] goes through the seven date-fns formats in their order
    and returns the first parse that is a valid date, so that MM/dd/yyyy
    decides before dd/MM/yyyy is tried; when none is valid the native
    parser decides.  [parseExcelDate] knows three shapes only, yyyy-MM-dd,
    dd.MM.yyyy and MM/dd/yyyy in this order; the first shape the string has
    decides alone, and a string of no such shape goes to the native
    parser. *)
Theorem string_cell_formats :
  dateUtils.formats
  = ["yyyy-MM-dd"; "dd.MM.yyyy"; "MM/dd/yyyy"; "dd/MM/yyyy"; "yyyy/MM/dd";
     "yyyy-MM-dd HH:mm:ss"; "dd.MM.yyyy HH:mm:ss"]
  /\
  (forall (s : string) (c : Clock),
      let trimmed := trim s in
      is_empty trimmed = false ->
      includes trimmed "T" = false ->
      includes trimmed "Z" = false ->
      (forall (pre : list string) (format : string) (post : list string)
              (d : Date),
          dateUtils.formats = (pre ++ format :: post)%list ->
          (forall (i : nat) (g : string),
              pre !! i = Some g ->
              parse_fails trimmed g (readings c (i + pos c))) ->
          parse trimmed format (DateAt (readings c (length pre + pos c))) = Ok d ->
          isValid d = true ->
          fst (dateUtils.safeParseDate (Text s) c) = Ok (Some d))
      /\
      ((forall (i : nat) (g : string),
           dateUtils.formats !! i = Some g ->
           parse_fails trimmed g (readings c (i + pos c))) ->
       fst (dateUtils.safeParseDate (Text s) c)
       = Ok (if isValid (Date_parse trimmed) then Some (Date_parse trimmed)
             else None)))
  /\
  (forall s : string,
      let trimmed := trim s in
      let shape (k : nat) := test (nth k excelUtils.formats []) trimmed in
      is_empty trimmed = false ->
      (shape 0%nat = true ->
         excelUtils.parseExcelDate (Text s)
         = excelUtils.null_if_NaN (Date_parse (trimmed ++ "T00:00:00")))
      /\ (shape 0%nat = false -> shape 1%nat = true ->
            let parts := split "." trimmed in
            excelUtils.parseExcelDate (Text s)
            = excelUtils.null_if_NaN
                (excelUtils.date_of_parts (nth 2 parts EmptyString)
                   (nth 1 parts EmptyString) (nth 0 parts EmptyString)))
      /\ (shape 0%nat = false -> shape 1%nat = false -> shape 2%nat = true ->
            let parts := split "/" trimmed in
            excelUtils.parseExcelDate (Text s)
            = excelUtils.null_if_NaN
                (excelUtils.date_of_parts (nth 2 parts EmptyString)
                   (nth 0 parts EmptyString) (nth 1 parts EmptyString)))
      /\ (shape 0%nat = false -> shape 1%nat = false -> shape 2%nat = false ->
            excelUtils.parseExcelDate (Text s)
            = excelUtils.null_if_NaN (Date_parse trimmed))).
Proof.
  split; [reflexivity |]. split.
  - intros s c trimmed Ne NT NZ.
    assert (Tr : truthy (Text s) = true)
      by (simpl; now rewrite (is_empty_trim s Ne)).
    assert (Run : forall x c',
      dateUtils.tryFormats trimmed dateUtils.formats c = (Ok x, c') ->
      fst (dateUtils.safeParseDate (Text s) c)
      = Ok (match x with
            | Some d => Some d
            | None => if isValid (Date_parse trimmed)
                      then Some (Date_parse trimmed) else None
            end)).
    { intros x c' R. unfold dateUtils.safeParseDate. rewrite Tr. cbn [negb].
      fold trimmed. rewrite Ne, NT, NZ. cbn [orb].
      unfold try_catch. unfold bind at 1. unfold ret at 1.
      unfold bind at 1. rewrite R. destruct x as [d |]; reflexivity. }
    split.
    + intros pre format post d Efs F P V.
      rewrite (Run (Some d) (after (S (length pre)) c)); [reflexivity |].
      rewrite Efs. now apply tryFormats_first_valid.
    + intros F.
      rewrite (Run None (after (length dateUtils.formats) c)); [reflexivity |].
      now apply tryFormats_all_fail.
  - intros s trimmed shape Ne.
    assert (Tr : truthy (Text s) = true)
      by (simpl; now rewrite (is_empty_trim s Ne)).
    unfold excelUtils.parseExcelDate. rewrite Tr. cbn [negb].
    fold trimmed. rewrite Ne. fold (shape 0%nat) (shape 1%nat) (shape 2%nat).
    repeat split.
    + intros ->. reflexivity.
    + intros -> ->. reflexivity.
    + intros -> -> ->. reflexivity.
    + intros -> -> ->. reflexivity.
Qed.

End Properties.

(** * The properties on the sample rows *)

Example zoom_processItem :
  fst (@excelUtils.processItem Samples.host Samples.zoom 3
         (frozen Samples.june1)) = Ok Samples.zoom_record.
Proof. vm_compute. reflexivity. Qed.

Example zoom_formatItem :
  fst (@AppInline.formatItem Samples.host Samples.zoom 3
         (frozen Samples.june1)) = Ok Samples.zoom_record.
Proof. vm_compute. reflexivity. Qed.

Example minus5_processItem :
  fst (@excelUtils.processItem Samples.host Samples.minus5 0
         (frozen Samples.june1)) = Ok Samples.minus5_record.
Proof. vm_compute. reflexivity. Qed.

Example minus5_formatItem :
  fst (@AppInline.formatItem Samples.host Samples.minus5 0
         (frozen Samples.june1)) = Ok Samples.minus5_record.
Proof. vm_compute. reflexivity. Qed.

Example undated_processItem :
  fst (@excelUtils.processItem Samples.host Samples.undated 1
         (frozen Samples.june1)) = Ok Samples.undated_record.
Proof. vm_compute. reflexivity. Qed.

Example sample_import :
  fst (@App.handleImportExcel Samples.host (Some Samples.sample_file)
         (frozen Samples.june1))
  = Ok [App.setIsLoading true; App.setError None;
        App.setRows [ {| id := of_Z 1;
                         name := Text "Zoom Pro";
                         status := Text "online";
                         startDate := Some "2024-03-01T00:00:00.000Z";
                         endDate := Some "2025-03-01T00:00:00.000Z";
                         restDays := of_Z 273;
                         laufzeit := of_Z 12;
                         abgelaufeneMonate := of_Z 3 |};
                      Samples.undated_record ];
        App.setIsLoading false].
Proof. vm_compute. reflexivity. Qed.

(** Month addition of the reference host: 2024-01-31 plus one month is
    2024-02-29. *)
Example addMonths_end_of_january :
  toISOString (RefHost.addMonths (DateAt (MakeDate (MakeDay 2024 0 31) 0)) (of_Z 1))
  = Ok "2024-02-29T00:00:00.000Z".
Proof. vm_compute. reflexivity. Qed.

(** * The properties on concrete inputs *)

Lemma endDate_present_iff_startDate_present_witness :
  fst (@excelUtils.processItem Samples.host Samples.zoom 3
         (frozen Samples.june1)) = Ok Samples.zoom_record
  /\ (is_Some (endDate Samples.zoom_record)
      <-> is_Some (startDate Samples.zoom_record))
  /\ fst (@AppInline.formatItem Samples.host Samples.undated 1
            (frozen Samples.june1)) = Ok Samples.undated_record
  /\ (is_Some (endDate Samples.undated_record)
      <-> is_Some (startDate Samples.undated_record))
  /\ (exists r, fst (@excelUtils.processItem Samples.host Samples.zoom 3
                       (frozen Samples.june1)) = Ok r
                /\ is_Some (startDate r) /\ is_Some (endDate r)).
Proof.
  assert (E : fst (@excelUtils.processItem Samples.host Samples.zoom 3
                     (frozen Samples.june1)) = Ok Samples.zoom_record)
    by (vm_compute; reflexivity).
  assert (E' : fst (@AppInline.formatItem Samples.host Samples.undated 1
                      (frozen Samples.june1)) = Ok Samples.undated_record)
    by (vm_compute; reflexivity).
  split; [exact E |]. split.
  { exact (proj1 (proj1 (@endDate_present_iff_startDate_present Samples.host)
                    Samples.zoom 3%nat (frozen Samples.june1)
                    Samples.zoom_record E)). }
  split; [exact E' |]. split.
  { exact (proj1 (proj1 (proj2 (@endDate_present_iff_startDate_present
                                  Samples.host))
                    Samples.undated 1%nat (frozen Samples.june1)
                    Samples.undated_record E')). }
  generalize (proj1 (proj2 (proj2 (@endDate_present_iff_startDate_present
                                     Samples.host)))
                Samples.zoom 3%nat (frozen Samples.june1)).
  assert (P : @excelUtils.parseExcelDate Samples.host
                (get Samples.zoom "Startdatum")
              = Some (DateAt (MakeDate (MakeDay 2024 2 1) 0)))
    by (vm_compute; reflexivity).
  rewrite P. intros T. apply T. vm_compute. reflexivity.
Defined.

(** C2 at the serial 45292, which a sheet stores for 2024-01-01:
    [parseExcelDate] gives 2024-01-02 and [safeParseDate] the instant 45292
    milliseconds after 1970-01-01, while 1899-12-30 plus 45292 days is
    2024-01-01; at 0 both give a parse failure. *)
Lemma numeric_cell_not_days_since_1899_12_30 :
  @excelUtils.parseExcelDate Samples.host (Number (of_Z 45292))
  = Some (DateAt (MakeDate (MakeDay 2024 0 2) 0))
  /\ fst (@dateUtils.safeParseDate Samples.host (Number (of_Z 45292))
            (frozen Samples.june1))
     = Ok (Some (DateAt 45292))
  /\ MakeDay 1899 11 30 + 45292 = MakeDay 2024 0 1
  /\ MakeDate (MakeDay 2024 0 2) 0 <> MakeDate (MakeDay 2024 0 1) 0
  /\ 45292 <> MakeDate (MakeDay 2024 0 1) 0
  /\ toISOString (DateAt 45292) = Ok "1970-01-01T00:00:45.292Z"
  /\ @excelUtils.parseExcelDate Samples.host (Number (of_Z 0)) = None.
Proof. vm_compute. repeat split; try reflexivity; discriminate. Qed.

Lemma numeric_cell_epochs_witness :
  45292 <> 0 /\ 45293 <> 0
  /\ Z.abs (@offset_1900 Samples.host) <= msPerDay
  /\ Z.abs 45292 <= 50000000 /\ Z.abs 45293 <= 50000000
  /\ (exists tv tw,
        @excelUtils.parseExcelDate Samples.host (Number (of_Z 45293))
        = Some (DateAt tv)
        /\ @excelUtils.parseExcelDate Samples.host (Number (of_Z 45292))
           = Some (DateAt tw)
        /\ tv - tw = (45293 - 45292) * msPerDay
        /\ @LocalTZA Samples.host tv true = @offset_1900 Samples.host
        /\ @LocalTZA Samples.host tw true = @offset_1900 Samples.host
        /\ TimeWithinDay (@LocalTime Samples.host tv) = 0
        /\ Day (@LocalTime Samples.host tv)
           - Day (@LocalTime Samples.host tw) = 45293 - 45292)
  /\ @dateUtils.safeParseDate Samples.host (Number (of_Z 45293))
       (frozen Samples.june1)
     = (Ok (Some (DateAt 45293)), frozen Samples.june1).
Proof.
  assert (V : 45293 <> 0) by discriminate.
  assert (W : 45292 <> 0) by discriminate.
  assert (T : Z.abs (@offset_1900 Samples.host) <= msPerDay)
    by (vm_compute; discriminate).
  assert (Bv : Z.abs 45293 <= 50000000) by (vm_compute; discriminate).
  assert (Bw : Z.abs 45292 <= 50000000) by (vm_compute; discriminate).
  split; [exact W |]. split; [exact V |]. split; [exact T |].
  split; [exact Bw |]. split; [exact Bv |].
  pose proof (@numeric_cell_epochs Samples.host 45293 45292
                (frozen Samples.june1) V W T Bv Bw)
    as ((tv & tw & Pv & Pw & D & _ & M & Dd) & S & _).
  split; [| exact S].
  exists tv, tw.
  assert (Ev : @LocalTZA Samples.host tv true = @offset_1900 Samples.host)
    by reflexivity.
  assert (Ew : @LocalTZA Samples.host tw true = @offset_1900 Samples.host)
    by reflexivity.
  split; [exact Pv |]. split; [exact Pw |]. split; [exact D |].
  split; [exact Ev |]. split; [exact Ew |].
  split; [exact (M Ev) | exact (Dd Ev Ew)].
Defined.

(** A serial whose date falls into summer time, in a zone that was one hour
    ahead of UTC in 1900: the result is 2024-07-02 at one o'clock local
    time, not a midnight. *)
Lemma serial_in_summer_time :
  @excelUtils.parseExcelDate MoreSamples.summer_host (Number (of_Z 45474))
  = Some (DateAt (MakeDate (MakeDay 2024 6 1) 82800000))
  /\ @LocalTime MoreSamples.summer_host
       (MakeDate (MakeDay 2024 6 1) 82800000)
     = MakeDate (MakeDay 2024 6 2) 3600000
  /\ @offset_1900 MoreSamples.summer_host = 3600000.
Proof. vm_compute. repeat split; reflexivity. Qed.

(** C3 on a row whose duration cell is -5: both versions store -5, not 0. *)
Lemma durationMonths_minus5_kept :
  (exists r, fst (@excelUtils.processItem Samples.host Samples.minus5 0
                    (frozen Samples.june1)) = Ok r
             /\ laufzeit r = of_Z (-5) /\ laufzeit r <> of_Z 0)
  /\ (exists r, fst (@AppInline.formatItem Samples.host Samples.minus5 0
                       (frozen Samples.june1)) = Ok r
                /\ laufzeit r = of_Z (-5) /\ laufzeit r <> of_Z 0).
Proof.
  split; exists Samples.minus5_record;
    (split; [vm_compute; reflexivity | split; [reflexivity | discriminate]]).
Qed.

Lemma durationMonths_is_coerced_cell_witness :
  fst (@excelUtils.processItem Samples.host Samples.minus5 0
         (frozen Samples.june1)) = Ok Samples.minus5_record
  /\ get Samples.minus5 "Laufzeit in M" = Number (of_Z (-5))
  /\ num_truthy (of_Z (-5)) = true
  /\ laufzeit Samples.minus5_record = of_Z (-5)
  /\ fst (@AppInline.formatItem Samples.host Samples.unlimited 0
            (frozen Samples.june1)) = Ok Samples.unlimited_record
  /\ @ToNumber Samples.host (get Samples.unlimited "Laufzeit in M") = NaN
  /\ laufzeit Samples.unlimited_record = of_Z 0
  /\ fst (@AppInline.formatItem Samples.host Samples.undated 1
            (frozen Samples.june1)) = Ok Samples.undated_record
  /\ get Samples.undated "Laufzeit in M" = Text "6"
  /\ laufzeit Samples.undated_record
     = num_or (@StringToNumber Samples.host "6") (of_Z 0)
  /\ num_or (@StringToNumber Samples.host "6") (of_Z 0) = of_Z 6.
Proof.
  assert (E : fst (@excelUtils.processItem Samples.host Samples.minus5 0
                     (frozen Samples.june1)) = Ok Samples.minus5_record)
    by (vm_compute; reflexivity).
  assert (G : get Samples.minus5 "Laufzeit in M" = Number (of_Z (-5)))
    by (vm_compute; reflexivity).
  assert (T : num_truthy (of_Z (-5)) = true) by reflexivity.
  assert (E' : fst (@AppInline.formatItem Samples.host Samples.unlimited 0
                      (frozen Samples.june1)) = Ok Samples.unlimited_record)
    by (vm_compute; reflexivity).
  assert (N : @ToNumber Samples.host (get Samples.unlimited "Laufzeit in M")
              = NaN)
    by (vm_compute; reflexivity).
  assert (E6 : fst (@AppInline.formatItem Samples.host Samples.undated 1
                      (frozen Samples.june1)) = Ok Samples.undated_record)
    by (vm_compute; reflexivity).
  assert (G6 : get Samples.undated "Laufzeit in M" = Text "6")
    by (vm_compute; reflexivity).
  split; [exact E |]. split; [exact G |]. split; [exact T |]. split.
  { destruct (proj1 (@durationMonths_is_coerced_cell Samples.host)
                Samples.minus5 0%nat (frozen Samples.june1)
                Samples.minus5_record E) as (_ & _ & _ & _ & K & _).
    exact (K (of_Z (-5)) G T). }
  split; [exact E' |]. split; [exact N |]. split.
  { destruct (proj2 (@durationMonths_is_coerced_cell Samples.host)
                Samples.unlimited 0%nat (frozen Samples.june1)
                Samples.unlimited_record E') as (_ & _ & K & _).
    exact (K N). }
  split; [exact E6 |]. split; [exact G6 |]. split.
  { destruct (proj2 (@durationMonths_is_coerced_cell Samples.host)
                Samples.undated 1%nat (frozen Samples.june1)
                Samples.undated_record E6) as (_ & _ & _ & K & _).
    exact (K "6" G6). }
  vm_compute. reflexivity.
Defined.

(** C4 on a contract that starts in 2100, seen on 2024-06-01: the inline
    version stores -907 elapsed months; [processExcelData] stores 0. *)
Theorem elapsed_months_negative_inline :
  (exists r, fst (@AppInline.formatItem Samples.host Samples.future 0
                    (frozen Samples.june1)) = Ok r
             /\ abgelaufeneMonate r = of_Z (-907)
             /\ num_lt (abgelaufeneMonate r) (of_Z 0) = true)
  /\ (exists r, fst (@excelUtils.processItem Samples.host Samples.future 0
                       (frozen Samples.june1)) = Ok r
                /\ abgelaufeneMonate r = of_Z 0).
Proof.
  split; eexists; (split; [vm_compute; reflexivity |]);
    repeat split; reflexivity.
Qed.

Lemma date_parsers_total_and_valid_witness :
  whitespace_only "   " = true
  /\ @dateUtils.safeParseDate Samples.host (Text "   ") (frozen Samples.june1)
     = (Ok None, frozen Samples.june1)
  /\ @excelUtils.parseExcelDate Samples.host (Text "   ") = None.
Proof.
  split; [reflexivity |].
  exact (proj2 (proj2 (proj2 (proj2
           (@date_parsers_total_and_valid Samples.host))))
           "   " (frozen Samples.june1) eq_refl).
Defined.

Lemma failed_import_keeps_rows_witness :
  readAsBinaryString Samples.broken_file = Some "not a workbook"
  /\ @XLSX_read Samples.host "not a workbook"
     = Throw (Error "File is not a spreadsheet")
  /\ fst (@excelUtils.readExcelFile Samples.host Samples.broken_file
            (frozen Samples.june1))
     = Throw (Error "File is not a spreadsheet")
  /\ exists us,
       fst (@App.handleImportExcel Samples.host (Some Samples.broken_file)
              (frozen Samples.june1)) = Ok us
       /\ Forall (fun s' => App.rows s' = [Samples.zoom_record])
            (App.states {| App.rows := [Samples.zoom_record];
                           App.isLoading := false;
                           App.error := None |} us)
       /\ App.rows (App.final {| App.rows := [Samples.zoom_record];
                                 App.isLoading := false;
                                 App.error := None |} us)
          = [Samples.zoom_record]
       /\ App.error (App.final {| App.rows := [Samples.zoom_record];
                                  App.isLoading := false;
                                  App.error := None |} us)
          = Some App.errorMessage
       /\ App.isLoading (App.final {| App.rows := [Samples.zoom_record];
                                      App.isLoading := false;
                                      App.error := None |} us) = false.
Proof.
  assert (F : readAsBinaryString Samples.broken_file = Some "not a workbook")
    by reflexivity.
  assert (D : @XLSX_read Samples.host "not a workbook"
              = Throw (Error "File is not a spreadsheet"))
    by (vm_compute; reflexivity).
  pose proof (proj1 (@failed_import_keeps_rows Samples.host)
                Samples.broken_file "not a workbook" _
                (frozen Samples.june1) F D) as R.
  split; [exact F |]. split; [exact D |]. split; [exact R |].
  exact (proj2 (@failed_import_keeps_rows Samples.host)
           Samples.broken_file _ (frozen Samples.june1)
           {| App.rows := [Samples.zoom_record];
              App.isLoading := false; App.error := None |} R).
Defined.

Lemma getStatusBadge_expired_takes_precedence_witness :
  of_Z (-3) <> NaN
  /\ num_le (of_Z (-3)) (of_Z 0) = true
  /\ App.getStatusBadge "online" (of_Z (-3)) = Abgelaufen
  /\ of_Z 273 <> NaN
  /\ num_lt (of_Z 30) (of_Z 273) = true
  /\ App.getStatusBadge "online" (of_Z 273) = Online.
Proof.
  assert (N : of_Z (-3) <> NaN) by discriminate.
  assert (L : num_le (of_Z (-3)) (of_Z 0) = true) by reflexivity.
  assert (N' : of_Z 273 <> NaN) by discriminate.
  assert (L' : num_lt (of_Z 30) (of_Z 273) = true) by reflexivity.
  split; [exact N |]. split; [exact L |]. split.
  { exact (proj1 (proj1 (getStatusBadge_expired_takes_precedence
                           "online" (of_Z (-3)) N) L)). }
  split; [exact N' |]. split; [exact L' |].
  apply (proj1 (proj2 (proj2 (proj2
           (getStatusBadge_expired_takes_precedence "online" (of_Z 273) N'))))).
  split; [reflexivity |]. split; [exact L' | reflexivity].
Defined.

Lemma falsy_cell_is_parse_failure_witness :
  truthy (Number (of_Z 0)) = false
  /\ @dateUtils.safeParseDate Samples.host (Number (of_Z 0))
       (frozen Samples.june1) = (Ok None, frozen Samples.june1)
  /\ @excelUtils.parseExcelDate Samples.host (Number (of_Z 0)) = None.
Proof.
  split; [reflexivity |].
  exact (proj2 (proj2 (@falsy_cell_is_parse_failure Samples.host))
           (Number (of_Z 0)) (frozen Samples.june1) eq_refl).
Defined.

(** C9 on the Zoom Pro row at index 0: read on 2024-06-01 and on 2024-06-02
    the same row gives different records; the instant is not an input. *)
Lemma processItem_depends_on_clock :
  fst (@excelUtils.processExcelData Samples.host [Samples.zoom]
         (frozen Samples.june1))
  <> fst (@excelUtils.processExcelData Samples.host [Samples.zoom]
            (frozen Samples.june2)).
Proof. vm_compute. discriminate. Qed.

Lemma processExcelData_deterministic_witness :
  same_readings (frozen Samples.june1) Samples.later_clock
  /\ fst (@excelUtils.processExcelData Samples.host
            [Samples.zoom; Samples.undated] (frozen Samples.june1))
     = fst (@excelUtils.processExcelData Samples.host
              [Samples.zoom; Samples.undated] Samples.later_clock).
Proof.
  assert (S : same_readings (frozen Samples.june1) Samples.later_clock).
  { intros n. simpl.
    replace (n + 5 <? 5)%nat with false; [reflexivity |].
    symmetry. apply Nat.ltb_ge. lia. }
  split; [exact S |].
  exact (@processExcelData_deterministic_in_rows_and_clock Samples.host
           [Samples.zoom; Samples.undated] (frozen Samples.june1)
           Samples.later_clock S).
Defined.

(** C8 on two strings: [parseExcelDate] reads "25/12/2024" with the month
    carried over, where the layouts of the list give 2024-12-25, and it has
    no layout with a time of day, so that "25.12.2024 10:30:00" is left to
    the native parser. *)
Lemma parseExcelDate_not_the_seven_layouts :
  (@spec_first_layout Samples.host "25/12/2024" spec_layouts
     (DateAt Samples.june1)
   = Some (DateAt (MakeDate (MakeDay 2024 11 25) 0))
   /\ @excelUtils.parseExcelDate Samples.host (Text "25/12/2024")
      = Some (DateAt (MakeDate (MakeDay 2026 0 12) 0)))
  /\
  (@spec_first_layout Samples.host "25.12.2024 10:30:00" spec_layouts
     (DateAt Samples.june1)
   = Some (DateAt (MakeDate (MakeDay 2024 11 25) 37800000))
   /\ @excelUtils.parseExcelDate Samples.host (Text "25.12.2024 10:30:00")
      = None).
Proof. vm_compute. repeat split; reflexivity. Qed.

Lemma string_cell_formats_witness :
  is_empty (trim " 03/04/2024 ") = false
  /\ includes (trim " 03/04/2024 ") "T" = false
  /\ includes (trim " 03/04/2024 ") "Z" = false
  /\ fst (@dateUtils.safeParseDate Samples.host (Text " 03/04/2024 ")
            (frozen Samples.june1))
     = Ok (Some (DateAt (MakeDate (MakeDay 2024 2 4) 0)))
  /\ test (nth 0 excelUtils.formats []) (trim "01.03.2024") = false
  /\ test (nth 1 excelUtils.formats []) (trim "01.03.2024") = true
  /\ @excelUtils.parseExcelDate Samples.host (Text "01.03.2024")
     = excelUtils.null_if_NaN
         (@excelUtils.date_of_parts Samples.host "2024" "03" "01").
Proof.
  split; [reflexivity |]. split; [reflexivity |]. split; [reflexivity |].
  split.
  { refine (proj1 (proj1 (proj2 (@string_cell_formats Samples.host))
                     " 03/04/2024 " (frozen Samples.june1)
                     eq_refl eq_refl eq_refl)
              ["yyyy-MM-dd"; "dd.MM.yyyy"] "MM/dd/yyyy"
              ["dd/MM/yyyy"; "yyyy/MM/dd"; "yyyy-MM-dd HH:mm:ss";
               "dd.MM.yyyy HH:mm:ss"]
              _ eq_refl _ _ _).
    - intros [| [| i]] g; simpl; intros [= <-]; vm_compute; reflexivity.
    - vm_compute. reflexivity.
    - reflexivity. }
  split; [reflexivity |]. split; [reflexivity |].
  exact (proj1 (proj2 (proj2 (proj2 (@string_cell_formats Samples.host))
                         "01.03.2024" eq_refl))
           eq_refl eq_refl).
Defined.

(** * More properties of the import *)

(** *** Digits and [parseInt] *)

Lemma isDigit_cases (c : ascii) :
  isDigit c = true ->
  (c = "0" \/ c = "1" \/ c = "2" \/ c = "3" \/ c = "4"
   \/ c = "5" \/ c = "6" \/ c = "7" \/ c = "8" \/ c = "9")%char.
Proof.
  destruct c as [[] [] [] [] [] [] [] []]; intros D; try discriminate D;
    repeat (first [left; reflexivity | right]); reflexivity.
Qed.

Lemma digit_value_10 (c : ascii) :
  digit_value 10 c
  = if isDigit c then Some (Z.of_N (N_of_ascii c) - 48) else None.
Proof. destruct c as [[] [] [] [] [] [] [] []]; reflexivity. Qed.

Lemma isWhiteSpace_digit (c : ascii) : isDigit c = true -> isWhiteSpace c = false.
Proof. destruct c as [[] [] [] [] [] [] [] []]; intros D; try discriminate D; reflexivity. Qed.

Lemma Number_of_Z_exact (z : Z) :
  Z.abs z <= 2 ^ 53 -> Number_of_Z z = of_Z z.
Proof.
  intros B. unfold Number_of_Z. cbv zeta.
  now rewrite (proj2 (Z.leb_le _ _) B).
Qed.

Lemma digit_of_bound (c : ascii) : isDigit c = true -> 0 <= digit_of c <= 9.
Proof.
  intros D.
  destruct (isDigit_cases c D) as [-> | [-> | [-> | [-> | [-> | [-> | [-> | [-> | [-> | ->]]]]]]]]];
    vm_compute; split; discriminate.
Qed.

Lemma parseInt_digit_first (c : ascii) (t : string) :
  isDigit c = true ->
  (c = "0"%char -> no_hex_mark t) ->
  parseInt (String c t)
  = match read_digits 10 None (String c t) with
    | Some n => Number_of_Z n
    | None => NaN
    end.
Proof.
  intros D Hx. unfold parseInt. cbn [trimStart]. rewrite (isWhiteSpace_digit c D).
  destruct (isDigit_cases c D) as [-> | [-> | [-> | [-> | [-> | [-> | [-> | [-> | [-> | ->]]]]]]]]].
  2-10: (cbv beta iota; destruct (read_digits 10 None _); [now rewrite Z.mul_1_l | reflexivity]).
  specialize (Hx eq_refl). destruct t as [| c2 t]; [reflexivity |].
  destruct Hx as [Hx HX].
  destruct c2 as [[] [] [] [] [] [] [] []]; try (exfalso; apply Hx; reflexivity); try (exfalso; apply HX; reflexivity);
  (cbv beta iota; destruct (read_digits 10 None _); [now rewrite Z.mul_1_l | reflexivity]).
Qed.

Lemma daysBeforeMonth_bound (leap : bool) (m : Z) :
  0 <= daysBeforeMonth leap m <= 335.
Proof.
  unfold daysBeforeMonth.
  destruct leap, m as [| p | p]; try (simpl; lia);
    repeat (destruct p as [p | p |]; try (simpl; lia)).
Qed.

Lemma DayFromYear_bound (y : Z) :
  -20000 <= y <= 20000 -> -9000000 <= DayFromYear y <= 9000000.
Proof.
  intros B. unfold DayFromYear.
  Z.to_euclidean_division_equations. lia.
Qed.

Lemma MakeDay_bound (y m d : Z) :
  -10000 <= y <= 10000 -> -1000 <= m <= 1000 -> -1000 <= d <= 1000 ->
  -10000000 <= MakeDay y m d <= 10000000.
Proof.
  intros By Bm Bd. unfold MakeDay.
  pose proof (daysBeforeMonth_bound (isLeapYear (y + m / 12)) (m mod 12)).
  pose proof (DayFromYear_bound (y + m / 12)) as Hy.
  assert (-20000 <= y + m / 12 <= 20000) by (Z.to_euclidean_division_equations; lia).
  cbv zeta. lia.
Qed.

Lemma N_of_digit_char (n : Z) :
  Z.of_N (N_of_ascii (digit_char n)) = 48 + n mod 10.
Proof.
  unfold digit_char.
  assert (0 <= n mod 10 < 10) by (apply Z.mod_pos_bound; lia).
  rewrite N_ascii_embedding by lia. lia.
Qed.

Lemma isDigit_digit_char (n : Z) : isDigit (digit_char n) = true.
Proof.
  unfold isDigit. cbv zeta.
  pose proof (N_of_digit_char n) as E.
  assert (0 <= n mod 10 < 10) by (apply Z.mod_pos_bound; lia).
  apply andb_true_intro; split; apply N.leb_le; lia.
Qed.

Lemma digit_not_sep (c : ascii) :
  isDigit c = true ->
  Ascii.eqb c "." = false /\ Ascii.eqb c "/" = false /\ Ascii.eqb c "-" = false
  /\ c <> "x"%char /\ c <> "X"%char.
Proof.
  intros D.
  destruct (isDigit_cases c D) as [-> | [-> | [-> | [-> | [-> | [-> | [-> | [-> | [-> | ->]]]]]]]]];
    repeat split; discriminate.
Qed.

Lemma digit_of_digit_char (n : Z) : digit_of (digit_char n) = n mod 10.
Proof. unfold digit_of. rewrite N_of_digit_char. lia. Qed.

Lemma parseInt_two_digits (a b : ascii) :
  isDigit a = true -> isDigit b = true ->
  parseInt (String a (String b EmptyString)) = of_Z (digit_of a * 10 + digit_of b).
Proof.
  intros Da Db. rewrite parseInt_digit_first; [| exact Da |].
  - cbn [read_digits]. rewrite !digit_value_10, Da. cbn [default].
    rewrite Db. fold (digit_of a) (digit_of b).
    pose proof (digit_of_bound a Da). pose proof (digit_of_bound b Db).
    apply Number_of_Z_exact. change (2 ^ 53) with 9007199254740992. lia.
  - intros _. simpl. destruct (digit_not_sep b Db) as (_ & _ & _ & Hx & HX). split; assumption.
Qed.

Lemma parseInt_four_digits (a b c d : ascii) :
  isDigit a = true -> isDigit b = true -> isDigit c = true -> isDigit d = true ->
  parseInt (String a (String b (String c (String d EmptyString))))
  = of_Z (((digit_of a * 10 + digit_of b) * 10 + digit_of c) * 10 + digit_of d).
Proof.
  intros Da Db Dc Dd. rewrite parseInt_digit_first; [| exact Da |].
  - cbn [read_digits]. rewrite !digit_value_10, Da. cbn [default].
    rewrite Db. cbn [default]. rewrite Dc. cbn [default]. rewrite Dd.
    fold (digit_of a) (digit_of b) (digit_of c) (digit_of d).
    pose proof (digit_of_bound a Da). pose proof (digit_of_bound b Db).
    pose proof (digit_of_bound c Dc). pose proof (digit_of_bound d Dd).
    apply Number_of_Z_exact. change (2 ^ 53) with 9007199254740992. lia.
  - intros _. simpl. destruct (digit_not_sep b Db) as (_ & _ & _ & Hx & HX). split; assumption.
Qed.


Lemma all_digits_app (a b : string) :
  all_digits (a ++ b) = all_digits a && all_digits b.
Proof.
  induction a as [| c a IH]; simpl; [reflexivity |].
  now rewrite IH, andb_assoc.
Qed.

Lemma all_digits_pad (k : nat) (n : Z) : all_digits (pad k n) = true.
Proof.
  revert n. induction k as [| k IH]; intros n; simpl; [reflexivity |].
  rewrite all_digits_app, IH. simpl. now rewrite isDigit_digit_char.
Qed.

Lemma read_digits_app (a b : string) (acc : option Z) :
  all_digits a = true ->
  read_digits 10 acc (a ++ b) = read_digits 10 (read_digits 10 acc a) b.
Proof.
  revert acc. induction a as [| c a IH]; intros acc D; simpl in *;
    [reflexivity |].
  apply andb_prop in D as [Dc Da]. rewrite digit_value_10, Dc. now apply IH.
Qed.

Lemma read_digits_stops (rest : string) (acc : option Z) :
  stops rest -> read_digits 10 acc rest = acc.
Proof.
  destruct rest as [| c rest]; [reflexivity |]. intros (D & _). simpl.
  now rewrite digit_value_10, D.
Qed.

Lemma read_digits_pad (k : nat) (n : Z) (acc : option Z) :
  0 <= n < 10 ^ Z.of_nat (S k) ->
  read_digits 10 acc (pad (S k) n)
  = Some (default 0 acc * 10 ^ Z.of_nat (S k) + n).
Proof.
  revert n acc. induction k as [| k IH]; intros n acc B.
  - change (pad 1 n) with (String (digit_char n) EmptyString).
    cbn [read_digits]. rewrite digit_value_10, isDigit_digit_char.
    fold (digit_of (digit_char n)). rewrite digit_of_digit_char.
    change (10 ^ Z.of_nat 1) with 10 in *. f_equal.
    rewrite Z.mod_small by lia. reflexivity.
  - change (pad (S (S k)) n)
      with (pad (S k) (n / 10) ++ String (digit_char n) EmptyString).
    rewrite read_digits_app by apply all_digits_pad.
    assert (P : 10 ^ Z.of_nat (S (S k)) = 10 * 10 ^ Z.of_nat (S k)).
    { rewrite (Nat2Z.inj_succ (S k)), Z.pow_succ_r by lia. reflexivity. }
    rewrite IH.
    2:{ rewrite P in B. split; [apply Z.div_pos; lia |].
        apply Z.div_lt_upper_bound; lia. }
    cbn [read_digits default]. rewrite digit_value_10, isDigit_digit_char.
    fold (digit_of (digit_char n)). rewrite digit_of_digit_char.
    f_equal. rewrite P. pose proof (Z.div_mod n 10 ltac:(lia)).
    unfold Datatypes.id. lia.
Qed.

Lemma pad_S_cons (k : nat) (n : Z) :
  exists c t, pad (S k) n = String c t /\ isDigit c = true
              /\ all_digits t = true.
Proof.
  pose proof (all_digits_pad (S k) n) as D.
  destruct (pad (S k) n) as [| c t] eqn:E.
  - exfalso. simpl in E. destruct (pad k (n / 10)); discriminate.
  - simpl in D. apply andb_prop in D as [Dc Dt]. eauto.
Qed.

Lemma trimStart_app (ws s : string) :
  whitespace_only ws = true -> trimStart (ws ++ s) = trimStart s.
Proof.
  induction ws as [| c ws IH]; simpl; [reflexivity |].
  intros [Hc Hw]%andb_prop. rewrite Hc. auto.
Qed.

Lemma parseInt_trimStart (s : string) : parseInt s = parseInt (trimStart s).
Proof.
  unfold parseInt.
  assert (E : trimStart (trimStart s) = trimStart s).
  { induction s as [| c s IH]; simpl; [reflexivity |].
    destruct (isWhiteSpace c) eqn:W; [exact IH | simpl; now rewrite W]. }
  now rewrite E.
Qed.

(** [parseInt] reads the whole number a string starts with, as a Number,
    and ignores what follows it. *)
Lemma parseInt_leading (ws rest : string) (k : nat) (n : Z) :
  whitespace_only ws = true ->
  0 <= n < 10 ^ Z.of_nat (S k) ->
  stops rest ->
  parseInt (ws ++ pad (S k) n ++ rest) = Number_of_Z n.
Proof.
  intros W B St.
  rewrite parseInt_trimStart, trimStart_app, <- parseInt_trimStart by exact W.
  destruct (pad_S_cons k n) as (c & t & E & Dc & Dt).
  assert (R : read_digits 10 None (pad (S k) n ++ rest) = Some n).
  { rewrite read_digits_app by apply all_digits_pad.
    rewrite read_digits_pad by exact B. rewrite read_digits_stops by exact St.
    simpl. reflexivity. }
  rewrite E in *. change (String c t ++ rest) with (String c (t ++ rest)) in *.
  rewrite parseInt_digit_first; [now rewrite R | exact Dc |].
  intros _. destruct t as [| c2 t]; simpl.
  - destruct rest; [exact I |]. destruct St as (_ & Hx & HX). split; assumption.
  - simpl in Dt. apply andb_prop in Dt as [D2 _].
    destruct (digit_not_sep c2 D2) as (_ & _ & _ & Hx & HX). split; assumption.
Qed.

Section MoreProperties.
Context `{Host}.

(** What a record of [processExcelData] holds. *)
Lemma processItem_Ok_inv
  (item : RawRow) (index : nat) (c : Clock) (r : ContractData) :
  fst (excelUtils.processItem item index c) = Ok r ->
  id r = of_Z (Z.of_nat index + 1)
  /\ name r = Text (ToString (or_else (get item "Name") (Text "Unbenannt")))
  /\ status r = Text (ToString (or_else (get item "Status") (Text "online")))
  /\ laufzeit r = excelUtils.durationMonths_of (get item "Laufzeit in M")
  /\ match excelUtils.parseExcelDate (get item "Startdatum") with
     | None =>
         startDate r = None /\ endDate r = None
         /\ restDays r = of_Z 0 /\ abgelaufeneMonate r = of_Z 0
     | Some d =>
         exists t e,
           d = DateAt t
           /\ addMonths d (excelUtils.durationMonths_of
                             (get item "Laufzeit in M")) = DateAt e
           /\ startDate r = Some (isoString t)
           /\ endDate r = Some (isoString e)
           /\ restDays r
              = differenceInDays (DateAt e) (DateAt (readings c (pos c)))
           /\ abgelaufeneMonate r
              = Math_max (of_Z 0)
                  (differenceInMonths (DateAt (readings c (S (pos c)))) d)
     end.
Proof.
  intros Hr.
  destruct (excelUtils.parseExcelDate (get item "Startdatum")) as [d |] eqn:E.
  - destruct (processItem_dated item index c d E) as (t & -> & Hrun).
    cbv zeta in Hrun. rewrite Hrun in Hr.
    destruct (addMonths (DateAt t) _) as [| e] eqn:Ea; [discriminate |].
    simpl in Hr. injection Hr as <-. simpl.
    repeat split. exists t, e. repeat split.
  - rewrite (processItem_undated item index c E) in Hr.
    simpl in Hr. injection Hr as <-. simpl. repeat split.
Qed.

(** What a record of the inline version holds. *)
Lemma formatItem_Ok_inv
  (item : RawRow) (index : nat) (c : Clock) (r : ContractData) :
  fst (AppInline.formatItem item index c) = Ok r ->
  id r = of_Z (Z.of_nat index + 1)
  /\ name r = or_else (get item "Name") (Text "Unbenannt")
  /\ status r = or_else (get item "Status") (Text "online")
  /\ laufzeit r = num_or (ToNumber (get item "Laufzeit in M")) (of_Z 0)
  /\ exists sd c1,
       dateUtils.safeParseDate (get item "Startdatum") c = (Ok sd, c1)
       /\ match sd with
          | None =>
              startDate r = None /\ endDate r = None
              /\ restDays r = of_Z 0 /\ abgelaufeneMonate r = of_Z 0
          | Some d =>
              exists t e,
                d = DateAt t
                /\ addMonths d (num_or (ToNumber (get item "Laufzeit in M"))
                                  (of_Z 0)) = DateAt e
                /\ startDate r = Some (isoString t)
                /\ endDate r = Some (isoString e)
                /\ restDays r
                   = differenceInDays (DateAt e)
                       (DateAt (readings c1 (pos c1)))
                /\ abgelaufeneMonate r
                   = differenceInMonths (DateAt (readings c1 (S (pos c1)))) d
          end.
Proof.
  intros Hr.
  destruct (safeParseDate_returns (get item "Startdatum") c)
    as (sd & c1 & E & V).
  destruct sd as [d |].
  - simpl in V. destruct (valid_is_DateAt d V) as [t ->].
    pose proof (formatItem_dated item index c c1 t E) as Hrun.
    cbv zeta in Hrun. rewrite Hrun in Hr.
    destruct (addMonths (DateAt t) _) as [| e] eqn:Ea; [discriminate |].
    simpl in Hr. injection Hr as <-. simpl.
    repeat split. exists (Some (DateAt t)), c1. split; [exact E |].
    exists t, e. repeat split. exact Ea.
  - rewrite (formatItem_undated item index c c1 E) in Hr.
    simpl in Hr. injection Hr as <-. simpl.
    repeat split. exists None, c1. split; [exact E |]. repeat split.
Qed.

(** [map] keeps the length and hands every callback its position. *)
Lemma map_indexed_Ok {A B : Type} (f : A -> nat -> M B)
  (P : A -> nat -> B -> Prop) :
  (forall x i c y, fst (f x i c) = Ok y -> P x i y) ->
  forall (l : list A) (i : nat) (c : Clock) (ys : list B),
    fst (map_indexed f i l c) = Ok ys ->
    length ys = length l
    /\ forall (k : nat) (x : A) (y : B),
         l !! k = Some x -> ys !! k = Some y -> P x (i + k)%nat y.
Proof.
  intros HP. induction l as [| x l IH]; intros i c ys Hrun; simpl in Hrun.
  - injection Hrun as <-. split; [reflexivity |]. intros k x y [=].
  - unfold bind at 1 in Hrun.
    destruct (f x i c) as [[y |e] c1] eqn:Ef; [| discriminate].
    unfold bind at 1 in Hrun.
    destruct (map_indexed f (S i) l c1) as [[ys' | e] c2] eqn:El;
      [| discriminate].
    simpl in Hrun. injection Hrun as <-.
    destruct (IH (S i) c1 ys') as [Hlen Hk]; [now rewrite El |].
    split; [simpl; now rewrite Hlen |].
    intros [| k] x' y'; simpl.
    + intros [= <-] [= <-]. rewrite Nat.add_0_r. apply (HP x i c).
      now rewrite Ef.
    + intros Hx Hy. replace (i + S k)%nat with (S i + k)%nat by lia.
      now apply Hk.
Qed.

(** X1.  An import numbers its records 1, 2, 3, ... in the order of the
    rows, whatever the rows hold, and builds one record for each row. *)
Theorem ids_are_row_positions :
  (forall (data : list RawRow) (c : Clock) (rs : list ContractData),
      fst (excelUtils.processExcelData data c) = Ok rs ->
      length rs = length data
      /\ forall (k : nat) (r : ContractData),
           rs !! k = Some r -> id r = of_Z (Z.of_nat k + 1))
  /\
  (forall (data : list RawRow) (c : Clock) (rs : list ContractData),
      fst (AppInline.formatted data c) = Ok rs ->
      length rs = length data
      /\ forall (k : nat) (r : ContractData),
           rs !! k = Some r -> id r = of_Z (Z.of_nat k + 1)).
Proof.
  split; intros data c rs Hrun.
  - destruct (map_indexed_Ok excelUtils.processItem
                (fun _ i r => id r = of_Z (Z.of_nat i + 1))
                (fun x i c y Hy => proj1 (processItem_Ok_inv x i c y Hy))
                data 0%nat c rs Hrun) as [Hlen Hk].
    split; [exact Hlen |]. intros k r Hr.
    destruct (lookup_lt_is_Some_2 data k) as [x Hx].
    { rewrite <- Hlen. eapply lookup_lt_Some, Hr. }
    exact (Hk k x r Hx Hr).
  - destruct (map_indexed_Ok AppInline.formatItem
                (fun _ i r => id r = of_Z (Z.of_nat i + 1))
                (fun x i c y Hy => proj1 (formatItem_Ok_inv x i c y Hy))
                data 0%nat c rs Hrun) as [Hlen Hk].
    split; [exact Hlen |]. intros k r Hr.
    destruct (lookup_lt_is_Some_2 data k) as [x Hx].
    { rewrite <- Hlen. eapply lookup_lt_Some, Hr. }
    exact (Hk k x r Hx Hr).
Qed.

(** *** One row can fail the import *)

Lemma processItem_ok_or_throw (item : RawRow) (index : nat) (c : Clock) :
  if end_date_ok item
  then exists r, fst (excelUtils.processItem item index c) = Ok r
  else fst (excelUtils.processItem item index c) = Throw RangeError.
Proof.
  unfold end_date_ok.
  destruct (excelUtils.parseExcelDate (get item "Startdatum")) as [d |] eqn:E.
  - destruct (processItem_dated item index c d E) as (t & -> & Hrun).
    cbv zeta in Hrun. rewrite Hrun.
    destruct (addMonths (DateAt t) _); simpl; eauto.
  - rewrite (processItem_undated item index c E). simpl. eauto.
Qed.

Lemma map_indexed_cons {A B : Type} (f : A -> nat -> M B)
  (x : A) (l : list A) (i : nat) (c : Clock) :
  map_indexed f i (x :: l) c
  = match f x i c with
    | (Ok y, c1) =>
        match map_indexed f (S i) l c1 with
        | (Ok ys, c2) => (Ok (y :: ys), c2)
        | (Throw e, c2) => (Throw e, c2)
        end
    | (Throw e, c1) => (Throw e, c1)
    end.
Proof. reflexivity. Qed.

Lemma map_indexed_processItem_all_or_nothing
  (data : list RawRow) (i : nat) (c : Clock) :
  if forallb end_date_ok data
  then exists rs, fst (map_indexed excelUtils.processItem i data c) = Ok rs
  else fst (map_indexed excelUtils.processItem i data c) = Throw RangeError.
Proof.
  revert i c. induction data as [| item data IH]; intros i c.
  - simpl. eauto.
  - rewrite map_indexed_cons. cbn [forallb].
    pose proof (processItem_ok_or_throw item i c) as Hi.
    destruct (excelUtils.processItem item i c) as [x c1].
    destruct (end_date_ok item); simpl in Hi |- *.
    + destruct Hi as [r ->]. specialize (IH (S i) c1).
      destruct (map_indexed excelUtils.processItem (S i) data c1) as [y c2].
      destruct (forallb end_date_ok data); simpl in IH |- *.
      * destruct IH as [rs ->]. simpl. eauto.
      * subst y. reflexivity.
    + subst x. reflexivity.
Qed.

Lemma readExcelFile_decoded
  (file : File) (bstr : string) (wb : WorkBook WorkSheet)
  (data : list RawRow) (c : Clock) :
  readAsBinaryString file = Some bstr ->
  XLSX_read bstr = Ok wb ->
  sheet_to_json (first_sheet wb) = Ok data ->
  excelUtils.readExcelFile file c = excelUtils.processExcelData data c.
Proof.
  intros F R J. unfold excelUtils.readExcelFile. rewrite F.
  unfold try_catch. unfold bind at 1. unfold lift at 1. rewrite R.
  unfold bind at 1. unfold lift at 1. fold (first_sheet wb). rewrite J.
  unfold bind at 1.
  destruct (excelUtils.processExcelData data c) as [[rs | e] c']; reflexivity.
Qed.

(** X2.  [processExcelData] builds either a record for every row or none at
    all: it returns when the end date of every dated row is a valid Date,
    and throws a RangeError as soon as one row has an end date out of
    range.  The component then shows its error message and keeps the old
    rows, the good rows of the file included. *)
Theorem import_is_all_or_nothing (data : list RawRow) (c : Clock) :
  (forallb end_date_ok data = true ->
   exists rs, fst (excelUtils.processExcelData data c) = Ok rs
              /\ length rs = length data)
  /\
  (forallb end_date_ok data = false ->
   fst (excelUtils.processExcelData data c) = Throw RangeError
   /\ forall (file : File) (bstr : string) (wb : WorkBook WorkSheet)
             (s : App.State),
        readAsBinaryString file = Some bstr ->
        XLSX_read bstr = Ok wb ->
        sheet_to_json (first_sheet wb) = Ok data ->
        exists us,
          fst (App.handleImportExcel (Some file) c) = Ok us
          /\ App.rows (App.final s us) = App.rows s
          /\ App.error (App.final s us) = Some App.errorMessage).
Proof.
  pose proof (map_indexed_processItem_all_or_nothing data 0%nat c) as Hrun.
  fold (excelUtils.processExcelData data) in Hrun.
  split; intros Hall; rewrite Hall in Hrun.
  - destruct Hrun as [rs Hrs]. exists rs. split; [exact Hrs |].
    exact (proj1 (map_indexed_Ok excelUtils.processItem (fun _ _ _ => True)
                    (fun _ _ _ _ _ => I) data 0%nat c rs Hrs)).
  - split; [exact Hrun |].
    intros file bstr wb s F R J.
    pose proof (readExcelFile_decoded file bstr wb data c F R J) as Hread.
    destruct (excelUtils.processExcelData data c) as [x c'] eqn:Ep.
    simpl in Hrun; subst x.
    rewrite (handleImportExcel_failure file RangeError c c' Hread).
    eexists; split; [reflexivity |]. split; reflexivity.
Qed.

(** *** Rows without a start date *)

(** X3.  A record without start date has no end date, 0 remaining days and
    0 elapsed months in both versions, and so [getStatusBadge] shows it as
    Abgelaufen whatever its status. *)
Theorem undated_record_is_shown_expired :
  (forall (item : RawRow) (index : nat) (c : Clock) (r : ContractData),
      fst (excelUtils.processItem item index c) = Ok r ->
      startDate r = None ->
      endDate r = None /\ restDays r = of_Z 0
      /\ abgelaufeneMonate r = of_Z 0
      /\ forall st, App.getStatusBadge st (restDays r) = Abgelaufen)
  /\
  (forall (item : RawRow) (index : nat) (c : Clock) (r : ContractData),
      fst (AppInline.formatItem item index c) = Ok r ->
      startDate r = None ->
      endDate r = None /\ restDays r = of_Z 0
      /\ abgelaufeneMonate r = of_Z 0
      /\ forall st, AppInline.getStatusBadge st (restDays r) = Abgelaufen).
Proof.
  split; intros item index c r Hr Hs.
  - destruct (processItem_Ok_inv item index c r Hr) as (_ & _ & _ & _ & Hd).
    destruct (excelUtils.parseExcelDate (get item "Startdatum")).
    + destruct Hd as (t & e & _ & _ & Hst & _). congruence.
    + destruct Hd as (_ & He & Hrest & Hel). rewrite Hrest.
      repeat split; assumption.
  - destruct (formatItem_Ok_inv item index c r Hr)
      as (_ & _ & _ & _ & sd & c1 & _ & Hd).
    destruct sd.
    + destruct Hd as (t & e & _ & _ & Hst & _). congruence.
    + destruct Hd as (_ & He & Hrest & Hel). rewrite Hrest.
      repeat split; assumption.
Qed.

(** *** Rows without a duration *)

(** X4.  When [addMonths] leaves a date as it is for 0 months, as date-fns
    does, a record whose duration is 0 (the duration cell was absent, not
    numeric or 0) has its start date as its end date. *)
Theorem no_duration_ends_at_start :
  (forall d : Date, addMonths d (of_Z 0) = d) ->
  (forall (item : RawRow) (index : nat) (c : Clock) (r : ContractData),
      fst (excelUtils.processItem item index c) = Ok r ->
      laufzeit r = of_Z 0 -> endDate r = startDate r)
  /\
  (forall (item : RawRow) (index : nat) (c : Clock) (r : ContractData),
      fst (AppInline.formatItem item index c) = Ok r ->
      laufzeit r = of_Z 0 -> endDate r = startDate r).
Proof.
  intros Hadd. split; intros item index c r Hr Hz.
  - destruct (processItem_Ok_inv item index c r Hr) as (_ & _ & _ & Hl & Hd).
    rewrite <- Hl, Hz in Hd.
    destruct (excelUtils.parseExcelDate (get item "Startdatum")).
    + destruct Hd as (t & e & -> & Ha & -> & -> & _).
      rewrite Hadd in Ha. now injection Ha as <-.
    + destruct Hd as (-> & -> & _). reflexivity.
  - destruct (formatItem_Ok_inv item index c r Hr)
      as (_ & _ & _ & Hl & sd & c1 & _ & Hd).
    rewrite <- Hl, Hz in Hd.
    destruct sd.
    + destruct Hd as (t & e & -> & Ha & -> & -> & _).
      rewrite Hadd in Ha. now injection Ha as <-.
    + destruct Hd as (-> & -> & _). reflexivity.
Qed.

(** *** White space around a date *)

Lemma trimEnd_idem (s : string) : trimEnd (trimEnd s) = trimEnd s.
Proof.
  induction s as [| ch s IH]; simpl; [reflexivity |].
  destruct (isWhiteSpace ch && is_empty (trimEnd s)) eqn:E; [reflexivity |].
  simpl. now rewrite IH, E.
Qed.

Lemma trimStart_head (s : string) :
  match trimStart s with
  | String ch _ => isWhiteSpace ch = false
  | EmptyString => True
  end.
Proof.
  induction s as [| ch s IH]; simpl; [exact I |].
  destruct (isWhiteSpace ch) eqn:E; [exact IH | exact E].
Qed.

Lemma trimStart_trimEnd (s : string) :
  match s with
  | String ch _ => isWhiteSpace ch = false
  | EmptyString => True
  end ->
  trimStart (trimEnd s) = trimEnd s.
Proof.
  destruct s as [| ch s]; [reflexivity |]. intros E. simpl.
  rewrite E. simpl. now rewrite E.
Qed.

Lemma trim_idem (s : string) : trim (trim s) = trim s.
Proof.
  unfold trim. rewrite (trimStart_trimEnd (trimStart s) (trimStart_head s)).
  apply trimEnd_idem.
Qed.

(** X5.  Both parsers read a string cell as they read the same string
    without the white space around it; [safeParseDate] also reads the clock
    the same number of times. *)
Theorem date_parsers_ignore_surrounding_white_space (s : string) (c : Clock) :
  dateUtils.safeParseDate (Text s) c = dateUtils.safeParseDate (Text (trim s)) c
  /\ excelUtils.parseExcelDate (Text s)
     = excelUtils.parseExcelDate (Text (trim s)).
Proof.
  unfold dateUtils.safeParseDate, excelUtils.parseExcelDate.
  cbn [truthy]. rewrite trim_idem.
  destruct (is_empty (trim s)) eqn:E.
  - destruct (is_empty s); simpl; unfold try_catch; rewrite ?E; split;
      reflexivity.
  - rewrite (is_empty_trim s E). split; reflexivity.
Qed.

(** *** Dates written with dots or slashes *)

Lemma parseExcelDate_dotted_chars (s : string) (a b c d e f g h : ascii) :
  isDigit a = true -> isDigit b = true -> isDigit c = true ->
  isDigit d = true -> isDigit e = true -> isDigit f = true ->
  isDigit g = true -> isDigit h = true ->
  trim s = String a (String b (String "." (String c (String d (String "."
             (String e (String f (String g (String h EmptyString))))))))) ->
  excelUtils.parseExcelDate (Text s)
  = excelUtils.null_if_NaN
      (excelUtils.date_of_parts
         (String e (String f (String g (String h EmptyString))))
         (String c (String d EmptyString))
         (String a (String b EmptyString))).
Proof.
  intros Da Db Dc Dd De Df Dg Dh T.
  assert (Ne : is_empty (trim s) = false) by now rewrite T.
  unfold excelUtils.parseExcelDate. cbn [truthy].
  rewrite (is_empty_trim s Ne). cbn [negb]. rewrite T.
  unfold excelUtils.formats. cbn [nth is_empty test].
  rewrite Da, Db, Dc, Dd, De, Df, Dg, Dh.
  destruct (digit_not_sep a Da) as (Ea & _).
  destruct (digit_not_sep b Db) as (Eb & _).
  destruct (digit_not_sep c Dc) as (Ec & _).
  destruct (digit_not_sep d Dd) as (Ed & _).
  destruct (digit_not_sep e De) as (Ee & _).
  destruct (digit_not_sep f Df) as (Ef & _).
  destruct (digit_not_sep g Dg) as (Eg & _).
  destruct (digit_not_sep h Dh) as (Eh & _).
  change (isDigit ".") with false. rewrite !Ascii.eqb_refl.
  cbn [andb split]. rewrite Ea, Eb, Ec, Ed, Ee, Ef, Eg, Eh.
  rewrite !Ascii.eqb_refl. cbn [nth]. reflexivity.
Qed.

Lemma parseExcelDate_slashed_chars (s : string) (a b c d e f g h : ascii) :
  isDigit a = true -> isDigit b = true -> isDigit c = true ->
  isDigit d = true -> isDigit e = true -> isDigit f = true ->
  isDigit g = true -> isDigit h = true ->
  trim s = String a (String b (String "/" (String c (String d (String "/"
             (String e (String f (String g (String h EmptyString))))))))) ->
  excelUtils.parseExcelDate (Text s)
  = excelUtils.null_if_NaN
      (excelUtils.date_of_parts
         (String e (String f (String g (String h EmptyString))))
         (String a (String b EmptyString))
         (String c (String d EmptyString))).
Proof.
  intros Da Db Dc Dd De Df Dg Dh T.
  assert (Ne : is_empty (trim s) = false) by now rewrite T.
  unfold excelUtils.parseExcelDate. cbn [truthy].
  rewrite (is_empty_trim s Ne). cbn [negb]. rewrite T.
  unfold excelUtils.formats. cbn [nth is_empty test].
  rewrite Da, Db, Dc, Dd, De, Df, Dg, Dh.
  destruct (digit_not_sep a Da) as (_ & Ea & _).
  destruct (digit_not_sep b Db) as (_ & Eb & _).
  destruct (digit_not_sep c Dc) as (_ & Ec & _).
  destruct (digit_not_sep d Dd) as (_ & Ed & _).
  destruct (digit_not_sep e De) as (_ & Ee & _).
  destruct (digit_not_sep f Df) as (_ & Ef & _).
  destruct (digit_not_sep g Dg) as (_ & Eg & _).
  destruct (digit_not_sep h Dh) as (_ & Eh & _).
  change (isDigit "/") with false. change (Ascii.eqb "." "/") with false.
  rewrite !Ascii.eqb_refl.
  cbn [andb split]. rewrite Ea, Eb, Ec, Ed, Ee, Ef, Eg, Eh.
  rewrite !Ascii.eqb_refl. cbn [nth]. reflexivity.
Qed.

Lemma Date_of_fields_ints (tza : Z -> bool -> Z) (y m d : Z) :
  Date_of_fields tza (of_Z y) (num_sub (of_Z m) (of_Z 1)) (of_Z d)
  = let t := MakeDate (MakeDay (if (0 <=? y) && (y <=? 99) then 1900 + y
                                else y) (m - 1) d) 0 in
    TimeClipZ (t - tza t false).
Proof.
  unfold Date_of_fields, num_sub, num_add, num_neg, of_Z, Qtrunc, inject_Z.
  simpl. rewrite !Z.quot_1_r.
  replace (m * 1 + - (1) * 1) with (m - 1) by lia. reflexivity.
Qed.


Lemma pad_2 (n : Z) :
  pad 2 n = String (digit_char (n / 10)) (String (digit_char n) EmptyString).
Proof. reflexivity. Qed.

Lemma pad_4 (n : Z) :
  pad 4 n = String (digit_char (n / 10 / 10 / 10))
              (String (digit_char (n / 10 / 10))
                 (String (digit_char (n / 10))
                    (String (digit_char n) EmptyString))).
Proof. reflexivity. Qed.

Lemma two_digits_value (n : Z) :
  0 <= n < 100 ->
  digit_of (digit_char (n / 10)) * 10 + digit_of (digit_char n) = n.
Proof.
  intros B. rewrite !digit_of_digit_char.
  Z.to_euclidean_division_equations. lia.
Qed.

Lemma four_digits_value (n : Z) :
  0 <= n < 10000 ->
  ((digit_of (digit_char (n / 10 / 10 / 10)) * 10
    + digit_of (digit_char (n / 10 / 10))) * 10
   + digit_of (digit_char (n / 10))) * 10 + digit_of (digit_char n) = n.
Proof.
  intros B. rewrite !digit_of_digit_char.
  Z.to_euclidean_division_equations. lia.
Qed.

Lemma date_of_parts_padded (d m y : Z) :
  0 <= d < 100 -> 0 <= m < 100 -> 0 <= y < 10000 ->
  offsets_within_a_day ->
  excelUtils.null_if_NaN (excelUtils.date_of_parts (pad 4 y) (pad 2 m) (pad 2 d))
  = let t := MakeDate (MakeDay (if y <=? 99 then 1900 + y else y)
                         (m - 1) d) 0 in
    Some (DateAt (t - LocalTZA t false)).
Proof.
  intros Bd Bm By Tz. unfold excelUtils.date_of_parts.
  rewrite pad_4, !pad_2.
  rewrite parseInt_four_digits, !parseInt_two_digits
    by apply isDigit_digit_char.
  rewrite four_digits_value, !two_digits_value by assumption.
  rewrite Date_of_fields_ints.
  replace ((0 <=? y) && (y <=? 99)) with (y <=? 99)
    by (destruct (Z.leb_spec 0 y); [reflexivity | lia]).
  set (yr := if y <=? 99 then 1900 + y else y).
  assert (Byr : -10000 <= yr <= 10000)
    by (unfold yr; destruct (y <=? 99) eqn:E; lia).
  pose proof (MakeDay_bound yr (m - 1) d Byr) as Bday.
  cbv zeta. unfold TimeClipZ.
  set (t := MakeDate (MakeDay yr (m - 1) d) 0).
  pose proof (Tz t false) as Bt.
  assert (L : (Z.abs (t - LocalTZA t false) <=? maxTime) = true).
  { apply Z.leb_le. unfold t, MakeDate, maxTime, msPerDay in *. lia. }
  rewrite L. reflexivity.
Qed.

(** X6.  [parseExcelDate] never rejects a string of the shape dd.MM.yyyy
    or MM/dd/yyyy: whatever its two-digit day, two-digit month and
    four-digit year are, the result is [new Date(year, month - 1, day)], so
    that a month 00 or above 12 and a day 00 or beyond the month are
    carried over into the neighbouring months, and a year below 100 lands
    in the 1900s.  The local midnight is taken at the offset the zone has
    then. *)
Theorem dotted_and_slashed_dates_always_parse (s : string) (d m y : Z) :
  0 <= d < 100 -> 0 <= m < 100 -> 0 <= y < 10000 ->
  offsets_within_a_day ->
  trim s = pad 2 d ++ "." ++ pad 2 m ++ "." ++ pad 4 y
  \/ trim s = pad 2 m ++ "/" ++ pad 2 d ++ "/" ++ pad 4 y ->
  excelUtils.parseExcelDate (Text s)
  = let t := MakeDate (MakeDay (if y <=? 99 then 1900 + y else y)
                         (m - 1) d) 0 in
    Some (DateAt (t - LocalTZA t false)).
Proof.
  intros Bd Bm By Tz [T | T].
  - rewrite <- (date_of_parts_padded d m y Bd Bm By Tz).
    rewrite pad_4, !pad_2 in *.
    apply parseExcelDate_dotted_chars; try apply isDigit_digit_char. exact T.
  - rewrite <- (date_of_parts_padded d m y Bd Bm By Tz).
    rewrite pad_4, !pad_2 in *.
    apply parseExcelDate_slashed_chars; try apply isDigit_digit_char. exact T.
Qed.

(** *** A duration written with its unit *)

Lemma Number_of_Z_or_0 (z : Z) :
  num_or (Number_of_Z z) (of_Z 0) = Number_of_Z z.
Proof.
  unfold num_or. destruct (num_truthy (Number_of_Z z)) eqn:T; [reflexivity |].
  revert T. unfold Number_of_Z. cbv zeta.
  repeat match goal with
         | |- context [if ?b then _ else _] => destruct b
         end; try discriminate;
    unfold of_Z; simpl; unfold Qzero; simpl;
    intros T; apply negb_false_iff, Z.eqb_eq in T; now rewrite T.
Qed.

(** X7.  [processExcelData] takes from a string in the duration cell the
    whole number it starts with, after leading white space, and ignores
    what follows: a unit, or the decimals of a fraction.  The number is
    stored as [parseInt] returns it: itself up to 2^53, and the nearest
    binary64 value beyond.  The statement is for numbers of up to 20
    digits, which every implementation has to read in full. *)
Theorem duration_text_leading_integer
  (item : RawRow) (index : nat) (c : Clock) (r : ContractData)
  (ws rest : string) (k : nat) (n : Z) :
  fst (excelUtils.processItem item index c) = Ok r ->
  get item "Laufzeit in M" = Text (ws ++ pad (S k) n ++ rest) ->
  whitespace_only ws = true ->
  0 <= n < 10 ^ Z.of_nat (S k) ->
  n < 10 ^ 20 ->
  stops rest ->
  laufzeit r = Number_of_Z n
  /\ (n <= 2 ^ 53 -> laufzeit r = of_Z n).
Proof.
  intros Hr Hcell W B _ St.
  destruct (processItem_Ok_inv item index c r Hr) as (_ & _ & _ & Hl & _).
  assert (L : laufzeit r = Number_of_Z n).
  { rewrite Hl, Hcell. unfold excelUtils.durationMonths_of.
    rewrite (parseInt_leading ws rest k n W B St).
    apply Number_of_Z_or_0. }
  split; [exact L |].
  intros Hn. rewrite L. apply Number_of_Z_exact. lia.
Qed.

(** *** Filtering the rows *)

Lemma safeParseISO_run (o : option string) (c : Clock) :
  dateUtils.safeParseISO o c = (Ok (reparse o), c).
Proof.
  unfold dateUtils.safeParseISO, reparse.
  destruct o as [s |]; [| reflexivity].
  destruct (is_empty s); [reflexivity |].
  unfold try_catch, bind, lift, ret.
  destruct (parseISO s) as [d | e]; [| reflexivity].
  destruct (isValid d); reflexivity.
Qed.

Lemma filterRow_run (fs st : string) (row : ContractData) (c : Clock) :
  View.filterRow fs st row c
  = (if is_Text (name row) then Ok (keeps fs st row) else Throw TypeError, c).
Proof.
  unfold View.filterRow, keeps.
  destruct (name row) as [| nm | n | b | d]; try reflexivity.
  unfold bind at 1. cbn [View.name_toLowerCase lift is_Text].
  destruct (includes (View.toLowerCase nm) (View.toLowerCase st));
    [| reflexivity].
  cbn [negb andb].
  destruct (String.eqb fs View.key_Alle); [reflexivity |].
  unfold bind at 1. rewrite safeParseISO_run.
  destruct (String.eqb fs View.key_Faellig); [reflexivity |].
  destruct (String.eqb fs View.key_Abgelaufen); [reflexivity |].
  destruct (String.eqb fs View.key_Online); reflexivity.
Qed.

Lemma filteredRows_run (fs st : string) (rows : list ContractData) (c : Clock) :
  View.filteredRows fs st rows c
  = (if forallb (fun r => is_Text (name r)) rows
     then Ok (List.filter (keeps fs st) rows) else Throw TypeError, c).
Proof.
  unfold View.filteredRows. induction rows as [| r rows IH]; [reflexivity |].
  cbn [View.filterM forallb List.filter]. unfold bind at 1.
  rewrite filterRow_run.
  destruct (is_Text (name r)); [| reflexivity].
  unfold bind at 1. rewrite IH. cbn [andb].
  destruct (forallb (fun r0 => is_Text (name r0)) rows); reflexivity.
Qed.

Lemma processItem_names_are_text
  (item : RawRow) (index : nat) (c : Clock) (r : ContractData) :
  fst (excelUtils.processItem item index c) = Ok r ->
  is_Text (name r) = true /\ is_Text (status r) = true.
Proof.
  intros Hr.
  destruct (processItem_Ok_inv item index c r Hr) as (_ & -> & -> & _).
  split; reflexivity.
Qed.

Lemma processExcelData_names_are_text
  (data : list RawRow) (c : Clock) (rs : list ContractData) :
  fst (excelUtils.processExcelData data c) = Ok rs ->
  forallb (fun r => is_Text (name r)) rs = true
  /\ forallb (fun r => is_Text (status r)) rs = true.
Proof.
  intros Hrun.
  destruct (map_indexed_Ok excelUtils.processItem
              (fun _ _ r => is_Text (name r) = true
                            /\ is_Text (status r) = true)
              processItem_names_are_text
              data 0%nat c rs Hrun) as [Hlen Hk].
  assert (Hall : forall r, In r rs ->
                   is_Text (name r) = true /\ is_Text (status r) = true).
  { intros r Hin. apply list_elem_of_In, list_elem_of_lookup in Hin as [k Hr].
    destruct (lookup_lt_is_Some_2 data k) as [x Hx].
    { rewrite <- Hlen. eapply lookup_lt_Some, Hr. }
    exact (Hk k x r Hx Hr). }
  split; apply forallb_forall; intros r Hin; apply (Hall r Hin).
Qed.

(** X8.  The records of [processExcelData] always carry a string as name
    and as status, whatever the cells held, and [filteredRows] returns on
    them for every filter and search term: it shows rows of the import, in
    their order. *)
Theorem filtering_imported_rows_never_throws
  (data : list RawRow) (c : Clock) (rs : list ContractData) :
  fst (excelUtils.processExcelData data c) = Ok rs ->
  (forall r, In r rs -> exists nm st, name r = Text nm /\ status r = Text st)
  /\ forall (fs st : string) (c' : Clock),
       exists shown,
         View.filteredRows fs st rs c' = (Ok shown, c')
         /\ shown = List.filter (keeps fs st) rs
         /\ sublist shown rs.
Proof.
  intros Hrun.
  destruct (processExcelData_names_are_text data c rs Hrun) as [Hn Hs].
  split.
  - intros r Hin.
    pose proof (proj1 (forallb_forall _ rs) Hn r Hin) as Tn.
    pose proof (proj1 (forallb_forall _ rs) Hs r Hin) as Ts.
    simpl in Tn, Ts.
    destruct (name r); try discriminate. destruct (status r); try discriminate.
    eauto.
  - intros fs st c'. rewrite filteredRows_run, Hn.
    eexists; split; [reflexivity |]. split; [reflexivity |].
    clear. induction rs as [| r rs IH]; simpl; [constructor |].
    destruct (keeps fs st r); [now apply sublist_skip | now apply sublist_cons].
Qed.

(** X9.  In the inline version the name of a record is the cell itself; a
    number in the name cell stays a number, and [filteredRows] then throws a
    TypeError on every list that holds the record, for every filter and
    search term. *)
Theorem numeric_name_breaks_filtering
  (item : RawRow) (index : nat) (c : Clock) (r : ContractData) (n : number) :
  fst (AppInline.formatItem item index c) = Ok r ->
  get item "Name" = Number n ->
  num_truthy n = true ->
  name r = Number n
  /\ forall (rows : list ContractData) (fs st : string) (c' : Clock),
       In r rows ->
       View.filteredRows fs st rows c' = (Throw TypeError, c').
Proof.
  intros Hr Hcell T.
  destruct (formatItem_Ok_inv item index c r Hr) as (_ & Hn & _).
  assert (Hname : name r = Number n).
  { rewrite Hn, Hcell. unfold or_else. simpl. now rewrite T. }
  split; [exact Hname |].
  intros rows fs st c' Hin. rewrite filteredRows_run.
  destruct (forallb (fun r0 => is_Text (name r0)) rows) eqn:A; [| reflexivity].
  pose proof (proj1 (forallb_forall _ rows) A r Hin) as Tn.
  simpl in Tn. rewrite Hname in Tn. discriminate.
Qed.

(** *** The counters *)

Lemma num_le_0_30 (r : number) :
  num_le r (of_Z 0) = true -> num_le r (of_Z 30) = true.
Proof.
  destruct r as [| [|] | q]; simpl; try congruence.
  rewrite !Qle_bool_iff. intros Hq.
  eapply Qle_trans; [exact Hq |]. discriminate.
Qed.

Lemma count_cons (p : ContractData -> bool) (r : ContractData)
  (rows : list ContractData) :
  View.count p (r :: rows)
  = ((if p r then 1 else 0) + View.count p rows)%nat.
Proof. unfold View.count. simpl. destruct (p r); reflexivity. Qed.

Lemma count_ext (p q : ContractData -> bool) (rows : list ContractData) :
  (forall r, In r rows -> p r = q r) -> View.count p rows = View.count q rows.
Proof.
  induction rows as [| r rows IH]; intros E; [reflexivity |].
  rewrite !count_cons, (E r) by (left; reflexivity).
  rewrite IH; [reflexivity |]. intros r' Hr'. apply E. now right.
Qed.

(** A row is in at most one of the three classes the counters count. *)
Lemma classes_exclusive (r : ContractData) :
  ((if View.is_online r then 1 else 0) + (if View.is_due r then 1 else 0)
   + (if View.is_expired r then 1 else 0) <= 1)%nat.
Proof.
  unfold View.is_online, View.is_due, View.is_expired.
  destruct (restDays r) as [| b | q] eqn:E.
  - simpl. rewrite andb_false_r. simpl. lia.
  - destruct b; simpl; rewrite ?andb_false_r, ?andb_true_r; simpl;
      destruct (View.status_is_online (status r)); simpl; lia.
  - rewrite !num_lt_not_le by discriminate.
    pose proof (num_le_0_30 (Fin q)) as Mono.
    destruct (num_le (Fin q) (of_Z 0)); [rewrite Mono by reflexivity |];
      destruct (num_le (Fin q) (of_Z 30));
      destruct (View.status_is_online (status r)); simpl; lia.
Qed.

(** With a string as status and a number of days that is not NaN, the
    classes are the badges. *)
Lemma classes_are_badges (r : ContractData) :
  restDays r <> NaN -> is_Text (status r) = true ->
  View.is_expired r = shows Abgelaufen r
  /\ View.is_due r = shows Faellig r
  /\ View.is_online r = shows Online r
  /\ ((if View.is_online r then 1 else 0) + (if View.is_due r then 1 else 0)
      + (if View.is_expired r then 1 else 0)
      + (if shows (Secondary EmptyString) r then 1 else 0) = 1)%nat.
Proof.
  intros N T. unfold View.is_online, View.is_due, View.is_expired, shows,
    badge_of, App.getStatusBadge, View.status_is_online.
  destruct (status r) as [| st | | |]; try discriminate T.
  rewrite !num_lt_not_le by (discriminate || exact N).
  pose proof (num_le_0_30 (restDays r)) as Mono.
  destruct (num_le (restDays r) (of_Z 0)); [rewrite Mono by reflexivity |];
    destruct (num_le (restDays r) (of_Z 30));
    destruct (String.eqb st "online"); simpl; repeat split; lia.
Qed.

(** X10.  The counters [stats.online], [stats.due] and [stats.expired]
    count disjoint sets of rows, so their sum never exceeds [stats.total];
    on rows with a string as status and a number of days that is not NaN
    each counter is the number of rows [getStatusBadge] gives the badge
    Online, Faellig or Abgelaufen, and the rows left over are those with
    the plain status badge. *)
Theorem stats_count_the_badges (rows : list ContractData) :
  (View.online (View.stats rows) + View.due (View.stats rows)
   + View.expired (View.stats rows) <= View.total (View.stats rows))%nat
  /\
  ((forall r, In r rows -> restDays r <> NaN /\ is_Text (status r) = true) ->
   View.expired (View.stats rows) = View.count (shows Abgelaufen) rows
   /\ View.due (View.stats rows) = View.count (shows Faellig) rows
   /\ View.online (View.stats rows) = View.count (shows Online) rows
   /\ View.total (View.stats rows)
      = (View.online (View.stats rows) + View.due (View.stats rows)
         + View.expired (View.stats rows)
         + View.count (shows (Secondary EmptyString)) rows)%nat).
Proof.
  cbn [View.stats View.online View.due View.expired View.total]. split.
  - induction rows as [| r rows IH]; [unfold View.count; simpl; lia |].
    rewrite !count_cons. pose proof (classes_exclusive r). simpl length. lia.
  - intros Hrows.
    split; [| split; [| split]];
      try (apply count_ext; intros r Hr;
           destruct (Hrows r Hr) as [N T];
           apply (classes_are_badges r N T)).
    induction rows as [| r rows IH]; [reflexivity |].
    rewrite !count_cons. simpl length.
    destruct (Hrows r (or_introl eq_refl)) as [N T].
    destruct (classes_are_badges r N T) as (_ & _ & _ & One).
    rewrite IH by (intros r' Hr'; apply Hrows; now right). lia.
Qed.

(** *** The filters and the counters *)

Lemma includes_empty (s : string) : includes s EmptyString = true.
Proof. destruct s; reflexivity. Qed.

Lemma filter_and_length (p q : ContractData -> bool) (rows : list ContractData) :
  (length (List.filter (fun r => p r && q r) rows)
   <= length (List.filter q rows))%nat
  /\ ((exists r, In r rows /\ q r = true /\ p r = false) ->
      (length (List.filter (fun r => p r && q r) rows)
       < length (List.filter q rows))%nat).
Proof.
  induction rows as [| r rows [IHle IHlt]]; simpl.
  - split; [lia |]. intros (r & [] & _).
  - destruct (p r) eqn:P, (q r) eqn:Q; simpl; split; try lia;
      intros (r' & [<- | Hin] & Hq & Hp);
      try congruence;
      try (assert (length (List.filter (fun r0 => p r0 && q r0) rows)
                   < length (List.filter q rows))%nat by eauto; lia).
Qed.

(** X11.  With an empty search term the filter Online shows exactly the
    rows [stats.online] counts.  The filters for due and expired rows show
    only rows whose end date parses again, which can be fewer than
    [stats.due] and [stats.expired] count: a row without end date is
    counted as expired (its remaining days are 0) and is never listed under
    Abgelaufen. *)
Theorem filters_and_counters (rows : list ContractData) (c : Clock) :
  forallb (fun r => is_Text (name r)) rows = true ->
  (exists shown,
      View.filteredRows View.key_Online EmptyString rows c = (Ok shown, c)
      /\ length shown = View.online (View.stats rows))
  /\ (exists shown,
        View.filteredRows View.key_Abgelaufen EmptyString rows c
        = (Ok shown, c)
        /\ (length shown <= View.expired (View.stats rows))%nat
        /\ (forall r, In r shown -> is_Some (endDate r))
        /\ ((exists r, In r rows /\ endDate r = None
                       /\ restDays r = of_Z 0) ->
            (length shown < View.expired (View.stats rows))%nat))
  /\ (exists shown,
        View.filteredRows View.key_Faellig EmptyString rows c = (Ok shown, c)
        /\ (length shown <= View.due (View.stats rows))%nat
        /\ (forall r, In r shown -> is_Some (endDate r))).
Proof.
  intros Hn. rewrite !filteredRows_run, Hn.
  assert (Hk : forall fs r, In r rows ->
            keeps fs EmptyString r
            = (if String.eqb fs View.key_Alle then true
               else if String.eqb fs View.key_Faellig
               then bool_decide (is_Some (reparse (endDate r)))
                    && View.is_due r
               else if String.eqb fs View.key_Abgelaufen
               then bool_decide (is_Some (reparse (endDate r)))
                    && View.is_expired r
               else if String.eqb fs View.key_Online
               then View.is_online r
               else true)).
  { intros fs r Hin. unfold keeps.
    pose proof (proj1 (forallb_forall _ rows) Hn r Hin) as T. simpl in T.
    destruct (name r); try discriminate T.
    cbn [View.toLowerCase]. rewrite includes_empty. cbn [andb].
    unfold View.is_due. now rewrite andb_assoc. }
  assert (Hend : forall r, is_Some (reparse (endDate r)) -> is_Some (endDate r)).
  { intros r [d Hd]. destruct (endDate r); [eauto | discriminate]. }
  split; [| split].
  - eexists; split; [reflexivity |].
    cbn [View.stats View.online]. unfold View.count. f_equal.
    apply List.filter_ext_in. intros r Hin. now rewrite Hk.
  - eexists; split; [reflexivity |].
    rewrite (List.filter_ext_in _
               (fun r => bool_decide (is_Some (reparse (endDate r)))
                         && View.is_expired r))
      by (intros r Hin; now rewrite Hk).
    cbn [View.stats View.expired]. unfold View.count.
    destruct (filter_and_length
                (fun r => bool_decide (is_Some (reparse (endDate r))))
                View.is_expired rows) as [Hle Hlt].
    split; [exact Hle |]. split.
    + intros r [_ Hr]%filter_In. apply andb_prop in Hr as [Hr _].
      apply bool_decide_eq_true in Hr. now apply Hend.
    + intros (r & Hin & He & Hd). apply Hlt. exists r.
      split; [exact Hin |]. unfold View.is_expired. rewrite Hd, He.
      split; reflexivity.
  - eexists; split; [reflexivity |].
    rewrite (List.filter_ext_in _
               (fun r => bool_decide (is_Some (reparse (endDate r)))
                         && View.is_due r))
      by (intros r Hin; now rewrite Hk).
    cbn [View.stats View.due]. unfold View.count.
    destruct (filter_and_length
                (fun r => bool_decide (is_Some (reparse (endDate r))))
                View.is_due rows) as [Hle _].
    split; [exact Hle |].
    intros r [_ Hr]%filter_In. apply andb_prop in Hr as [Hr _].
    apply bool_decide_eq_true in Hr. now apply Hend.
Qed.

(** *** The filter for all rows and the search *)

Lemma toLowerCase_char_idem (ch : ascii) :
  View.toLowerCase_char (View.toLowerCase_char ch) = View.toLowerCase_char ch.
Proof. destruct ch as [[] [] [] [] [] [] [] []]; reflexivity. Qed.

Lemma toLowerCase_idem (s : string) :
  View.toLowerCase (View.toLowerCase s) = View.toLowerCase s.
Proof.
  induction s as [| ch s IH]; simpl; [reflexivity |].
  now rewrite toLowerCase_char_idem, IH.
Qed.

Lemma filter_all (p : ContractData -> bool) (rows : list ContractData) :
  (forall r, In r rows -> p r = true) -> List.filter p rows = rows.
Proof.
  induction rows as [| r rows IH]; intros E; [reflexivity |].
  simpl. rewrite (E r) by (left; reflexivity).
  rewrite IH; [reflexivity |]. intros r' Hr'. apply E. now right.
Qed.

(** X12.  A filter key that is none of the three keys for due, expired and
    online rows works like the key Alle: the rows shown are those whose name
    holds the search term, compared in lower case.  The letter case of the
    search term makes no difference, and with an empty search term the
    filter Alle shows every row. *)
Theorem filter_all_and_search
  (rows : list ContractData) (fs st : string) (c : Clock) :
  (fs <> View.key_Faellig -> fs <> View.key_Abgelaufen ->
   fs <> View.key_Online ->
   View.filteredRows fs st rows c = View.filteredRows View.key_Alle st rows c)
  /\ View.filteredRows fs (View.toLowerCase st) rows c
     = View.filteredRows fs st rows c
  /\ (forallb (fun r => is_Text (name r)) rows = true ->
      View.filteredRows View.key_Alle EmptyString rows c = (Ok rows, c)).
Proof.
  rewrite !filteredRows_run. split; [| split].
  - intros F A O.
    apply String.eqb_neq in F, A, O.
    destruct (forallb (fun r => is_Text (name r)) rows); [| reflexivity].
    do 2 f_equal. apply List.filter_ext. intros r. unfold keeps.
    rewrite F, A, O. cbn [String.eqb View.key_Alle].
    destruct (String.eqb fs View.key_Alle); reflexivity.
  - destruct (forallb (fun r => is_Text (name r)) rows); [| reflexivity].
    do 2 f_equal. apply List.filter_ext. intros r. unfold keeps.
    now rewrite toLowerCase_idem.
  - intros Hn. rewrite Hn. do 2 f_equal. apply filter_all.
    intros r Hin. unfold keeps.
    pose proof (proj1 (forallb_forall _ rows) Hn r Hin) as T. simpl in T.
    destruct (name r); try discriminate T.
    cbn [View.toLowerCase]. now rewrite includes_empty.
Qed.

(** *** The calendar *)

Lemma reparse_valid (o : option string) (d : Date) :
  reparse o = Some d -> isValid d = true /\ is_Some o.
Proof.
  unfold reparse. destruct o as [s |]; [| discriminate].
  destruct (is_empty s); [discriminate |].
  destruct (parseISO s) as [d' | e]; [| discriminate].
  destruct (isValid d') eqn:V; [| discriminate].
  intros [= <-]. split; [exact V | eauto].
Qed.

Lemma calendarEvents_run (rows : list ContractData) (c : Clock) :
  View.calendarEvents rows c = (Ok (omap event_of rows), c).
Proof.
  induction rows as [| r rows IH]; [reflexivity |].
  cbn [View.calendarEvents]. unfold bind at 1.
  unfold View.calendarEvent. unfold bind at 1. rewrite safeParseISO_run.
  unfold ret at 1. unfold bind at 1. rewrite IH. unfold ret.
  cbn [omap list_omap]. unfold event_of.
  destruct (reparse (endDate r)); reflexivity.
Qed.

Lemma omap_length_le {A B : Type} (f : A -> option B) (l : list A) :
  (length (omap f l) <= length l)%nat
  /\ ((forall x, In x l -> is_Some (f x)) -> length (omap f l) = length l).
Proof.
  induction l as [| x l [IHle IHeq]]; cbn [omap list_omap length];
    [split; [lia | reflexivity] |].
  split.
  - destruct (f x); cbn [length]; lia.
  - intros Hs. destruct (Hs x (or_introl eq_refl)) as [y ->]. cbn [length].
    rewrite IHeq; [reflexivity |]. intros x' Hx'. apply Hs. now right.
Qed.

(** X13.  [getCalendarEvents] returns for every list of rows, whatever the
    rows hold: each entry comes from a row with an end date, carries the
    valid date that end date parses to and the name of the row, and is
    never both expired and due.  There are at most as many entries as rows
    with an end date, and exactly as many when every end date parses
    again. *)
Theorem calendar_entries_come_from_end_dates
  (rows : list ContractData) (c : Clock) :
  exists evs,
    View.getCalendarEvents rows c = (Ok evs, c)
    /\ (length evs <= View.count View.has_endDate rows)%nat
    /\ (forall ev, In ev evs ->
          isValid (View.date ev) = true
          /\ ~ (View.isExpired ev = true /\ View.isDue ev = true)
          /\ exists r, In r rows /\ is_Some (endDate r)
                       /\ reparse (endDate r) = Some (View.date ev)
                       /\ View.title ev = name r)
    /\ ((forall r, In r rows -> View.has_endDate r = true ->
                   is_Some (reparse (endDate r))) ->
        length evs = View.count View.has_endDate rows).
Proof.
  unfold View.getCalendarEvents. rewrite calendarEvents_run.
  eexists; split; [reflexivity |]. unfold View.count.
  destruct (omap_length_le event_of (List.filter View.has_endDate rows))
    as [Hle Heq].
  split; [exact Hle |]. split.
  - intros ev Hin.
    apply list_elem_of_In, list_elem_of_omap in Hin as (r & Hr & He).
    apply list_elem_of_In, filter_In in Hr as [Hr _].
    unfold event_of in He.
    destruct (reparse (endDate r)) as [d |] eqn:Ed; [| discriminate].
    injection He as <-. cbn.
    destruct (reparse_valid _ _ Ed) as [V S]. split; [exact V |]. split.
    + intros [E D]. unfold View.is_due in D. apply andb_prop in D as [D _].
      unfold View.is_expired in E.
      destruct (restDays r) as [| b | q]; try discriminate.
      * destruct b; discriminate.
      * rewrite num_lt_not_le in D by discriminate. rewrite E in D.
        discriminate.
    + exists r. repeat split; assumption.
  - intros Hall. apply Heq. intros r [Hr Hhas]%filter_In.
    destruct (Hall r Hr Hhas) as [d Hd]. unfold event_of. rewrite Hd. eauto.
Qed.

(** *** The import of the inline version *)

Lemma formatted_length
  (data : list RawRow) (c : Clock) (rs : list ContractData) :
  fst (AppInline.formatted data c) = Ok rs -> length rs = length data.
Proof.
  intros Hrun.
  exact (proj1 (map_indexed_Ok AppInline.formatItem (fun _ _ _ => True)
                  (fun _ _ _ _ _ => I) data 0%nat c rs Hrun)).
Qed.

(** X14.  In the inline version a file that decodes always replaces the raw
    rows, and the headers unless the sheet is empty.  When the rows
    normalise, the contract rows are replaced as well, one for each raw row;
    when one row makes the normalisation throw, the exception escapes and
    the contract rows stay the old ones beside the new raw rows.  A file
    that does not decode changes nothing, and the exception escapes. *)
Theorem inline_import_updates
  (Object_keys : RawRow -> list string) (file : File) (bstr : string)
  (c : Clock) (s : RawView.State) :
  readAsBinaryString file = Some bstr ->
  (forall (wb : WorkBook WorkSheet) (data : list RawRow),
      XLSX_read bstr = Ok wb ->
      sheet_to_json (first_sheet wb) = Ok data ->
      let run := RawView.handleImportExcel Object_keys (Some file) c in
      let s' := RawView.final s (fst (fst run)) in
      RawView.rawExcelData s' = data
      /\ RawView.excelHeaders s'
         = match data with
           | first :: _ => Object_keys first
           | [] => RawView.excelHeaders s
           end
      /\ match fst (AppInline.formatted data c) with
         | Ok formatted =>
             snd (fst run) = Ok tt
             /\ RawView.rows s' = formatted
             /\ length (RawView.rows s') = length (RawView.rawExcelData s')
         | Throw e =>
             snd (fst run) = Throw e /\ RawView.rows s' = RawView.rows s
         end)
  /\
  (forall e : exn,
      XLSX_read bstr = Throw e ->
      RawView.handleImportExcel Object_keys (Some file) c = ([], Throw e, c)).
Proof.
  intros F. split.
  - intros wb data R J. cbv zeta.
    unfold RawView.handleImportExcel. rewrite F, R.
    fold (first_sheet wb). rewrite J.
    pose proof (formatted_length data c) as Hlen.
    destruct (AppInline.formatted data c) as [[formatted | e] c'];
      cbn [fst snd].
    + specialize (Hlen formatted eq_refl).
      destruct data as [| first data]; cbn; repeat split; exact Hlen.
    + destruct data as [| first data]; cbn; repeat split.
  - intros e R. unfold RawView.handleImportExcel. now rewrite F, R.
Qed.

(** X15.  The raw view is a table: [getRawDataFromColumn4] has one line for
    each raw row and every line has as many cells as
    [getHeadersFromColumn4] has headers; the headers are those from the
    fourth on, and a cell holds what the row has under its header,
    [undefined] when the row lacks it. *)
Theorem raw_view_is_aligned (s : RawView.State) :
  length (RawView.getRawDataFromColumn4 s) = length (RawView.rawExcelData s)
  /\ Forall (fun line =>
               length line = length (RawView.getHeadersFromColumn4 s))
       (RawView.getRawDataFromColumn4 s)
  /\ length (RawView.getHeadersFromColumn4 s)
     = (length (RawView.excelHeaders s) - 3)%nat
  /\ forall (i j : nat) (row : RawRow) (header : string),
       RawView.rawExcelData s !! i = Some row ->
       RawView.excelHeaders s !! (3 + j)%nat = Some header ->
       RawView.getHeadersFromColumn4 s !! j = Some header
       /\ exists line,
            RawView.getRawDataFromColumn4 s !! i = Some line
            /\ line !! j = Some (default Missing (row !! header)).
Proof.
  unfold RawView.getRawDataFromColumn4, RawView.getHeadersFromColumn4.
  split; [apply length_map |]. split; [| split].
  - apply Forall_forall. intros line Hin.
    apply list_elem_of_In, in_map_iff in Hin as (row & <- & _).
    apply length_map.
  - apply length_drop.
  - intros i j row header Hrow Hh.
    assert (Hd : drop 3 (RawView.excelHeaders s) !! j = Some header)
      by (rewrite lookup_drop; exact Hh).
    split; [exact Hd |].
    eexists. split.
    + rewrite list_lookup_fmap_Some. exists row. split; [reflexivity | exact Hrow].
    + rewrite list_lookup_fmap_Some. exists header. split; [reflexivity | exact Hd].
Qed.

(** *** A successful import *)

(** X16.  When [readExcelFile] resolves, the component replaces its rows by
    the records of the file, none of the old rows is kept, and an earlier
    error message is cleared; the old rows are shown until then.  Without a
    file the handler does nothing. *)
Theorem successful_import_replaces_rows :
  (forall (file : File) (c : Clock) (rs : list ContractData) (s : App.State),
      fst (excelUtils.readExcelFile file c) = Ok rs ->
      exists us,
        fst (App.handleImportExcel (Some file) c) = Ok us
        /\ App.rows (App.final s us) = rs
        /\ App.error (App.final s us) = None
        /\ App.isLoading (App.final s us) = false
        /\ Forall (fun s' => App.rows s' = App.rows s \/ App.rows s' = rs)
             (App.states s us))
  /\ (forall c : Clock, App.handleImportExcel None c = (Ok [], c)).
Proof.
  split; [| reflexivity].
  intros file c rs s Hrun.
  unfold App.handleImportExcel, try_catch. unfold bind at 1. unfold bind at 1.
  destruct (excelUtils.readExcelFile file c) as [x c'].
  simpl in Hrun; subst x. cbn.
  eexists; split; [reflexivity |]. cbn. repeat split.
  repeat (apply Forall_cons; split; [first [now left | now right] |]).
  apply Forall_nil_2.
Qed.

(** *** Names and statuses *)

Lemma or_else_truthy (a b : value) :
  truthy b = true -> truthy (or_else a b) = true.
Proof. intros Hb. unfold or_else. destruct (truthy a) eqn:E; assumption. Qed.

Lemma online_badge (r : ContractData) :
  status r = Text "online" ->
  num_lt (of_Z 30) (restDays r) = true ->
  shows Online r = true.
Proof.
  intros Hs Hlt. unfold shows, badge_of, App.getStatusBadge. rewrite Hs.
  destruct (restDays r) as [| [] | q]; try discriminate; try reflexivity.
  simpl in Hlt |- *.
  destruct (Qle_bool q (inject_Z 0)) eqn:E0.
  { apply Qle_bool_iff in E0.
    destruct (Qlt_le_dec (inject_Z 30) q) as [L | L].
    - exfalso. apply (Qlt_irrefl (inject_Z 30)).
      eapply Qlt_le_trans; [exact L |].
      eapply Qle_trans; [exact E0 |]. discriminate.
    - exfalso. revert Hlt. unfold of_Z, num_lt.
      destruct (Qle_bool q (inject_Z 30)) eqn:E; [| apply Qle_bool_iff in L; congruence].
      discriminate. }
  destruct (Qle_bool q (inject_Z 30)) eqn:E30; [discriminate Hlt | reflexivity].
Qed.

(** X17.  Names and statuses are never empty.  In the inline version the
    name and the status of a record are always truthy: the cell itself when
    it is truthy, whatever its type.  In [processExcelData] they are
    strings, and not empty when the cell is a string or falsy.  In both a
    missing, empty, zero or false cell gives Unbenannt and online, so a row
    of [processExcelData] without a status that has more than 30 days left
    is shown with the Online badge. *)
Theorem name_and_status_are_never_empty :
  (forall (item : RawRow) (index : nat) (c : Clock) (r : ContractData),
      fst (AppInline.formatItem item index c) = Ok r ->
      truthy (name r) = true /\ truthy (status r) = true
      /\ (truthy (get item "Name") = false -> name r = Text "Unbenannt")
      /\ (truthy (get item "Status") = false -> status r = Text "online"))
  /\
  (forall (item : RawRow) (index : nat) (c : Clock) (r : ContractData),
      fst (excelUtils.processItem item index c) = Ok r ->
      (is_Text (get item "Name") = true \/ truthy (get item "Name") = false ->
       truthy (name r) = true)
      /\ (is_Text (get item "Status") = true
          \/ truthy (get item "Status") = false ->
          truthy (status r) = true)
      /\ (truthy (get item "Name") = false -> name r = Text "Unbenannt")
      /\ (truthy (get item "Status") = false ->
          status r = Text "online"
          /\ (num_lt (of_Z 30) (restDays r) = true -> shows Online r = true))).
Proof.
  split; intros item index c r Hr.
  - destruct (formatItem_Ok_inv item index c r Hr) as (_ & -> & -> & _).
    repeat split; try (apply or_else_truthy; reflexivity);
      intros E; unfold or_else; rewrite E; reflexivity.
  - destruct (processItem_Ok_inv item index c r Hr) as (_ & Hn & Hs & _).
    assert (D : forall cell dflt,
               truthy (Text dflt) = true ->
               is_Text cell = true \/ truthy cell = false ->
               truthy (Text (ToString (or_else cell (Text dflt)))) = true).
    { intros cell dflt Hd [T | F]; unfold or_else.
      - destruct cell; try discriminate T.
        destruct (truthy (Text s)) eqn:E; [exact E | exact Hd].
      - rewrite F. exact Hd. }
    split; [rewrite Hn; apply D; reflexivity |].
    split; [rewrite Hs; apply D; reflexivity |].
    split.
    + intros E. rewrite Hn. unfold or_else. rewrite E. reflexivity.
    + intros E.
      assert (S' : status r = Text "online")
        by (rewrite Hs; unfold or_else; rewrite E; reflexivity).
      split; [exact S' | apply online_badge; exact S'].
Qed.

End MoreProperties.

(** * The further properties on concrete inputs *)

Lemma ids_are_row_positions_witness :
  exists rs,
    fst (@excelUtils.processExcelData Samples.host
           [Samples.zoom; Samples.undated] (frozen Samples.june1)) = Ok rs
    /\ length rs = 2%nat
    /\ forall (k : nat) (r : ContractData),
         rs !! k = Some r -> id r = of_Z (Z.of_nat k + 1).
Proof.
  set (rs := match fst (@excelUtils.processExcelData Samples.host
                          [Samples.zoom; Samples.undated]
                          (frozen Samples.june1)) with
             | Ok rs => rs
             | Throw _ => []
             end).
  assert (E : fst (@excelUtils.processExcelData Samples.host
                     [Samples.zoom; Samples.undated] (frozen Samples.june1))
              = Ok rs) by (vm_compute; reflexivity).
  exists rs. split; [exact E |].
  exact (proj1 (@ids_are_row_positions Samples.host)
           [Samples.zoom; Samples.undated] (frozen Samples.june1) rs E).
Defined.

Lemma import_is_all_or_nothing_witness :
  forallb (@end_date_ok MoreSamples.host) [Samples.zoom; Samples.undated]
  = true
  /\ (exists rs,
        fst (@excelUtils.processExcelData MoreSamples.host
               [Samples.zoom; Samples.undated] (frozen Samples.june1)) = Ok rs
        /\ length rs = 2%nat)
  /\ forallb (@end_date_ok MoreSamples.host)
       [Samples.zoom; MoreSamples.endless; Samples.undated] = false
  /\ fst (@excelUtils.processExcelData MoreSamples.host
            [Samples.zoom; MoreSamples.endless; Samples.undated]
            (frozen Samples.june1)) = Throw RangeError
  /\ exists us,
       fst (@App.handleImportExcel MoreSamples.host
              (Some MoreSamples.endless_file) (frozen Samples.june1)) = Ok us
       /\ App.rows (App.final {| App.rows := [Samples.zoom_record];
                                 App.isLoading := false;
                                 App.error := None |} us)
          = [Samples.zoom_record]
       /\ App.error (App.final {| App.rows := [Samples.zoom_record];
                                  App.isLoading := false;
                                  App.error := None |} us)
          = Some App.errorMessage.
Proof.
  assert (T : forallb (@end_date_ok MoreSamples.host)
                [Samples.zoom; Samples.undated] = true)
    by (vm_compute; reflexivity).
  assert (F : forallb (@end_date_ok MoreSamples.host)
                [Samples.zoom; MoreSamples.endless; Samples.undated] = false)
    by (vm_compute; reflexivity).
  split; [exact T |]. split.
  { exact (proj1 (@import_is_all_or_nothing MoreSamples.host
                    [Samples.zoom; Samples.undated] (frozen Samples.june1))
             T). }
  split; [exact F |].
  pose proof (proj2 (@import_is_all_or_nothing MoreSamples.host
                       [Samples.zoom; MoreSamples.endless; Samples.undated]
                       (frozen Samples.june1)) F) as [R K].
  split; [exact R |].
  refine (K MoreSamples.endless_file "PK endless.xlsx" MoreSamples.bad_book
            {| App.rows := [Samples.zoom_record];
               App.isLoading := false; App.error := None |} eq_refl _ _);
    vm_compute; reflexivity.
Defined.

Lemma undated_record_is_shown_expired_witness :
  fst (@excelUtils.processItem Samples.host Samples.undated 1
         (frozen Samples.june1)) = Ok Samples.undated_record
  /\ startDate Samples.undated_record = None
  /\ (endDate Samples.undated_record = None
      /\ restDays Samples.undated_record = of_Z 0
      /\ abgelaufeneMonate Samples.undated_record = of_Z 0
      /\ forall st : string,
           App.getStatusBadge st (restDays Samples.undated_record)
           = Abgelaufen)
  /\ fst (@AppInline.formatItem Samples.host Samples.undated 1
            (frozen Samples.june1)) = Ok Samples.undated_record
  /\ forall st : string,
       AppInline.getStatusBadge st (restDays Samples.undated_record)
       = Abgelaufen.
Proof.
  assert (E : fst (@excelUtils.processItem Samples.host Samples.undated 1
                     (frozen Samples.june1)) = Ok Samples.undated_record)
    by (vm_compute; reflexivity).
  assert (E' : fst (@AppInline.formatItem Samples.host Samples.undated 1
                      (frozen Samples.june1)) = Ok Samples.undated_record)
    by (vm_compute; reflexivity).
  split; [exact E |]. split; [reflexivity |]. split.
  { exact (proj1 (@undated_record_is_shown_expired Samples.host)
             Samples.undated 1%nat (frozen Samples.june1)
             Samples.undated_record E eq_refl). }
  split; [exact E' |].
  exact (proj2 (proj2 (proj2
           (proj2 (@undated_record_is_shown_expired Samples.host)
              Samples.undated 1%nat (frozen Samples.june1)
              Samples.undated_record E' eq_refl)))).
Defined.

Lemma no_duration_ends_at_start_witness :
  (forall d : Date, @addMonths Samples.host d (of_Z 0) = d)
  /\ fst (@excelUtils.processItem Samples.host Samples.unlimited 0
            (frozen Samples.june1)) = Ok Samples.unlimited_record
  /\ laufzeit Samples.unlimited_record = of_Z 0
  /\ endDate Samples.unlimited_record = startDate Samples.unlimited_record.
Proof.
  assert (A : forall d : Date, @addMonths Samples.host d (of_Z 0) = d)
    by (intros [| t]; reflexivity).
  assert (E : fst (@excelUtils.processItem Samples.host Samples.unlimited 0
                     (frozen Samples.june1)) = Ok Samples.unlimited_record)
    by (vm_compute; reflexivity).
  split; [exact A |]. split; [exact E |]. split; [reflexivity |].
  exact (proj1 (@no_duration_ends_at_start Samples.host A)
           Samples.unlimited 0%nat (frozen Samples.june1)
           Samples.unlimited_record E eq_refl).
Defined.

Lemma dotted_and_slashed_dates_always_parse_witness :
  @offsets_within_a_day Samples.host
  /\ trim " 31.02.2024" = pad 2 31 ++ "." ++ pad 2 2 ++ "." ++ pad 4 2024
  /\ @excelUtils.parseExcelDate Samples.host (Text " 31.02.2024")
     = Some (DateAt (MakeDate (MakeDay 2024 (2 - 1) 31) 0
                     - @LocalTZA Samples.host
                         (MakeDate (MakeDay 2024 (2 - 1) 31) 0) false))
  /\ MakeDay 2024 (2 - 1) 31 = MakeDay 2024 2 2.
Proof.
  assert (T : @offsets_within_a_day Samples.host)
    by (intros t isUTC; vm_compute; discriminate).
  assert (S : trim " 31.02.2024"
              = pad 2 31 ++ "." ++ pad 2 2 ++ "." ++ pad 4 2024)
    by (vm_compute; reflexivity).
  split; [exact T |]. split; [exact S |]. split; [| reflexivity].
  exact (@dotted_and_slashed_dates_always_parse Samples.host
           " 31.02.2024" 31 2 2024 ltac:(lia) ltac:(lia) ltac:(lia) T
           (or_introl S)).
Defined.

(** [parseInt] beyond 2^53: the digits 9007199254740993 are read as
    9007199254740992, and a tie goes to the even significand. *)
Lemma parseInt_rounds :
  parseInt "9007199254740993 Monate" = of_Z 9007199254740992
  /\ parseInt "9007199254740995" = of_Z 9007199254740996
  /\ parseInt "99999999999999999999" = of_Z 100000000000000000000
  /\ parseInt "9007199254740992" = of_Z 9007199254740992.
Proof. vm_compute. repeat split; reflexivity. Qed.

Lemma duration_text_leading_integer_witness :
  exists r,
    fst (@excelUtils.processItem Samples.host MoreSamples.with_unit 0
           (frozen Samples.june1)) = Ok r
    /\ get MoreSamples.with_unit "Laufzeit in M"
       = Text (" " ++ pad 1 6 ++ " Monate")
    /\ whitespace_only " " = true
    /\ stops " Monate"
    /\ laufzeit r = Number_of_Z 6
    /\ laufzeit r = of_Z 6.
Proof.
  set (r := match fst (@excelUtils.processItem Samples.host
                         MoreSamples.with_unit 0 (frozen Samples.june1)) with
            | Ok r => r
            | Throw _ => Samples.undated_record
            end).
  assert (E : fst (@excelUtils.processItem Samples.host MoreSamples.with_unit
                     0 (frozen Samples.june1)) = Ok r)
    by (vm_compute; reflexivity).
  assert (G : get MoreSamples.with_unit "Laufzeit in M"
              = Text (" " ++ pad 1 6 ++ " Monate"))
    by (vm_compute; reflexivity).
  assert (St : stops " Monate")
    by (split; [reflexivity | split; discriminate]).
  exists r. split; [exact E |]. split; [exact G |].
  split; [reflexivity |]. split; [exact St |].
  destruct (@duration_text_leading_integer Samples.host MoreSamples.with_unit
              0%nat (frozen Samples.june1) r " " " Monate" 0%nat 6
              E G eq_refl ltac:(lia) ltac:(lia) St) as [L X].
  split; [exact L | exact (X ltac:(lia))].
Defined.

Lemma filtering_imported_rows_never_throws_witness :
  exists rs,
    fst (@excelUtils.processExcelData Samples.host
           [Samples.zoom; Samples.undated] (frozen Samples.june1)) = Ok rs
    /\ (forall r, In r rs ->
          exists nm st, name r = Text nm /\ status r = Text st)
    /\ exists shown,
         @View.filteredRows Samples.host View.key_Abgelaufen "adobe" rs
           (frozen Samples.june1) = (Ok shown, frozen Samples.june1)
         /\ shown
            = List.filter (@keeps Samples.host View.key_Abgelaufen "adobe") rs
         /\ sublist shown rs.
Proof.
  set (rs := match fst (@excelUtils.processExcelData Samples.host
                          [Samples.zoom; Samples.undated]
                          (frozen Samples.june1)) with
             | Ok rs => rs
             | Throw _ => []
             end).
  assert (E : fst (@excelUtils.processExcelData Samples.host
                     [Samples.zoom; Samples.undated] (frozen Samples.june1))
              = Ok rs) by (vm_compute; reflexivity).
  exists rs. split; [exact E |].
  pose proof (@filtering_imported_rows_never_throws Samples.host
                [Samples.zoom; Samples.undated] (frozen Samples.june1) rs E)
    as [N F].
  split; [exact N |].
  exact (F View.key_Abgelaufen "adobe" (frozen Samples.june1)).
Defined.

Lemma numeric_name_breaks_filtering_witness :
  exists r,
    fst (@AppInline.formatItem Samples.host MoreSamples.numbered 0
           (frozen Samples.june1)) = Ok r
    /\ get MoreSamples.numbered "Name" = Number (of_Z 365)
    /\ num_truthy (of_Z 365) = true
    /\ name r = Number (of_Z 365)
    /\ @View.filteredRows Samples.host View.key_Alle EmptyString
         [Samples.zoom_record; r] (frozen Samples.june1)
       = (Throw TypeError, frozen Samples.june1).
Proof.
  set (r := match fst (@AppInline.formatItem Samples.host
                         MoreSamples.numbered 0 (frozen Samples.june1)) with
            | Ok r => r
            | Throw _ => Samples.undated_record
            end).
  assert (E : fst (@AppInline.formatItem Samples.host MoreSamples.numbered 0
                     (frozen Samples.june1)) = Ok r)
    by (vm_compute; reflexivity).
  assert (G : get MoreSamples.numbered "Name" = Number (of_Z 365))
    by (vm_compute; reflexivity).
  exists r. split; [exact E |]. split; [exact G |]. split; [reflexivity |].
  pose proof (@numeric_name_breaks_filtering Samples.host MoreSamples.numbered
                0%nat (frozen Samples.june1) r (of_Z 365) E G eq_refl)
    as [N F].
  split; [exact N |].
  exact (F [Samples.zoom_record; r] View.key_Alle EmptyString
           (frozen Samples.june1) (or_intror (or_introl eq_refl))).
Defined.

Lemma stats_count_the_badges_witness :
  (forall r, In r [Samples.zoom_record; Samples.undated_record] ->
     restDays r <> NaN /\ is_Text (status r) = true)
  /\ View.expired (View.stats [Samples.zoom_record; Samples.undated_record])
     = View.count (shows Abgelaufen)
         [Samples.zoom_record; Samples.undated_record]
  /\ View.online (View.stats [Samples.zoom_record; Samples.undated_record])
     = View.count (shows Online)
         [Samples.zoom_record; Samples.undated_record].
Proof.
  assert (N : forall r,
             In r [Samples.zoom_record; Samples.undated_record] ->
             restDays r <> NaN /\ is_Text (status r) = true).
  { intros r [<- | [<- | []]]; (split; [discriminate | reflexivity]). }
  split; [exact N |].
  pose proof (proj2 (stats_count_the_badges
                       [Samples.zoom_record; Samples.undated_record]) N)
    as (Ex & _ & On & _).
  split; [exact Ex | exact On].
Defined.

Lemma filters_and_counters_witness :
  forallb (fun r => is_Text (name r))
    [Samples.zoom_record; Samples.undated_record] = true
  /\ (exists shown,
        @View.filteredRows Samples.host View.key_Online EmptyString
          [Samples.zoom_record; Samples.undated_record]
          (frozen Samples.june1) = (Ok shown, frozen Samples.june1)
        /\ length shown
           = View.online
               (View.stats [Samples.zoom_record; Samples.undated_record]))
  /\ (exists shown,
        @View.filteredRows Samples.host View.key_Abgelaufen EmptyString
          [Samples.zoom_record; Samples.undated_record]
          (frozen Samples.june1) = (Ok shown, frozen Samples.june1)
        /\ (length shown
            < View.expired
                (View.stats [Samples.zoom_record; Samples.undated_record]))%nat).
Proof.
  assert (T : forallb (fun r => is_Text (name r))
                [Samples.zoom_record; Samples.undated_record] = true)
    by reflexivity.
  split; [exact T |].
  pose proof (@filters_and_counters Samples.host
                [Samples.zoom_record; Samples.undated_record]
                (frozen Samples.june1) T)
    as (On & (shown & E & _ & _ & L) & _).
  split; [exact On |].
  exists shown. split; [exact E |].
  apply L. exists Samples.undated_record.
  split; [right; left; reflexivity | split; reflexivity].
Defined.

Lemma filter_all_and_search_witness :
  "Neu" <> View.key_Faellig /\ "Neu" <> View.key_Abgelaufen
  /\ "Neu" <> View.key_Online
  /\ forallb (fun r => is_Text (name r))
       [Samples.zoom_record; Samples.undated_record] = true
  /\ @View.filteredRows Samples.host "Neu" "Zoom"
       [Samples.zoom_record; Samples.undated_record] (frozen Samples.june1)
     = @View.filteredRows Samples.host View.key_Alle "Zoom"
         [Samples.zoom_record; Samples.undated_record] (frozen Samples.june1)
  /\ @View.filteredRows Samples.host View.key_Alle EmptyString
       [Samples.zoom_record; Samples.undated_record] (frozen Samples.june1)
     = (Ok [Samples.zoom_record; Samples.undated_record],
        frozen Samples.june1).
Proof.
  assert (A : "Neu" <> View.key_Faellig) by discriminate.
  assert (B : "Neu" <> View.key_Abgelaufen) by discriminate.
  assert (C : "Neu" <> View.key_Online) by discriminate.
  assert (T : forallb (fun r => is_Text (name r))
                [Samples.zoom_record; Samples.undated_record] = true)
    by reflexivity.
  split; [exact A |]. split; [exact B |]. split; [exact C |].
  split; [exact T |]. split.
  { exact (proj1 (@filter_all_and_search Samples.host
                    [Samples.zoom_record; Samples.undated_record]
                    "Neu" "Zoom" (frozen Samples.june1)) A B C). }
  exact (proj2 (proj2 (@filter_all_and_search Samples.host
                         [Samples.zoom_record; Samples.undated_record]
                         "Neu" "Zoom" (frozen Samples.june1))) T).
Defined.

Lemma calendar_entries_come_from_end_dates_witness :
  (forall r, In r [Samples.zoom_record; Samples.undated_record] ->
     View.has_endDate r = true ->
     is_Some (@reparse Samples.host (endDate r)))
  /\ exists evs,
       @View.getCalendarEvents Samples.host
         [Samples.zoom_record; Samples.undated_record] (frozen Samples.june1)
       = (Ok evs, frozen Samples.june1)
       /\ length evs
          = View.count View.has_endDate
              [Samples.zoom_record; Samples.undated_record].
Proof.
  assert (R : forall r,
             In r [Samples.zoom_record; Samples.undated_record] ->
             View.has_endDate r = true ->
             is_Some (@reparse Samples.host (endDate r))).
  { intros r [<- | [<- | []]] E.
    - vm_compute. eexists. reflexivity.
    - discriminate E. }
  split; [exact R |].
  destruct (@calendar_entries_come_from_end_dates Samples.host
              [Samples.zoom_record; Samples.undated_record]
              (frozen Samples.june1))
    as (evs & E & _ & _ & L).
  exists evs. split; [exact E | exact (L R)].
Defined.

Lemma inline_import_updates_witness :
  readAsBinaryString MoreSamples.endless_file = Some "PK endless.xlsx"
  /\ @XLSX_read MoreSamples.host "PK endless.xlsx" = Ok MoreSamples.bad_book
  /\ @sheet_to_json MoreSamples.host
       (@first_sheet MoreSamples.host MoreSamples.bad_book)
     = Ok [Samples.zoom; MoreSamples.endless; Samples.undated]
  /\ (let run := @RawView.handleImportExcel MoreSamples.host MoreSamples.keys
                   (Some MoreSamples.endless_file) (frozen Samples.june1) in
      let s' := RawView.final
                  {| RawView.rows := [Samples.undated_record];
                     RawView.rawExcelData := [Samples.undated];
                     RawView.excelHeaders := ["Name"; "Laufzeit in M"] |}
                  (fst (fst run)) in
      RawView.rawExcelData s'
      = [Samples.zoom; MoreSamples.endless; Samples.undated]
      /\ RawView.excelHeaders s' = MoreSamples.keys Samples.zoom
      /\ snd (fst run) = Throw RangeError
      /\ RawView.rows s' = [Samples.undated_record]).
Proof.
  assert (F : readAsBinaryString MoreSamples.endless_file
              = Some "PK endless.xlsx") by reflexivity.
  assert (R : @XLSX_read MoreSamples.host "PK endless.xlsx"
              = Ok MoreSamples.bad_book) by (vm_compute; reflexivity).
  assert (J : @sheet_to_json MoreSamples.host
                (@first_sheet MoreSamples.host MoreSamples.bad_book)
              = Ok [Samples.zoom; MoreSamples.endless; Samples.undated])
    by (vm_compute; reflexivity).
  assert (T : fst (@AppInline.formatted MoreSamples.host
                     [Samples.zoom; MoreSamples.endless; Samples.undated]
                     (frozen Samples.june1)) = Throw RangeError)
    by (vm_compute; reflexivity).
  split; [exact F |]. split; [exact R |]. split; [exact J |].
  pose proof (proj1 (@inline_import_updates MoreSamples.host MoreSamples.keys
                       MoreSamples.endless_file "PK endless.xlsx"
                       (frozen Samples.june1)
                       {| RawView.rows := [Samples.undated_record];
                          RawView.rawExcelData := [Samples.undated];
                          RawView.excelHeaders := ["Name"; "Laufzeit in M"] |}
                       F)
                MoreSamples.bad_book
                [Samples.zoom; MoreSamples.endless; Samples.undated] R J)
    as P.
  cbv zeta in P |- *. rewrite T in P.
  destruct P as (P1 & P2 & P3 & P4).
  split; [exact P1 |]. split; [exact P2 |]. split; [exact P3 | exact P4].
Defined.

Lemma raw_view_is_aligned_witness :
  [Samples.zoom; Samples.undated] !! 1%nat = Some Samples.undated
  /\ MoreSamples.keys Samples.zoom !! (3 + 0)%nat = Some "Laufzeit in M"
  /\ RawView.getHeadersFromColumn4
       {| RawView.rows := [];
          RawView.rawExcelData := [Samples.zoom; Samples.undated];
          RawView.excelHeaders := MoreSamples.keys Samples.zoom |} !! 0%nat
     = Some "Laufzeit in M"
  /\ exists line,
       RawView.getRawDataFromColumn4
         {| RawView.rows := [];
            RawView.rawExcelData := [Samples.zoom; Samples.undated];
            RawView.excelHeaders := MoreSamples.keys Samples.zoom |} !! 1%nat
       = Some line
       /\ line !! 0%nat
          = Some (default Missing (Samples.undated !! "Laufzeit in M")).
Proof.
  split; [reflexivity |]. split; [reflexivity |].
  exact (proj2 (proj2 (proj2
           (raw_view_is_aligned
              {| RawView.rows := [];
                 RawView.rawExcelData := [Samples.zoom; Samples.undated];
                 RawView.excelHeaders := MoreSamples.keys Samples.zoom |})))
           1%nat 0%nat Samples.undated "Laufzeit in M" eq_refl eq_refl).
Defined.

Lemma successful_import_replaces_rows_witness :
  exists rs,
    fst (@excelUtils.readExcelFile Samples.host Samples.sample_file
           (frozen Samples.june1)) = Ok rs
    /\ exists us,
         fst (@App.handleImportExcel Samples.host (Some Samples.sample_file)
                (frozen Samples.june1)) = Ok us
         /\ App.rows (App.final {| App.rows := [Samples.minus5_record];
                                   App.isLoading := false;
                                   App.error := Some App.errorMessage |} us)
            = rs
         /\ App.error (App.final {| App.rows := [Samples.minus5_record];
                                    App.isLoading := false;
                                    App.error := Some App.errorMessage |} us)
            = None.
Proof.
  set (rs := match fst (@excelUtils.readExcelFile Samples.host
                          Samples.sample_file (frozen Samples.june1)) with
             | Ok rs => rs
             | Throw _ => []
             end).
  assert (E : fst (@excelUtils.readExcelFile Samples.host Samples.sample_file
                     (frozen Samples.june1)) = Ok rs)
    by (vm_compute; reflexivity).
  exists rs. split; [exact E |].
  destruct (proj1 (@successful_import_replaces_rows Samples.host)
              Samples.sample_file (frozen Samples.june1) rs
              {| App.rows := [Samples.minus5_record];
                 App.isLoading := false;
                 App.error := Some App.errorMessage |} E)
    as (us & U & Rw & Er & _).
  exists us. split; [exact U |]. split; [exact Rw | exact Er].
Defined.

Lemma name_and_status_are_never_empty_witness :
  exists r,
    fst (@excelUtils.processItem Samples.host MoreSamples.anonymous 0
           (frozen Samples.june1)) = Ok r
    /\ truthy (get MoreSamples.anonymous "Name") = false
    /\ truthy (get MoreSamples.anonymous "Status") = false
    /\ num_lt (of_Z 30) (restDays r) = true
    /\ name r = Text "Unbenannt"
    /\ status r = Text "online"
    /\ shows Online r = true.
Proof.
  set (r := match fst (@excelUtils.processItem Samples.host
                         MoreSamples.anonymous 0 (frozen Samples.june1)) with
            | Ok r => r
            | Throw _ => Samples.undated_record
            end).
  assert (E : fst (@excelUtils.processItem Samples.host MoreSamples.anonymous
                     0 (frozen Samples.june1)) = Ok r)
    by (vm_compute; reflexivity).
  assert (N : truthy (get MoreSamples.anonymous "Name") = false)
    by (vm_compute; reflexivity).
  assert (S : truthy (get MoreSamples.anonymous "Status") = false)
    by (vm_compute; reflexivity).
  assert (L : num_lt (of_Z 30) (restDays r) = true)
    by (vm_compute; reflexivity).
  exists r. split; [exact E |]. split; [exact N |]. split; [exact S |].
  split; [exact L |].
  destruct (proj2 (@name_and_status_are_never_empty Samples.host)
              MoreSamples.anonymous 0%nat (frozen Samples.june1) r E)
    as (_ & _ & Hn & Hs).
  split; [exact (Hn N) |].
  destruct (Hs S) as [St On].
  split; [exact St | exact (On L)].
Defined.
